(** * WordPress MCP server: site registry, tool registry and dispatcher

    A shallow embedding of the registration and dispatch core of the
    WordPress MCP server (src/server.js, the site storage and site manager
    modules, and the tool modules), with the properties of its
    specification stated and proved over the embedding.

    JavaScript objects are finite maps from property names to values,
    arrays are lists, [Map] is a finite map, exceptions are an explicit
    [Throw] outcome, and the mutable [SiteStorage] instance is threaded as
    explicit state. *)

From Stdlib Require Import Ascii.
From stdpp Require Import gmap strings list fin_maps pretty.

Set Warnings "-register-all".
Open Scope string_scope.

(** ** JavaScript values *)

Module Js.

(** The values that travel through the modelled code: [undefined] and the
    JSON values.  A number is an integer that a Number holds exactly. *)
Inductive value :=
  | VUndefined
  | VNull
  | VBool (b : bool)
  | VNum (n : Z)
  | VStr (s : string)
  | VArr (items : list value)
  | VObj (fields : gmap string value).

(** [o.k] for an object [o] built from a literal, a spread or a decoded JSON
    document: a property that is not there reads as [undefined]. *)
Definition prop (o : gmap string value) (k : string) : value :=
  default VUndefined (o !! k).

(** ToBoolean. *)
Definition truthy (v : value) : bool :=
  match v with
  | VUndefined | VNull => false
  | VBool b => b
  | VNum n => negb (n =? 0)%Z
  | VStr s => negb (bool_decide (s = ""))
  | VArr _ | VObj _ => true
  end.

(** [a === b].  Arrays and objects compare by identity; the operands the
    modelled code compares come from two different decoded requests or
    documents, so two compound values are never the same reference. *)
Definition strict_eq (a b : value) : bool :=
  match a, b with
  | VUndefined, VUndefined => true
  | VNull, VNull => true
  | VBool x, VBool y => bool_decide (x = y)
  | VNum x, VNum y => bool_decide (x = y)
  | VStr x, VStr y => bool_decide (x = y)
  | _, _ => false
  end.

(** [a || b]. *)
Definition or_else (a b : value) : value := if truthy a then a else b.

(** Thrown values.  Everything the modelled code throws is an [Error]
    object: its own [new Error(...)], or a [TypeError] raised by the engine,
    whose message is the text Node's engine gives it. *)
Inductive error :=
  | Error (msg : string)
  | TypeError (msg : string).

Definition message (e : error) : string :=
  match e with Error m | TypeError m => m end.

Inductive outcome (A : Type) :=
  | Return (a : A)
  | Throw (e : error).
Arguments Return {A} a.
Arguments Throw {A} e.

(** Sequencing of computations that may throw. *)
Definition and_then {A B} (o : outcome A) (k : A → outcome B) : outcome B :=
  match o with
  | Return a => k a
  | Throw e => Throw e
  end.

(** *** Number::toString

    A Number prints as the shortest decimal that reads back as the same
    Number, in positional form below 10^21 and in exponent form from there
    on.  Up to 2^53 that decimal is the integer itself. *)

(** The number of decimal digits of a positive integer. *)
Definition digits (a : Z) : Z := Z.of_nat (String.length (pretty a)).

(** Whether the integer [v] is read as the Number [a]: it lies within half
    a unit in the last place of [a], the bounds included when the
    significand of [a] is even. *)
Definition reads_as (a v : Z) : bool :=
  let u := (2 ^ (Z.log2 a - 52))%Z in
  let m := (a / u)%Z in
  let low4 := (if bool_decide (m = 2 ^ 52) then 4 * a - u else 4 * a - 2 * u)%Z in
  let high4 := (4 * a + 2 * u)%Z in
  if Z.even m then bool_decide (low4 ≤ 4 * v ≤ high4)%Z
  else bool_decide (low4 < 4 * v < high4)%Z.

(** The shortest decimal that is read as [a], searched by the number [k] of
    its significant digits; of two candidates the nearer one, and the even
    one when they are equally near. *)
Fixpoint shortest (fuel : nat) (a k : Z) : Z :=
  match fuel with
  | O => a
  | S fuel' =>
      let s := (10 ^ (digits a - k))%Z in
      let lo := (a / s * s)%Z in
      let hi := (lo + s)%Z in
      let lo_ok := reads_as a lo in
      let hi_ok := reads_as a hi in
      if lo_ok && hi_ok then
        (if bool_decide (a - lo < hi - a)%Z then lo
         else if bool_decide (hi - a < a - lo)%Z then hi
         else if Z.even (a / s) then lo else hi)
      else if lo_ok then lo
      else if hi_ok then hi
      else shortest fuel' a (k + 1)%Z
  end.

Fixpoint strip_zeros (fuel : nat) (v : Z) : Z :=
  match fuel with
  | O => v
  | S fuel' => if bool_decide (v `mod` 10 = 0)%Z then strip_zeros fuel' (v / 10)%Z else v
  end.

Definition positive_to_string (a : Z) : string :=
  if bool_decide (a ≤ 2 ^ 53)%Z then pretty a
  else
    let v := shortest (Z.to_nat (digits a)) a 1 in
    if bool_decide (digits v ≤ 21)%Z then pretty v
    else
      match pretty (strip_zeros (Z.to_nat (digits v)) v) with
      | String d EmptyString => String d ("e+" +:+ pretty (digits v - 1)%Z)
      | String d rest => String d ("." +:+ rest +:+ "e+" +:+ pretty (digits v - 1)%Z)
      | EmptyString => EmptyString
      end.

Definition number_to_string (n : Z) : string :=
  if bool_decide (n < 0)%Z then "-" +:+ positive_to_string (- n)%Z
  else positive_to_string n.

(** The engine's [TypeError] for an object that has no primitive value. *)
Definition cannot_convert : error :=
  TypeError "Cannot convert object to primitive value".

(** [Array.prototype.join]: the printed elements with commas between
    them. *)
Fixpoint join (print : value → outcome string) (l : list value) : outcome string :=
  match l with
  | [] => Return ""
  | x :: rest =>
      and_then (print x)
        (fun first =>
           match rest with
           | [] => Return first
           | _ => and_then (join print rest)
                    (fun others => Return (first +:+ "," +:+ others))
           end)
  end.

(** ToString, as a template literal applies it.  A decoded object prints as
    [[object Object]] through [Object.prototype.toString], unless it has a
    property of its own named [toString]: that property is no function, the
    inherited [valueOf] returns the object itself, and the conversion
    throws.  An array prints its elements joined by commas, [undefined] and
    [null] as nothing. *)
Fixpoint to_string (v : value) : outcome string :=
  match v with
  | VUndefined => Return "undefined"
  | VNull => Return "null"
  | VBool true => Return "true"
  | VBool false => Return "false"
  | VNum n => Return (number_to_string n)
  | VStr s => Return s
  | VArr items =>
      join (fun x => match x with
                     | VUndefined | VNull => Return ""
                     | _ => to_string x
                     end) items
  | VObj fields =>
      if bool_decide (is_Some (fields !! "toString")) then Throw cannot_convert
      else Return "[object Object]"
  end.

(** The interpolations of a template literal are converted from left to
    right; the first conversion that throws ends the evaluation. *)
Fixpoint interpolate (vs : list value) : outcome (list string) :=
  match vs with
  | [] => Return []
  | v :: rest =>
      and_then (to_string v)
        (fun s => and_then (interpolate rest) (fun ss => Return (s :: ss)))
  end.

(** The engine's messages for a call of something that is not a function and
    for a property read on [undefined] or [null]. *)
Definition not_a_function (callee : string) : error :=
  TypeError (callee +:+ " is not a function").

Definition cannot_read (base : value) (k : string) : error :=
  TypeError ("Cannot read properties of " +:+
             (match base with VNull => "null" | _ => "undefined" end) +:+
             " (reading '" +:+ k +:+ "')").

(** The double quote character, for messages that quote a value. *)
Definition dq : string := String (ascii_of_nat 34) EmptyString.

(** [s.replace(/\/$/, '')]: one trailing slash is removed. *)
Fixpoint strip_trailing_slash (s : string) : string :=
  match s with
  | EmptyString => EmptyString
  | String c EmptyString => if bool_decide (c = "/"%char) then EmptyString else s
  | String c rest => String c (strip_trailing_slash rest)
  end.

(** [v.replace(/\/$/, '')] for a value [v] named [what] in the source: only
    a string has the method. *)
Definition replace_trailing_slash (what : string) (v : value) : outcome string :=
  match v with
  | VStr s => Return (strip_trailing_slash s)
  | VUndefined | VNull => Throw (cannot_read v "replace")
  | _ => Throw (not_a_function (what +:+ ".replace"))
  end.

End Js.
Export Js.

(** ** Stateful computations that may throw *)

Module Eff.

(** A method of an object with mutable state [S]: it returns or throws, and
    leaves a state behind either way. *)
Definition M (S A : Type) : Type := S → outcome A * S.

Definition ret {S A} (a : A) : M S A := fun st => (Return a, st).
Definition throw {S A} (e : error) : M S A := fun st => (Throw e, st).
Definition bind {S A B} (m : M S A) (k : A → M S B) : M S B :=
  fun st => match m st with
            | (Return a, st') => k a st'
            | (Throw e, st') => (Throw e, st')
            end.
Definition gets {S A} (f : S → A) : M S A := fun st => (Return (f st), st).
Definition modify {S} (f : S → S) : M S unit := fun st => (Return tt, f st).

(** A pure computation that may throw, run inside a method. *)
Definition lift {S A} (o : outcome A) : M S A := fun st => (o, st).

(** [try { body } catch (error) { handler(error) }]. *)
Definition try_catch {S A} (body : M S A) (handler : error → M S A) : M S A :=
  fun st => match body st with
            | (Return a, st') => (Return a, st')
            | (Throw e, st') => handler e st'
            end.

(** [console.error(`...${v1}...${v2}...`)]: the text goes to the log, which
    is not modelled; evaluating the template may throw. *)
Definition log {S} (interpolated : list value) : M S unit :=
  match interpolate interpolated with
  | Return _ => ret tt
  | Throw e => throw e
  end.

End Eff.
Export Eff.

Notation "'let!' x ':=' m 'in' k" := (bind m (fun x => k))
  (at level 10, x name, m at level 100, k at level 200).
Notation "m ';;' k" := (bind m (fun _ => k))
  (at level 100, k at level 200, right associativity).
Notation "'let?' x ':=' o 'in' k" := (and_then o (fun x => k))
  (at level 10, x name, o at level 100, k at level 200).

(** ** Site storage (class SiteStorage) *)

Module SiteStorage.

(** The configuration document [{ sites: [...], activeSiteId }].  Its
    [server] section is not read by the site registry and is left out. *)
Record Config := mkConfig {
  sites : list (gmap string value);
  activeSiteId : value
}.

(** The instance: [this.config], and the document last written to
    [this.configPath] ([None]: nothing written yet).  A JSON text is
    represented by the value handed to [JSON.stringify]. *)
Record t := mkStorage {
  config : Config;
  configFile : option Config
}.

(** [saveConfig]: the whole document is rewritten.  The write is taken to
    succeed: a failing write, which the source reports by throwing
    "[SiteStorage] Failed to save configuration: ..." when [this.config] has
    already been changed, is an input/output fault outside this model. *)
Definition saveConfig : M t unit :=
  modify (fun st => {| config := config st; configFile := Some (config st) |}).

Definition getAllSites (c : Config) : list (gmap string value) := sites c.

(** [this.config.sites.find(site => site.id === id) || null] *)
Definition getSiteById (id : value) (c : Config) : option (gmap string value) :=
  List.find (fun site => strict_eq (prop site "id") id) (sites c).

Definition getSiteByName (name : value) (c : Config) : option (gmap string value) :=
  List.find (fun site => strict_eq (prop site "name") name) (sites c).

(** [Array.prototype.find] with a callback that may throw. *)
Fixpoint find_throwing {A} (f : A → outcome bool) (l : list A) : outcome (option A) :=
  match l with
  | [] => Return None
  | x :: rest =>
      match f x with
      | Throw e => Throw e
      | Return true => Return (Some x)
      | Return false => find_throwing f rest
      end
  end.

Definition getSiteByUrl (url : value) (c : Config) : outcome (option (gmap string value)) :=
  match replace_trailing_slash "url" url with
  | Throw e => Throw e
  | Return normalizedUrl =>
      find_throwing
        (fun site =>
           match replace_trailing_slash "site.url" (prop site "url") with
           | Throw e => Throw e
           | Return siteUrl => Return (bool_decide (siteUrl = normalizedUrl))
           end)
        (sites c)
  end.

(** [this.config.sites.findIndex(site => site.id === id)]; [None] is -1. *)
Fixpoint findIndex {A} (f : A → bool) (l : list A) : option nat :=
  match l with
  | [] => None
  | x :: rest => if f x then Some 0 else S <$> findIndex f rest
  end.

Definition set_sites (f : list (gmap string value) → list (gmap string value)) (st : t) : t :=
  {| config := {| sites := f (sites (config st));
                  activeSiteId := activeSiteId (config st) |};
     configFile := configFile st |}.

Definition set_activeSiteId (id : value) (st : t) : t :=
  {| config := {| sites := sites (config st); activeSiteId := id |};
     configFile := configFile st |}.

(** [addSite(site)].  [uuid] is what [uuidv4()] gives, [createdAt] and
    [updatedAt] are the two readings of the clock.  The last statement
    before the return writes a line to the log; its template is evaluated
    when the site is already stored and written. *)
Definition addSite (uuid createdAt updatedAt : string) (site : gmap string value)
  : M t (gmap string value) :=
  if negb (truthy (prop site "name")) then
    throw (Error "[SiteStorage] Missing required field: name")
  else if negb (truthy (prop site "url")) then
    throw (Error "[SiteStorage] Missing required field: url")
  else
    let! byName := gets (fun st => getSiteByName (prop site "name") (config st)) in
    if bool_decide (is_Some byName) then
      let! name := lift (to_string (prop site "name")) in
      throw (Error ("[SiteStorage] A site with the name " +:+ dq +:+
                    name +:+ dq +:+ " already exists"))
    else
      let! byUrl := (fun st => (getSiteByUrl (prop site "url") (config st), st)) in
      if bool_decide (is_Some byUrl) then
        let! url := lift (to_string (prop site "url")) in
        throw (Error ("[SiteStorage] A site with the URL " +:+ dq +:+
                      url +:+ dq +:+ " already exists"))
      else
        let id := or_else (prop site "id") (VStr uuid) in
        let newSite : gmap string value :=
          <["id" := id]> (<["name" := prop site "name"]> (<["url" := prop site "url"]>
          (<["username" := prop site "username"]>
          (<["applicationPassword" := prop site "applicationPassword"]>
          (<["createdAt" := VStr createdAt]> (<["updatedAt" := VStr updatedAt]> ∅)))))) in
        modify (set_sites (fun l => (l ++ [newSite])%list)) ;;
        saveConfig ;;
        log [prop newSite "name"; prop newSite "id"] ;;
        ret newSite.

(** [updateSite(id, updates)]; [now] is the reading of the clock. *)
Definition updateSite (now : string) (id : value) (updates : gmap string value)
  : M t (gmap string value) :=
  let! siteIndex := gets (fun st => findIndex (fun site => strict_eq (prop site "id") id)
                                              (sites (config st))) in
  match siteIndex with
  | None =>
      let! shown := lift (to_string id) in
      throw (Error ("[SiteStorage] Site not found: " +:+ shown))
  | Some i =>
      let! currentSite := gets (fun st => default ∅ (sites (config st) !! i)) in
      let! byName := gets (fun st => getSiteByName (prop updates "name") (config st)) in
      if truthy (prop updates "name")
         && negb (strict_eq (prop updates "name") (prop currentSite "name"))
         && bool_decide (is_Some byName) then
        let! name := lift (to_string (prop updates "name")) in
        throw (Error ("[SiteStorage] A site with the name " +:+ dq +:+
                      name +:+ dq +:+ " already exists"))
      else
        let! byUrl :=
          (if truthy (prop updates "url")
              && negb (strict_eq (prop updates "url") (prop currentSite "url"))
           then fun st => (getSiteByUrl (prop updates "url") (config st), st)
           else ret None) in
        if bool_decide (is_Some byUrl) then
          let! url := lift (to_string (prop updates "url")) in
          throw (Error ("[SiteStorage] A site with the URL " +:+ dq +:+
                        url +:+ dq +:+ " already exists"))
        else
          let updatedSite : gmap string value :=
            <["updatedAt" := VStr now]> (updates ∪ currentSite) in
          modify (set_sites (fun l => <[i := updatedSite]> l)) ;;
          saveConfig ;;
          log [prop updatedSite "name"; prop updatedSite "id"] ;;
          ret updatedSite
  end.

(** [removeSite(id)] *)
Definition removeSite (id : value) : M t bool :=
  let! siteIndex := gets (fun st => findIndex (fun site => strict_eq (prop site "id") id)
                                              (sites (config st))) in
  match siteIndex with
  | None => ret false
  | Some i =>
      let! siteName := gets (fun st => prop (default ∅ (sites (config st) !! i)) "name") in
      modify (set_sites (fun l => delete i l)) ;;
      saveConfig ;;
      log [siteName; id] ;;
      ret true
  end.

(** [setActiveSite(id)] *)
Definition setActiveSite (id : value) : M t (gmap string value) :=
  let! found := gets (fun st => getSiteById id (config st)) in
  match found with
  | None =>
      let! shown := lift (to_string id) in
      throw (Error ("[SiteStorage] Site not found: " +:+ shown))
  | Some site =>
      modify (set_activeSiteId id) ;;
      saveConfig ;;
      log [prop site "name"; prop site "id"] ;;
      ret site
  end.

(** [getActiveSite()] *)
Definition getActiveSite (c : Config) : option (gmap string value) :=
  if negb (truthy (activeSiteId c)) then None
  else getSiteById (activeSiteId c) c.

End SiteStorage.

(** ** Reading decoded JSON *)

Module Json.

(** [v.k] for a value [v] decoded from JSON and a key [k] that names no
    method of the engine's prototypes (the one such key the handlers read,
    [link], is read on a string only after [title.rendered] has thrown; a
    method would not be written by [JSON.stringify] either). *)
Definition get (v : value) (k : string) : outcome value :=
  match v with
  | VUndefined | VNull => Throw (cannot_read v k)
  | VObj fields => Return (prop fields k)
  | VArr items =>
      Return (if bool_decide (k = "length") then VNum (Z.of_nat (length items))
              else VUndefined)
  | VStr s =>
      Return (if bool_decide (k = "length") then VNum (Z.of_nat (String.length s))
              else VUndefined)
  | VBool _ | VNum _ => Return VUndefined
  end.

(** [base.m(...)] for a value that has no callable property [m]. *)
Definition call_missing (what : string) (base : value) (m : string) : error :=
  match base with
  | VUndefined | VNull => cannot_read base m
  | _ => not_a_function (what +:+ "." +:+ m)
  end.

Fixpoint mapM {A B} (f : A → outcome B) (l : list A) : outcome (list B) :=
  match l with
  | [] => Return []
  | x :: rest =>
      match f x with
      | Throw e => Throw e
      | Return y =>
          match mapM f rest with
          | Throw e => Throw e
          | Return ys => Return (y :: ys)
          end
      end
  end.

(** [v.map(f)]: only an array has the method. *)
Definition array_map (what : string) (v : value) (f : value → outcome value)
  : outcome value :=
  match v with
  | VArr items =>
      match mapM f items with
      | Throw e => Throw e
      | Return ys => Return (VArr ys)
      end
  | _ => Throw (call_missing what v "map")
  end.

Definition indices (n : nat) : list value :=
  map (fun i => VStr (pretty i)) (seq 0 n).

(** [Object.keys(v)] for a truthy value.  The keys of an object come in the
    order of the document it was decoded from, which the finite map does
    not record: [order] supplies it. *)
Definition object_keys (order : gmap string value → list string) (v : value) : value :=
  match v with
  | VObj fields => VArr (map VStr (order fields))
  | VArr items => VArr (indices (length items))
  | VStr s => VArr (indices (String.length s))
  | _ => VArr []
  end.

(** [JSON.parse(JSON.stringify(v))], what the reader of an encoded text
    gets: a property holding [undefined] is not written, and an
    [undefined] element of an array is written as [null]. *)
Fixpoint decoded (v : value) : value :=
  match v with
  | VArr items =>
      VArr (map (fun x => match x with
                          | VUndefined => VNull
                          | _ => decoded x
                          end) items)
  | VObj fields =>
      VObj (omap (fun x => match x with
                           | VUndefined => None
                           | _ => Some (decoded x)
                           end) fields)
  | other => other
  end.

(** [o.k1.k2...] *)
Fixpoint path (v : value) (keys : list string) : outcome value :=
  match keys with
  | [] => Return v
  | k :: rest => let? w := get v k in path w rest
  end.

(** An object literal whose property values are computed in order; the
    first one that throws ends the evaluation. *)
Fixpoint literal_fields (fields : list (string * outcome value))
  : outcome (list (string * value)) :=
  match fields with
  | [] => Return []
  | (k, o) :: rest =>
      let? v := o in
      let? vs := literal_fields rest in
      Return ((k, v) :: vs)
  end.

Definition literal (fields : list (string * outcome value)) : outcome value :=
  let? kvs := literal_fields fields in
  Return (VObj (list_to_map kvs)).

(** An object literal [{k1, k2, ...}] filled from [args], after
    [Object.keys(o).forEach(key => { if (o[key] === undefined) delete o[key] })]. *)
Definition pick (keys : list string) (args : gmap string value) : gmap string value :=
  list_to_map (omap (fun k => match prop args k with
                              | VUndefined => None
                              | v => Some (k, v)
                              end) keys).

End Json.

(** ** The WordPress client (wordpress/client.js, auth.js, index.js) *)

Module WordPress.

(** A constructed [WordPressClient]: the normalized url and the credentials. *)
Record WordPressClient := mkClient {
  url : string;
  username : value;
  applicationPassword : value
}.

(** What the outside world supplies during one call. *)
Record Env := mkEnv {
  (** the identifier [uuidv4()] produces *)
  uuidv4 : string;
  (** the n-th reading of [new Date().toISOString()] *)
  now : nat → string;
  (** the guarded block of [validateCredentials]: the request to
      [/wp-json/wp/v2/users/me] and the decoding of its answer *)
  users_me : value → value → value → outcome value;
  (** [WordPressClient.request({method, endpoint, params, data})] *)
  request : WordPressClient → string → string → value → value → outcome value;
  (** [wooCommerceApi.post(endpoint, data)] of the module-level WooCommerce
      client of woo-order-tools.js *)
  wooCommerceApi_post : string → value → outcome value;
  (** the order in which a decoded answer lists the keys of an object *)
  key_order : gmap string value → list string
}.

(** [createAuthHeaders({ username, applicationPassword })] of auth.js, called
    with two truthy credentials: the text [username:applicationPassword]
    that is encoded into the [Authorization] header.  Its template literal
    converts both to strings. *)
Definition createAuthHeaders (username applicationPassword : value) : outcome string :=
  if negb (truthy username) || negb (truthy applicationPassword) then
    Throw (Error "[Auth] Missing required credentials")
  else
    let? u := to_string username in
    let? p := to_string applicationPassword in
    Return (u +:+ ":" +:+ p).

(** [new WordPress(options)], that is [new WordPressClient(options)]: the
    url is required and normalized, and with a username and a password the
    authentication headers are prepared. *)
Definition new_WordPress (options : gmap string value) : outcome WordPressClient :=
  if negb (truthy (prop options "url")) then
    Throw (Error "[Client] Missing required option: url")
  else
    let? u := replace_trailing_slash "this.url" (prop options "url") in
    let? _ := (if truthy (prop options "username")
                  && truthy (prop options "applicationPassword")
               then createAuthHeaders (prop options "username")
                      (prop options "applicationPassword")
               else Return "") in
    Return {| url := u;
              username := prop options "username";
              applicationPassword := prop options "applicationPassword" |}.

Definition get (env : Env) (c : WordPressClient) (endpoint : string) (params : value)
  : outcome value := request env c "GET" endpoint params VUndefined.
Definition post (env : Env) (c : WordPressClient) (endpoint : string) (data : value)
  : outcome value := request env c "POST" endpoint (VObj ∅) data.
Definition put (env : Env) (c : WordPressClient) (endpoint : string) (data : value)
  : outcome value := request env c "PUT" endpoint (VObj ∅) data.
Definition delete (env : Env) (c : WordPressClient) (endpoint : string) (params : value)
  : outcome value := request env c "DELETE" endpoint params VUndefined.

(** [validateCredentials(options)] of auth.js *)
Definition validateCredentials (env : Env) (url username applicationPassword : value)
  : outcome value :=
  if negb (truthy url) || negb (truthy username) || negb (truthy applicationPassword) then
    Throw (Error "[Auth] Missing required credentials")
  else
    let guarded :=
      match users_me env url username applicationPassword with
      | Throw e => Throw e
      | Return userData =>
          match Json.get userData "id" with
          | Throw e => Throw e
          | Return id =>
              match Json.get userData "name", Json.get userData "roles",
                    Json.get userData "capabilities" with
              | Return name, Return roles, Return capabilities =>
                  Return (VObj (<["id" := id]> (<["name" := name]>
                          (<["roles" := roles]> (<["capabilities" := capabilities]> ∅)))))
              | Throw e, _, _ | _, Throw e, _ | _, _, Throw e => Throw e
              end
          end
      end in
    match guarded with
    | Return v => Return v
    | Throw e => Throw (Error ("[Auth] Failed to validate credentials: " +:+ message e))
    end.

(** [ping()] *)
Definition ping (env : Env) (c : WordPressClient) : bool :=
  match get env c "/" (VObj ∅) with
  | Return _ => true
  | Throw _ => false
  end.

(** [getSiteInfo()] *)
Definition getSiteInfo (env : Env) (c : WordPressClient) : outcome value :=
  let guarded :=
    match get env c "/" (VObj ∅) with
    | Throw e => Throw e
    | Return response =>
        match Json.get response "name" with
        | Throw e => Throw e
        | Return name =>
            let field k := match Json.get response k with
                           | Return v => v
                           | Throw _ => VUndefined
                           end in
            Return (VObj (<["name" := name]> (<["description" := field "description"]>
                    (<["url" := field "url"]> (<["home" := field "home"]>
                    (<["gmt_offset" := field "gmt_offset"]>
                    (<["timezone_string" := field "timezone_string"]>
                    (<["namespaces" := field "namespaces"]>
                    (<["authentication" := field "authentication"]>
                    (<["routes" := Json.object_keys (key_order env)
                                     (or_else (field "routes") (VObj ∅))]> ∅))))))))))
        end
    end in
  match guarded with
  | Return v => Return v
  | Throw e => Throw (Error ("[WordPress] Failed to get site info: " +:+ message e))
  end.

End WordPress.

(** ** Site manager (class SiteManager) *)

Module SiteManager.

(** The manager owns one [SiteStorage]; its state is the storage's. *)
Abbreviation State := SiteStorage.t.

Definition getAllSites : M State (list (gmap string value)) :=
  gets (fun st => SiteStorage.getAllSites (SiteStorage.config st)).
Definition getSiteById (id : value) : M State (option (gmap string value)) :=
  gets (fun st => SiteStorage.getSiteById id (SiteStorage.config st)).
Definition getSiteByName (name : value) : M State (option (gmap string value)) :=
  gets (fun st => SiteStorage.getSiteByName name (SiteStorage.config st)).
Definition getActiveSite : M State (option (gmap string value)) :=
  gets (fun st => SiteStorage.getActiveSite (SiteStorage.config st)).
Definition removeSite (id : value) : M State bool := SiteStorage.removeSite id.
Definition setActiveSite (id : value) : M State (gmap string value) :=
  SiteStorage.setActiveSite id.

(** The [try { await validateCredentials(...) } catch] of [addSite] and
    [updateSite]. *)
Definition validate (env : WordPress.Env) (url username applicationPassword : value)
  : M State unit :=
  match WordPress.validateCredentials env url username applicationPassword with
  | Return _ => ret tt
  | Throw e =>
      throw (Error ("[SiteManager] Failed to validate site credentials: " +:+ message e))
  end.

(** [addSite(site)] *)
Definition addSite (env : WordPress.Env) (site : gmap string value) : M State (gmap string value) :=
  (if negb (strict_eq (prop site "validate") (VBool false))
      && truthy (prop site "username") && truthy (prop site "applicationPassword")
   then validate env (prop site "url") (prop site "username")
                 (prop site "applicationPassword")
   else ret tt) ;;
  SiteStorage.addSite (WordPress.uuidv4 env) (WordPress.now env 0) (WordPress.now env 1) site.

(** [updateSite(id, updates)] *)
Definition updateSite (env : WordPress.Env) (id : value) (updates : gmap string value)
  : M State (gmap string value) :=
  let! found := getSiteById id in
  match found with
  | None =>
      let! shown := lift (to_string id) in
      throw (Error ("[SiteManager] Site not found: " +:+ shown))
  | Some currentSite =>
      (if negb (strict_eq (prop updates "validate") (VBool false)) then
         let username := or_else (prop updates "username") (prop currentSite "username") in
         let applicationPassword :=
           or_else (prop updates "applicationPassword")
                   (prop currentSite "applicationPassword") in
         let url := or_else (prop updates "url") (prop currentSite "url") in
         if truthy username && truthy applicationPassword
         then validate env url username applicationPassword
         else ret tt
       else ret tt) ;;
      let siteUpdates := delete "validate" updates in
      SiteStorage.updateSite (WordPress.now env 0) id siteUpdates
  end.

(** [createClientForSite(id)] *)
Definition createClientForSite (id : value) : M State WordPress.WordPressClient :=
  let! found := getSiteById id in
  match found with
  | None =>
      let! shown := lift (to_string id) in
      throw (Error ("[SiteManager] Site not found: " +:+ shown))
  | Some site =>
      lift (WordPress.new_WordPress
              (<["url" := prop site "url"]> (<["username" := prop site "username"]>
               (<["applicationPassword" := prop site "applicationPassword"]> ∅))))
  end.

(** [createClientForActiveSite()] *)
Definition createClientForActiveSite : M State WordPress.WordPressClient :=
  let! activeSite := getActiveSite in
  match activeSite with
  | None => throw (Error "[SiteManager] No active site set")
  | Some site => createClientForSite (prop site "id")
  end.

(** The tool modules call [siteManager.createClientForWoocommerce(id)].  The
    class defines no such method, so the call raises the engine's
    [TypeError]. *)
Definition createClientForWoocommerce {A} (id : value) : M State A :=
  throw (not_a_function "siteManager.createClientForWoocommerce").

(** [testSiteConnectivity(id)] *)
Definition testSiteConnectivity (env : WordPress.Env) (id : value) : M State bool :=
  let! client := createClientForSite id in
  ret (WordPress.ping env client).

(** [getSiteInfo(id)] *)
Definition getSiteInfo (env : WordPress.Env) (id : value) : M State value :=
  let! client := createClientForSite id in
  lift (WordPress.getSiteInfo env client).

End SiteManager.

(** ** Tool results *)

Module Tool.

Record ContentItem := mkItem {
  type : string;
  (** the value [JSON.stringify] encodes into [text] *)
  text : value
}.

(** [{ content: [...], isError? }]; [isError] is [None] where the literal
    has no such property. *)
Record Envelope := mkEnvelope {
  content : list ContentItem;
  isError : option bool
}.

(** [{ content: [{ type: 'text', text: JSON.stringify({ status: 'success',
    ...fields }, null, 2) }] }] *)
Definition success (fields : list (string * value)) : Envelope :=
  {| content := [ {| type := "text";
                     text := VObj (list_to_map (("status", VStr "success") :: fields)) |} ];
     isError := None |}.

(** [{ content: [{ type: 'text', text: JSON.stringify({ status: 'error',
    message }, null, 2) }], isError: true }] *)
Definition failure (msg : string) : Envelope :=
  {| content := [ {| type := "text";
                     text := VObj (list_to_map [("status", VStr "error");
                                                ("message", VStr msg)]) |} ];
     isError := Some true |}.

(** A tool descriptor. *)
Record Descriptor := mkDescriptor {
  name : string;
  description : string;
  inputSchema : value
}.

(** A registered handler: [async (args) => ...], run against the site
    manager's state and the outside world of the call. *)
Definition Handler : Type :=
  gmap string value → WordPress.Env → M SiteStorage.t Envelope.

(** [try { body } catch (error) { return <error envelope of error.message> }],
    the frame every handler is written in. *)
Definition guarded (body : M SiteStorage.t Envelope) : M SiteStorage.t Envelope :=
  try_catch body (fun error => ret (failure (message error))).

(** [args.site_id ? siteManager.createClientForSite(args.site_id)
                  : siteManager.createClientForActiveSite()] *)
Definition siteClient (args : gmap string value) : M SiteStorage.t WordPress.WordPressClient :=
  if truthy (prop args "site_id")
  then SiteManager.createClientForSite (prop args "site_id")
  else SiteManager.createClientForActiveSite.

(** [args.site_id ? siteManager.createClientForWoocommerce(args.site_id) : false] *)
Definition wooClient (args : gmap string value) : M SiteStorage.t value :=
  if truthy (prop args "site_id")
  then SiteManager.createClientForWoocommerce (prop args "site_id")
  else ret (VBool false).

(** [await client.m(...)] on the value [wooClient] gives, once the arguments
    of the call have been evaluated: it has no method. *)
Definition wooCall (what : string) (client : value) (m : string) : M SiteStorage.t value :=
  throw (Json.call_missing what client m).

End Tool.

(** ** Site management tools (registerSiteTools) *)

Module SiteTools.
Import Tool.

Definition tools (schema : string → value) : list Descriptor :=
  map (fun nd => {| name := nd.1; description := nd.2; inputSchema := schema nd.1 |})
    [ ("add_site", "Add a new WordPress site");
      ("list_sites", "List all WordPress sites");
      ("get_site", "Get a WordPress site by ID or name");
      ("update_site", "Update a WordPress site");
      ("remove_site", "Remove a WordPress site");
      ("select_site", "Select a WordPress site as the active site");
      ("get_active_site", "Get the active WordPress site");
      ("get_site_info", "Get information about a WordPress site") ].

(** [filterCredentials(site, includeCredentials = false)]; [None] is a
    falsy [site]. *)
Definition filterCredentials (site : option (gmap string value)) (includeCredentials : value)
  : value :=
  match site with
  | None => VNull
  | Some site =>
      let filteredSite := delete "applicationPassword" site in
      if negb (truthy includeCredentials) then VObj filteredSite else VObj site
  end.

(** The guarded block of each handler. *)
Definition add_site (args : gmap string value) (env : WordPress.Env)
  : M SiteStorage.t Envelope :=
  let! site := SiteManager.addSite env args in
  let! name := lift (to_string (prop args "name")) in
  ret (success
         [ ("message", VStr ("Site " +:+ dq +:+ name +:+ dq +:+ " added successfully"));
           ("site", filterCredentials (Some site) (prop args "includeCredentials")) ]).

Definition list_sites (args : gmap string value) (env : WordPress.Env)
  : M SiteStorage.t Envelope :=
  let! all := SiteManager.getAllSites in
  let sites := map (fun site => filterCredentials (Some site) (prop args "includeCredentials"))
                   all in
  ret (success [ ("count", VNum (Z.of_nat (length sites))); ("sites", VArr sites) ]).

Definition get_site (args : gmap string value) (env : WordPress.Env)
  : M SiteStorage.t Envelope :=
  let! site :=
    (if truthy (prop args "id") then SiteManager.getSiteById (prop args "id")
     else if truthy (prop args "name") then SiteManager.getSiteByName (prop args "name")
     else ret None) in
  match site with
  | None =>
      let! shown := lift (to_string (or_else (prop args "id") (prop args "name"))) in
      ret (failure ("Site not found: " +:+ shown))
  | Some site =>
      ret (success [ ("site", filterCredentials (Some site) (prop args "includeCredentials")) ])
  end.

Definition update_site (args : gmap string value) (env : WordPress.Env)
  : M SiteStorage.t Envelope :=
  let id := prop args "id" in
  let updates := delete "id" args in
  let! site := SiteManager.updateSite env id updates in
  let! name := lift (to_string (prop site "name")) in
  ret (success
         [ ("message", VStr ("Site " +:+ dq +:+ name +:+ dq +:+ " updated successfully"));
           ("site", filterCredentials (Some site) (prop args "includeCredentials")) ]).

Definition remove_site (args : gmap string value) (env : WordPress.Env)
  : M SiteStorage.t Envelope :=
  let! removed := SiteManager.removeSite (prop args "id") in
  if negb removed then
    let! shown := lift (to_string (prop args "id")) in
    ret (failure ("Site not found: " +:+ shown))
  else
    ret (success [ ("message", VStr "Site removed successfully") ]).

Definition select_site (args : gmap string value) (env : WordPress.Env)
  : M SiteStorage.t Envelope :=
  let! site := SiteManager.setActiveSite (prop args "id") in
  let! name := lift (to_string (prop site "name")) in
  ret (success
         [ ("message", VStr ("Site " +:+ dq +:+ name +:+ dq +:+
                             " selected as active site"));
           ("site", filterCredentials (Some site) (prop args "includeCredentials")) ]).

Definition get_active_site (args : gmap string value) (env : WordPress.Env)
  : M SiteStorage.t Envelope :=
  let! site := SiteManager.getActiveSite in
  match site with
  | None => ret (failure "No active site set")
  | Some site =>
      ret (success [ ("site", filterCredentials (Some site) (prop args "includeCredentials")) ])
  end.

Definition test_site_connectivity (args : gmap string value) (env : WordPress.Env)
  : M SiteStorage.t Envelope :=
  let! reachable := SiteManager.testSiteConnectivity env (prop args "id") in
  ret (success
         [ ("reachable", VBool reachable);
           ("message", VStr (if reachable then "Site is reachable"
                             else "Site is not reachable")) ]).

Definition get_site_info (args : gmap string value) (env : WordPress.Env)
  : M SiteStorage.t Envelope :=
  let! info := SiteManager.getSiteInfo env (prop args "id") in
  ret (success [ ("info", info) ]).

(** The [registerToolHandler(name, handler)] calls, in order. *)
Definition bodies : list (string * (gmap string value → WordPress.Env → M SiteStorage.t Envelope)) :=
  [ ("add_site", add_site); ("list_sites", list_sites); ("get_site", get_site);
    ("update_site", update_site); ("remove_site", remove_site);
    ("select_site", select_site); ("get_active_site", get_active_site);
    ("test_site_connectivity", test_site_connectivity);
    ("get_site_info", get_site_info) ].

End SiteTools.

(** ** Protocol requests *)

Module Request.

(** [request.params] of a call-tool request. *)
Record Params := mkParams {
  name : string;
  arguments : gmap string value
}.

(** A call-tool request as a module-level handler sees it; [next] is the
    delegate a chaining server would add ([None]: [typeof request.next] is
    not ['function']). *)
Record t := mkRequest {
  params : Params;
  next : option (M SiteStorage.t Tool.Envelope)
}.

End Request.

(** ** Post tools (registerPostTools) *)

Module PostTools.
Import Tool.

Definition tools (schema : string → value) : list Descriptor :=
  map (fun nd => {| name := nd.1; description := nd.2; inputSchema := schema nd.1 |})
    [ ("list_posts", "List posts from a WordPress site");
      ("get_post", "Get a post from a WordPress site");
      ("create_post", "Create a post on a WordPress site");
      ("update_post", "Update a post on a WordPress site");
      ("delete_post", "Delete a post from a WordPress site") ].

(** [parseInt(client.client.lastResponse?.headers?.get(h) || '0', 10)]: the
    client never sets [lastResponse], so the chain is [undefined] and the
    number parsed is that of ['0']. *)
Definition header_count : value := VNum 0.

(** What follows the choice of the client in a handler's guarded block; the
    legacy helper functions have the same text. *)
Definition listPosts (client : WordPress.WordPressClient) (args : gmap string value)
  (env : WordPress.Env) : M SiteStorage.t Envelope :=
  let params := Json.pick ["per_page"; "page"; "search"; "categories"; "tags"; "status";
                           "order"; "orderby"] args in
  let! posts := lift (WordPress.get env client "/wp/v2/posts" (VObj params)) in
  let! count := lift (Json.get posts "length") in
  let! items := lift (Json.array_map "posts" posts (fun post =>
    Json.literal
      [ ("id", Json.get post "id");
        ("title", Json.path post ["title"; "rendered"]);
        ("excerpt", Json.path post ["excerpt"; "rendered"]);
        ("status", Json.get post "status");
        ("date", Json.get post "date");
        ("modified", Json.get post "modified");
        ("link", Json.get post "link");
        ("author", Json.get post "author");
        ("featured_media", Json.get post "featured_media");
        ("categories", Json.get post "categories");
        ("tags", Json.get post "tags") ])) in
  ret (success
         [ ("count", count); ("total", header_count); ("total_pages", header_count);
           ("current_page", or_else (prop args "page") (VNum 1));
           ("posts", items) ]).

Definition getPost (client : WordPress.WordPressClient) (args : gmap string value)
  (env : WordPress.Env) : M SiteStorage.t Envelope :=
  let! post_id := lift (to_string (prop args "post_id")) in
  let! post := lift (WordPress.get env client ("/wp/v2/posts/" +:+ post_id) (VObj ∅)) in
  let! shown := lift (Json.literal
      [ ("id", Json.get post "id");
        ("title", Json.path post ["title"; "rendered"]);
        ("content", Json.path post ["content"; "rendered"]);
        ("excerpt", Json.path post ["excerpt"; "rendered"]);
        ("status", Json.get post "status");
        ("date", Json.get post "date");
        ("modified", Json.get post "modified");
        ("link", Json.get post "link");
        ("author", Json.get post "author");
        ("featured_media", Json.get post "featured_media");
        ("categories", Json.get post "categories");
        ("tags", Json.get post "tags") ]) in
  ret (success [ ("post", shown) ]).

Definition createPost (client : WordPress.WordPressClient) (args : gmap string value)
  (env : WordPress.Env) : M SiteStorage.t Envelope :=
  let postData := Json.pick ["title"; "content"; "excerpt"; "status"; "categories"; "tags";
                             "featured_media"] args in
  let! post := lift (WordPress.post env client "/wp/v2/posts" (VObj postData)) in
  let! title := lift (to_string (prop args "title")) in
  let! shown := lift (Json.literal
      [ ("id", Json.get post "id");
        ("title", Json.path post ["title"; "rendered"]);
        ("status", Json.get post "status");
        ("date", Json.get post "date");
        ("link", Json.get post "link") ]) in
  ret (success
         [ ("message", VStr ("Post '" +:+ title +:+ "' created successfully"));
           ("post", shown) ]).

Definition updatePost (client : WordPress.WordPressClient) (args : gmap string value)
  (env : WordPress.Env) : M SiteStorage.t Envelope :=
  let postData := Json.pick ["title"; "content"; "excerpt"; "status"; "categories"; "tags";
                             "featured_media"] args in
  let! post_id := lift (to_string (prop args "post_id")) in
  let! post := lift (WordPress.put env client ("/wp/v2/posts/" +:+ post_id)
                       (VObj postData)) in
  let! shown := lift (Json.literal
      [ ("id", Json.get post "id");
        ("title", Json.path post ["title"; "rendered"]);
        ("status", Json.get post "status");
        ("date", Json.get post "date");
        ("modified", Json.get post "modified");
        ("link", Json.get post "link") ]) in
  ret (success [ ("message", VStr "Post updated successfully"); ("post", shown) ]).

Definition deletePost (client : WordPress.WordPressClient) (args : gmap string value)
  (env : WordPress.Env) : M SiteStorage.t Envelope :=
  let force := prop args "force" in
  let! post_id := lift (to_string (prop args "post_id")) in
  let! post := lift (WordPress.delete env client ("/wp/v2/posts/" +:+ post_id)
                       (VObj {[ "force" := force ]})) in
  let! shown := lift (Json.literal
      [ ("id", Json.get post "id");
        ("title", Json.path post ["title"; "rendered"]);
        ("status", Json.get post "status") ]) in
  ret (success
         [ ("message", VStr (if truthy force then "Post permanently deleted"
                             else "Post moved to trash"));
           ("post", shown) ]).

(** The guarded block of a registered handler: the client, then the rest. *)
Definition with_client
  (rest : WordPress.WordPressClient → gmap string value → WordPress.Env → M SiteStorage.t Envelope)
  (args : gmap string value) (env : WordPress.Env) : M SiteStorage.t Envelope :=
  let! client := siteClient args in
  rest client args env.

Definition bodies : list (string * (gmap string value → WordPress.Env → M SiteStorage.t Envelope)) :=
  [ ("list_posts", with_client listPosts); ("get_post", with_client getPost);
    ("create_post", with_client createPost); ("update_post", with_client updatePost);
    ("delete_post", with_client deletePost) ].

(** The module's own call-tool request handler. *)
Definition callTool (schema : string → value) (request : Request.t) (env : WordPress.Env)
  : M SiteStorage.t Envelope :=
  let name := Request.name (Request.params request) in
  let args := Request.arguments (Request.params request) in
  match List.find (fun t => bool_decide (Tool.name t = name)) (tools schema) with
  | None =>
      match Request.next request with
      | Some next => next
      | None => ret (failure ("Unknown tool: " +:+ name))
      end
  | Some _ =>
      guarded (
        let! client := siteClient args in
        if bool_decide (name = "list_posts") then guarded (listPosts client args env)
        else if bool_decide (name = "get_post") then guarded (getPost client args env)
        else if bool_decide (name = "create_post") then guarded (createPost client args env)
        else if bool_decide (name = "update_post") then guarded (updatePost client args env)
        else if bool_decide (name = "delete_post") then guarded (deletePost client args env)
        else throw (Error ("Tool not implemented: " +:+ name)))
  end.

End PostTools.

(** ** Page tools (registerPageTools) *)

Module PageTools.
Import Tool.

Definition tools (schema : string → value) : list Descriptor :=
  map (fun nd => {| name := nd.1; description := nd.2; inputSchema := schema nd.1 |})
    [ ("list_pages", "List pages from a WordPress site");
      ("get_page", "Get a page from a WordPress site");
      ("create_page", "Create a page on a WordPress site");
      ("update_page", "Update a page on a WordPress site");
      ("delete_page", "Delete a page from a WordPress site") ].

Definition list_pages (args : gmap string value) (env : WordPress.Env)
  : M SiteStorage.t Envelope :=
  let! client := siteClient args in
  let params := Json.pick ["per_page"; "page"; "search"; "parent"; "status"; "order";
                           "orderby"] args in
  let! pages := lift (WordPress.get env client "/wp/v2/pages" (VObj params)) in
  let! count := lift (Json.get pages "length") in
  let! items := lift (Json.array_map "pages" pages (fun page =>
    Json.literal
      [ ("id", Json.get page "id");
        ("title", Json.path page ["title"; "rendered"]);
        ("excerpt", Json.path page ["excerpt"; "rendered"]);
        ("status", Json.get page "status");
        ("date", Json.get page "date");
        ("modified", Json.get page "modified");
        ("link", Json.get page "link");
        ("author", Json.get page "author");
        ("featured_media", Json.get page "featured_media");
        ("parent", Json.get page "parent");
        ("menu_order", Json.get page "menu_order");
        ("template", Json.get page "template") ])) in
  ret (success
         [ ("count", count); ("total", PostTools.header_count);
           ("total_pages", PostTools.header_count);
           ("current_page", or_else (prop args "page") (VNum 1));
           ("pages", items) ]).

Definition get_page (args : gmap string value) (env : WordPress.Env)
  : M SiteStorage.t Envelope :=
  let! client := siteClient args in
  let! page_id := lift (to_string (prop args "page_id")) in
  let! page := lift (WordPress.get env client ("/wp/v2/pages/" +:+ page_id) (VObj ∅)) in
  let! shown := lift (Json.literal
      [ ("id", Json.get page "id");
        ("title", Json.path page ["title"; "rendered"]);
        ("content", Json.path page ["content"; "rendered"]);
        ("excerpt", Json.path page ["excerpt"; "rendered"]);
        ("status", Json.get page "status");
        ("date", Json.get page "date");
        ("modified", Json.get page "modified");
        ("link", Json.get page "link");
        ("author", Json.get page "author");
        ("featured_media", Json.get page "featured_media");
        ("parent", Json.get page "parent");
        ("menu_order", Json.get page "menu_order");
        ("template", Json.get page "template") ]) in
  ret (success [ ("page", shown) ]).

Definition create_page (args : gmap string value) (env : WordPress.Env)
  : M SiteStorage.t Envelope :=
  let! client := siteClient args in
  let pageData := Json.pick ["title"; "content"; "excerpt"; "status"; "parent"; "menu_order";
                             "template"; "featured_media"] args in
  let! page := lift (WordPress.post env client "/wp/v2/pages" (VObj pageData)) in
  let! title := lift (to_string (prop args "title")) in
  let! shown := lift (Json.literal
      [ ("id", Json.get page "id");
        ("title", Json.path page ["title"; "rendered"]);
        ("status", Json.get page "status");
        ("date", Json.get page "date");
        ("link", Json.get page "link") ]) in
  ret (success
         [ ("message", VStr ("Page '" +:+ title +:+ "' created successfully"));
           ("page", shown) ]).

Definition update_page (args : gmap string value) (env : WordPress.Env)
  : M SiteStorage.t Envelope :=
  let! client := siteClient args in
  let pageData := Json.pick ["title"; "content"; "excerpt"; "status"; "parent"; "menu_order";
                             "template"; "featured_media"] args in
  let! page_id := lift (to_string (prop args "page_id")) in
  let! page := lift (WordPress.put env client ("/wp/v2/pages/" +:+ page_id)
                       (VObj pageData)) in
  let! shown := lift (Json.literal
      [ ("id", Json.get page "id");
        ("title", Json.path page ["title"; "rendered"]);
        ("status", Json.get page "status");
        ("date", Json.get page "date");
        ("modified", Json.get page "modified");
        ("link", Json.get page "link") ]) in
  ret (success [ ("message", VStr "Page updated successfully"); ("page", shown) ]).

Definition delete_page (args : gmap string value) (env : WordPress.Env)
  : M SiteStorage.t Envelope :=
  let! client := siteClient args in
  let force := prop args "force" in
  let! page_id := lift (to_string (prop args "page_id")) in
  let! page := lift (WordPress.delete env client ("/wp/v2/pages/" +:+ page_id)
                       (VObj {[ "force" := force ]})) in
  let! shown := lift (Json.literal
      [ ("id", Json.get page "id");
        ("title", Json.path page ["title"; "rendered"]);
        ("status", Json.get page "status") ]) in
  ret (success
         [ ("message", VStr (if truthy force then "Page permanently deleted"
                             else "Page moved to trash"));
           ("page", shown) ]).

Definition bodies : list (string * (gmap string value → WordPress.Env → M SiteStorage.t Envelope)) :=
  [ ("list_pages", list_pages); ("get_page", get_page); ("create_page", create_page);
    ("update_page", update_page); ("delete_page", delete_page) ].

End PageTools.

(** ** WooCommerce product tools (registerWooProductTools) *)

Module WooProductTools.
Import Tool.

Definition tools (schema : string → value) : list Descriptor :=
  map (fun nd => {| name := nd.1; description := nd.2; inputSchema := schema nd.1 |})
    [ ("list_products", "List products from a woocommerce site");
      ("create_product", "Create a new product in WooCommerce");
      ("update_product", "Update an existing product in WooCommerce");
      ("delete_product", "Delete a product in WooCommerce") ].

(** The guarded blocks.  [what] is the name the source gives the client
    ([client] in the registered handlers, [wc_client] in the helper
    functions) and [keys] the properties sent to the shop. *)
Definition list_products (what : string) (args : gmap string value) (env : WordPress.Env)
  : M SiteStorage.t Envelope :=
  let! client := wooClient args in
  let params := Json.pick ["per_page"; "page"; "search"; "category"; "order"; "orderby"]
                          args in
  let! response := wooCall what client "get" in
  let! count := lift (Json.path response ["data"; "length"]) in
  let! products := lift (Json.get response "data") in
  ret (success [ ("count", count); ("products", products) ]).

Definition create_product (what : string) (args : gmap string value) (env : WordPress.Env)
  : M SiteStorage.t Envelope :=
  let! client := wooClient args in
  let productData := Json.pick ["name"; "type"; "regular_price"; "description";
                                "short_description"; "categories"; "images"] args in
  let! response := wooCall what client "post" in
  let! name := lift (to_string (prop args "name")) in
  let! product := lift (Json.get response "data") in
  ret (success
         [ ("message", VStr ("Product '" +:+ name +:+ "' created successfully"));
           ("product", product) ]).

Definition update_product (what : string) (keys : list string) (args : gmap string value)
  (env : WordPress.Env) : M SiteStorage.t Envelope :=
  let! client := wooClient args in
  let productData := Json.pick keys args in
  let! endpoint := lift (to_string (prop args "id")) in
  let! response := wooCall what client "put" in
  let! id := lift (to_string (prop args "id")) in
  let! product := lift (Json.get response "data") in
  ret (success
         [ ("message", VStr ("Product '" +:+ id +:+ "' updated successfully"));
           ("product", product) ]).

Definition delete_product (what : string) (args : gmap string value) (env : WordPress.Env)
  : M SiteStorage.t Envelope :=
  let! client := wooClient args in
  let! endpoint := lift (to_string (prop args "id")) in
  let! response := wooCall what client "delete" in
  let! id := lift (to_string (prop args "id")) in
  let! product := lift (Json.get response "data") in
  ret (success
         [ ("message", VStr ("Product '" +:+ id +:+ "' deleted successfully"));
           ("product", product) ]).

Definition bodies : list (string * (gmap string value → WordPress.Env → M SiteStorage.t Envelope)) :=
  [ ("list_products", list_products "client");
    ("create_product", create_product "client");
    ("update_product",
       update_product "client" ["name"; "type"; "regular_price"; "cost"; "description";
                                "short_description"; "categories"; "images"]);
    ("delete_product", delete_product "client") ].

(** The module's own call-tool request handler and its helper functions. *)
Definition callTool (schema : string → value) (request : Request.t) (env : WordPress.Env)
  : M SiteStorage.t Envelope :=
  let name := Request.name (Request.params request) in
  let args := Request.arguments (Request.params request) in
  match List.find (fun t => bool_decide (Tool.name t = name)) (tools schema) with
  | None =>
      match Request.next request with
      | Some next => next
      | None => ret (failure ("Unknown tool: " +:+ name))
      end
  | Some _ =>
      guarded (
        let! client := siteClient args in
        if bool_decide (name = "list_products") then
          guarded (list_products "wc_client" args env)
        else if bool_decide (name = "create_product") then
          guarded (create_product "wc_client" args env)
        else if bool_decide (name = "update_product") then
          guarded (update_product "wc_client"
                     ["name"; "type"; "regular_price"; "description"; "short_description";
                      "categories"; "images"] args env)
        else if bool_decide (name = "delete_product") then
          guarded (delete_product "wc_client" args env)
        else throw (Error ("Tool not implemented: " +:+ name)))
  end.

End WooProductTools.

(** ** WooCommerce order tools (registerWooOrderTools) *)

Module WooOrderTools.
Import Tool.

Definition tools (schema : string → value) : list Descriptor :=
  map (fun nd => {| name := nd.1; description := nd.2; inputSchema := schema nd.1 |})
    [ ("list_orders", "List orders from a WooCommerce site");
      ("create_order", "Create a new order in WooCommerce");
      ("update_order", "Update an existing order in WooCommerce");
      ("delete_order", "Delete an order in WooCommerce") ].

Definition list_orders (what : string) (args : gmap string value) (env : WordPress.Env)
  : M SiteStorage.t Envelope :=
  let! client := wooClient args in
  let params := Json.pick ["per_page"; "page"; "search"; "status"; "order"; "orderby"] args in
  let! response := wooCall what client "get" in
  let! count := lift (Json.path response ["data"; "length"]) in
  let! orders := lift (Json.get response "data") in
  ret (success [ ("count", count); ("orders", orders) ]).

(** The registered handler posts through [client]. *)
Definition create_order (args : gmap string value) (env : WordPress.Env)
  : M SiteStorage.t Envelope :=
  let! client := wooClient args in
  let orderData := Json.pick ["customer_id"; "line_items"; "status"; "total"] args in
  let! response := wooCall "client" client "post" in
  let! order := lift (Json.get response "data") in
  ret (success [ ("message", VStr "Order created successfully"); ("order", order) ]).

(** The helper function posts through the module-level [wooCommerceApi]. *)
Definition createOrder (args : gmap string value) (env : WordPress.Env)
  : M SiteStorage.t Envelope :=
  let! wc_client := wooClient args in
  let orderData := Json.pick ["customer_id"; "line_items"; "status"; "total"] args in
  let! response := lift (WordPress.wooCommerceApi_post env "orders" (VObj orderData)) in
  let! order := lift (Json.get response "data") in
  ret (success [ ("message", VStr "Order created successfully"); ("order", order) ]).

Definition update_order (what : string) (args : gmap string value) (env : WordPress.Env)
  : M SiteStorage.t Envelope :=
  let! client := wooClient args in
  let orderData := Json.pick ["status"; "total"; "line_items"] args in
  let! endpoint := lift (to_string (prop args "id")) in
  let! response := wooCall what client "put" in
  let! id := lift (to_string (prop args "id")) in
  let! order := lift (Json.get response "data") in
  ret (success
         [ ("message", VStr ("Order '" +:+ id +:+ "' updated successfully"));
           ("order", order) ]).

Definition delete_order (what : string) (args : gmap string value) (env : WordPress.Env)
  : M SiteStorage.t Envelope :=
  let! client := wooClient args in
  let! endpoint := lift (to_string (prop args "id")) in
  let! response := wooCall what client "delete" in
  let! id := lift (to_string (prop args "id")) in
  let! order := lift (Json.get response "data") in
  ret (success
         [ ("message", VStr ("Order '" +:+ id +:+ "' deleted successfully"));
           ("order", order) ]).

Definition bodies : list (string * (gmap string value → WordPress.Env → M SiteStorage.t Envelope)) :=
  [ ("list_orders", list_orders "client"); ("create_order", create_order);
    ("update_order", update_order "client"); ("delete_order", delete_order "client") ].

(** The module's own call-tool request handler. *)
Definition callTool (schema : string → value) (request : Request.t) (env : WordPress.Env)
  : M SiteStorage.t Envelope :=
  let name := Request.name (Request.params request) in
  let args := Request.arguments (Request.params request) in
  match List.find (fun t => bool_decide (Tool.name t = name)) (tools schema) with
  | None =>
      match Request.next request with
      | Some next => next
      | None => ret (failure ("Unknown tool: " +:+ name))
      end
  | Some _ =>
      guarded (
        let! client := siteClient args in
        if bool_decide (name = "list_orders") then
          guarded (list_orders "wc_client" args env)
        else if bool_decide (name = "create_order") then
          guarded (createOrder args env)
        else if bool_decide (name = "update_order") then
          guarded (update_order "wc_client" args env)
        else if bool_decide (name = "delete_order") then
          guarded (delete_order "wc_client" args env)
        else throw (Error ("Tool not implemented: " +:+ name)))
  end.

End WooOrderTools.

(** ** The server (class WordPressMcpServer) *)

Module Server.
Import Tool.

(** A call-tool request handler installed in the protocol server; the
    centralized one reads [this.toolHandlers] when it runs. *)
Definition CallToolHandler : Type :=
  gmap string Handler → Request.t → WordPress.Env → M SiteStorage.t Envelope.

(** [this.toolHandlers] (a [Map]), [this.toolDefinitions] (an array), and
    the two request handlers the protocol server holds: its
    [setRequestHandler] keeps one handler per request method, the last one
    set. *)
Record t := mkServer {
  toolHandlers : gmap string Handler;
  toolDefinitions : list Descriptor;
  callToolHandler : option CallToolHandler;
  listToolsHandler : option (list Descriptor → list Descriptor)
}.

(** The state [renderInit] starts from. *)
Definition empty : t :=
  {| toolHandlers := ∅; toolDefinitions := [];
     callToolHandler := None; listToolsHandler := None |}.

(** [registerToolHandler(toolName, handler)]: [this.toolHandlers.set(...)] *)
Definition registerToolHandler (toolName : string) (handler : Handler) (s : t) : t :=
  {| toolHandlers := <[toolName := handler]> (toolHandlers s);
     toolDefinitions := toolDefinitions s;
     callToolHandler := callToolHandler s;
     listToolsHandler := listToolsHandler s |}.

(** [registerToolDefinition(toolDefinition)]: [this.toolDefinitions.push(...)] *)
Definition registerToolDefinition (toolDefinition : Descriptor) (s : t) : t :=
  {| toolHandlers := toolHandlers s;
     toolDefinitions := (toolDefinitions s ++ [toolDefinition])%list;
     callToolHandler := callToolHandler s;
     listToolsHandler := listToolsHandler s |}.

(** [registerToolDefinitions(toolDefinitions)] *)
Definition registerToolDefinitions (defs : list Descriptor) (s : t) : t :=
  fold_left (fun s d => registerToolDefinition d s) defs s.

(** [server.setRequestHandler(CallToolRequestSchema, handler)] *)
Definition setCallToolHandler (h : CallToolHandler) (s : t) : t :=
  {| toolHandlers := toolHandlers s;
     toolDefinitions := toolDefinitions s;
     callToolHandler := Some h;
     listToolsHandler := listToolsHandler s |}.

(** [server.setRequestHandler(ListToolsRequestSchema, handler)] *)
Definition setListToolsHandler (h : list Descriptor → list Descriptor) (s : t) : t :=
  {| toolHandlers := toolHandlers s;
     toolDefinitions := toolDefinitions s;
     callToolHandler := callToolHandler s;
     listToolsHandler := Some h |}.

(** The handler a tool module registers: its guarded block in the
    [try]/[catch] frame. *)
Definition handler_of (body : gmap string value → WordPress.Env → M SiteStorage.t Envelope)
  : Handler :=
  fun args env => guarded (body args env).

(** The [registerToolHandler] calls of one module. *)
Definition registerToolHandlers
  (bodies : list (string * (gmap string value → WordPress.Env → M SiteStorage.t Envelope)))
  (s : t) : t :=
  fold_left (fun s nb => registerToolHandler nb.1 (handler_of nb.2) s) bodies s.

(** The tool modules, as the server's proxy lets them register: the proxy
    has [registerToolDefinitions], so each takes the centralized branch. *)
Definition registerSiteTools (schema : string → value) (s : t) : t :=
  registerToolHandlers SiteTools.bodies
    (registerToolDefinitions (SiteTools.tools schema) s).

Definition registerPostTools (schema : string → value) (s : t) : t :=
  registerToolHandlers PostTools.bodies
    (setCallToolHandler (fun _ => PostTools.callTool schema)
       (registerToolDefinitions (PostTools.tools schema) s)).

Definition registerPageTools (schema : string → value) (s : t) : t :=
  registerToolHandlers PageTools.bodies
    (registerToolDefinitions (PageTools.tools schema) s).

Definition registerWooProductTools (schema : string → value) (s : t) : t :=
  registerToolHandlers WooProductTools.bodies
    (setCallToolHandler (fun _ => WooProductTools.callTool schema)
       (registerToolDefinitions (WooProductTools.tools schema) s)).

Definition registerWooOrderTools (schema : string → value) (s : t) : t :=
  registerToolHandlers WooOrderTools.bodies
    (setCallToolHandler (fun _ => WooOrderTools.callTool schema)
       (registerToolDefinitions (WooOrderTools.tools schema) s)).

(** [registerTools()] *)
Definition registerTools (schema : string → value) (s : t) : t :=
  registerWooOrderTools schema
    (registerWooProductTools schema
       (registerPageTools schema
          (registerPostTools schema
             (registerSiteTools schema s)))).

(** The centralized call-tool handler of [registerCentralizedToolHandlers]. *)
Definition centralizedCallTool : CallToolHandler :=
  fun handlers request env =>
    let name := Request.name (Request.params request) in
    let args := Request.arguments (Request.params request) in
    match handlers !! name with
    | Some handler => handler args env
    | None => throw (Error ("Unknown tool: " +:+ name))
    end.

(** [registerCentralizedToolHandlers()] *)
Definition registerCentralizedToolHandlers (s : t) : t :=
  setListToolsHandler (fun defs => defs) (setCallToolHandler centralizedCallTool s).

(** What [renderInit] builds. *)
Definition init (schema : string → value) : t :=
  registerCentralizedToolHandlers (registerTools schema empty).

(** A call-tool request delivered by the transport: the protocol server runs
    the installed handler (with none installed it answers "Method not
    found" itself). *)
Definition callTool (s : t) (name : string) (args : gmap string value)
  (env : WordPress.Env) : M SiteStorage.t Envelope :=
  match callToolHandler s with
  | Some h =>
      h (toolHandlers s)
        {| Request.params := {| Request.name := name; Request.arguments := args |};
           Request.next := None |}
        env
  | None => throw (Error "Method not found")
  end.

(** A list-tools request: the [tools] of the response. *)
Definition listTools (s : t) : option (list Descriptor) :=
  match listToolsHandler s with
  | Some h => Some (h (toolDefinitions s))
  | None => None
  end.

(** All guarded blocks the tool modules register, in registration order. *)
Definition bodies : list (string * (gmap string value → WordPress.Env → M SiteStorage.t Envelope)) :=
  (SiteTools.bodies ++ PostTools.bodies ++ PageTools.bodies ++
   WooProductTools.bodies ++ WooOrderTools.bodies)%list.

End Server.

(** ** Session ids of the SSE endpoint (sse.js) *)

Module Sse.

(** [s.split(sep)[0]] for a one-character separator: what precedes its
    first occurrence, or all of [s]. *)
Fixpoint before (sep : ascii) (s : string) : string :=
  match s with
  | EmptyString => EmptyString
  | String c rest => if bool_decide (c = sep) then EmptyString
                     else String c (before sep rest)
  end.

(** The session id the [/message] route looks up:
    [typeof rawSessionId === 'string'
       ? rawSessionId.split('?')[0].split('&')[0] : rawSessionId]. *)
Definition sessionId (rawSessionId : value) : value :=
  match rawSessionId with
  | VStr raw => VStr (before "&" (before "?" raw))
  | other => other
  end.

End Sse.

(** * Vocabulary of the properties *)

Import SiteStorage Tool.

(** [needle] occurs in [hay]. *)
Definition contains (needle hay : string) : Prop :=
  ∃ before after, hay = before +:+ needle +:+ after.

(** Every stored record has a string for its url (what [addSite] stores). *)
Definition string_urls (l : list (gmap string value)) : Prop :=
  Forall (fun site => ∃ u, prop site "url" = VStr u) l.

(** The url test of [getSiteByUrl] on a record. *)
Definition url_matches (normalizedUrl : string) (site : gmap string value) : bool :=
  match prop site "url" with
  | VStr u => bool_decide (strip_trailing_slash u = normalizedUrl)
  | _ => false
  end.

(** What [addSite] does once the two required fields are there. *)
Definition newSite_of (uuid createdAt updatedAt : string) (site : gmap string value)
  : gmap string value :=
  <["id" := or_else (prop site "id") (VStr uuid)]>
    (<["name" := prop site "name"]> (<["url" := prop site "url"]>
    (<["username" := prop site "username"]>
    (<["applicationPassword" := prop site "applicationPassword"]>
    (<["createdAt" := VStr createdAt]> (<["updatedAt" := VStr updatedAt]> ∅)))))).

Definition pushed (r : gmap string value) (st : SiteStorage.t) : SiteStorage.t :=
  let c := {| sites := (sites (config st) ++ [r])%list;
              activeSiteId := activeSiteId (config st) |} in
  {| config := c; configFile := Some c |}.

Definition lower_ascii (c : ascii) : ascii :=
  let n := nat_of_ascii c in
  if (65 <=? n)%nat && (n <=? 90)%nat then ascii_of_nat (n + 32) else c.

Fixpoint lowercase (s : string) : string :=
  match s with
  | EmptyString => EmptyString
  | String c rest => String (lower_ascii c) (lowercase rest)
  end.

(** The normalization the claim attributes to the url comparison: the
    trailing slash removed and letter case folded. *)
Definition claimed_normalize (u : string) : string :=
  lowercase (strip_trailing_slash u).

(** A guarded block: the handler without its frame. *)
Abbreviation Body := (gmap string value → WordPress.Env → M SiteStorage.t Envelope).

Definition insert_all (bodies : list (string * Body)) (m : gmap string Handler)
  : gmap string Handler :=
  fold_left (fun m nb => <[nb.1 := Server.handler_of nb.2]> m) bodies m.

Definition tool_names : list string :=
  [ "add_site"; "list_sites"; "get_site"; "update_site"; "remove_site"; "select_site";
    "get_active_site"; "test_site_connectivity"; "get_site_info";
    "list_posts"; "get_post"; "create_post"; "update_post"; "delete_post";
    "list_pages"; "get_page"; "create_page"; "update_page"; "delete_page";
    "list_products"; "create_product"; "update_product"; "delete_product";
    "list_orders"; "create_order"; "update_order"; "delete_order" ].

(** [{ content: [{ type: 'text', text }], isError? }] with [text] encoding an
    object whose [status] is ['success'] (no [isError]) or ['error'] (with a
    string [message], and [isError: true]). *)
Definition well_shaped (e : Envelope) : Prop :=
  ∃ payload,
    content e = [ {| type := "text"; text := VObj payload |} ]
    ∧ ((payload !! "status" = Some (VStr "success") ∧ isError e = None)
       ∨ (payload !! "status" = Some (VStr "error") ∧ isError e = Some true
          ∧ ∃ msg, payload !! "message" = Some (VStr msg))).

(** Whatever a computation returns is well shaped. *)
Definition returns_shaped (m : M SiteStorage.t Envelope) : Prop :=
  ∀ st, match (m st).1 with
        | Return e => well_shaped e
        | Throw _ => True
        end.

(** The site objects of a response: its [site], or the items of its [sites]. *)
Definition returned_sites (e : Envelope) : list value :=
  match content e with
  | [item] =>
      match text item with
      | VObj payload =>
          match payload !! "site" with
          | Some s => [s]
          | None => match payload !! "sites" with
                    | Some (VArr items) => items
                    | _ => []
                    end
          end
      | _ => []
      end
  | _ => []
  end.

(** [m] is [r] without its [applicationPassword], and nothing else changed. *)
Definition credentials_removed (r m : gmap string value) : Prop :=
  m !! "applicationPassword" = None
  ∧ ∀ k, k ≠ "applicationPassword" → m !! k = r !! k.

(** How a response shows the stored record [r], given the arguments. *)
Definition shown_as (args : gmap string value) (r : gmap string value) (s : value) : Prop :=
  (args !! "includeCredentials" = None ∨ args !! "includeCredentials" = Some (VBool false) →
   ∃ m, s = VObj m ∧ credentials_removed r m)
  ∧ (args !! "includeCredentials" = Some (VBool true) → s = VObj r).

(** Each site object of a response shows a record of the store the call
    leaves behind. *)
Definition shows_stored (args : gmap string value) (env : WordPress.Env) (body : Body)
  : Prop :=
  ∀ st e st', body args env st = (Return e, st') →
    ∀ s, s ∈ returned_sites e → ∃ r, r ∈ sites (config st') ∧ shown_as args r s.

(** The request a post or page tool sends to the backend for its arguments:
    method, endpoint, query parameters and body.  Building the endpoint
    throws when the id in it cannot be printed. *)
Definition at_endpoint (prefix : string) (id : value)
  (request : string → string * string * value * value)
  : outcome (string * string * value * value) :=
  let? shown := to_string id in Return (request (prefix +:+ shown)).

Definition post_data (args : gmap string value) : value :=
  VObj (Json.pick ["title"; "content"; "excerpt"; "status"; "categories"; "tags";
                   "featured_media"] args).

Definition page_data (args : gmap string value) : value :=
  VObj (Json.pick ["title"; "content"; "excerpt"; "status"; "parent"; "menu_order";
                   "template"; "featured_media"] args).

Definition tool_request (name : string) (args : gmap string value)
  : outcome (string * string * value * value) :=
  if bool_decide (name = "list_posts") then
    Return ("GET", "/wp/v2/posts",
            VObj (Json.pick ["per_page"; "page"; "search"; "categories"; "tags"; "status";
                             "order"; "orderby"] args), VUndefined)
  else if bool_decide (name = "get_post") then
    at_endpoint "/wp/v2/posts/" (prop args "post_id")
      (fun endpoint => ("GET", endpoint, VObj ∅, VUndefined))
  else if bool_decide (name = "create_post") then
    Return ("POST", "/wp/v2/posts", VObj ∅, post_data args)
  else if bool_decide (name = "update_post") then
    at_endpoint "/wp/v2/posts/" (prop args "post_id")
      (fun endpoint => ("PUT", endpoint, VObj ∅, post_data args))
  else if bool_decide (name = "delete_post") then
    at_endpoint "/wp/v2/posts/" (prop args "post_id")
      (fun endpoint => ("DELETE", endpoint, VObj {[ "force" := prop args "force" ]},
                        VUndefined))
  else if bool_decide (name = "list_pages") then
    Return ("GET", "/wp/v2/pages",
            VObj (Json.pick ["per_page"; "page"; "search"; "parent"; "status"; "order";
                             "orderby"] args), VUndefined)
  else if bool_decide (name = "get_page") then
    at_endpoint "/wp/v2/pages/" (prop args "page_id")
      (fun endpoint => ("GET", endpoint, VObj ∅, VUndefined))
  else if bool_decide (name = "create_page") then
    Return ("POST", "/wp/v2/pages", VObj ∅, page_data args)
  else if bool_decide (name = "update_page") then
    at_endpoint "/wp/v2/pages/" (prop args "page_id")
      (fun endpoint => ("PUT", endpoint, VObj ∅, page_data args))
  else
    at_endpoint "/wp/v2/pages/" (prop args "page_id")
      (fun endpoint => ("DELETE", endpoint, VObj {[ "force" := prop args "force" ]},
                        VUndefined)).

(** A value a template literal can print. *)
Definition printable (v : value) : bool :=
  match to_string v with
  | Return _ => true
  | Throw _ => false
  end.

(** The credentials of a record can go into an [Authorization] header: it
    has no username or no password, or both can be printed. *)
Definition credentials_print (site : gmap string value) : bool :=
  negb (truthy (prop site "username") && truthy (prop site "applicationPassword"))
  || (printable (prop site "username") && printable (prop site "applicationPassword")).

(** The WooCommerce tools whose request path is built from [args.id]. *)
Definition woo_tools_by_id : list string :=
  ["update_product"; "delete_product"; "update_order"; "delete_order"].


(** The keys of a post summary, and those among them whose value is the
    post's property of the same name. *)
Definition summary_keys : list string :=
  ["id"; "title"; "excerpt"; "status"; "date"; "modified"; "link"; "author";
   "featured_media"; "categories"; "tags"].
Definition copied_keys : list string :=
  ["id"; "status"; "date"; "modified"; "link"; "author"; "featured_media"; "categories";
   "tags"].


(** [s] begins with [prefix]. *)
Definition starts_with (prefix s : string) : Prop := ∃ rest, s = prefix +:+ rest.

(** The errors with which the storage refuses an operation: a missing
    required field, a name or url that is taken, an id that is not there. *)
Definition refusal (e : error) : Prop :=
  match e with
  | Error msg =>
      starts_with "[SiteStorage] Missing required field: " msg
      ∨ starts_with "[SiteStorage] A site with the " msg
      ∨ starts_with "[SiteStorage] Site not found: " msg
  | TypeError _ => False
  end.

(** ** Sample inputs *)

Module Sample.

Definition siteA : gmap string value :=
  list_to_map [ ("id", VStr "1"); ("name", VStr "A"); ("url", VStr "https://a.test");
                ("username", VStr "admin"); ("applicationPassword", VStr "secret");
                ("createdAt", VStr "2024-01-01T00:00:00.000Z");
                ("updatedAt", VStr "2024-01-01T00:00:00.000Z") ].

(** No sites, no active site. *)
Definition st0 : SiteStorage.t :=
  {| config := {| sites := []; activeSiteId := VUndefined |}; configFile := None |}.

(** One site, which is the active one. *)
Definition stA : SiteStorage.t :=
  {| config := {| sites := [siteA]; activeSiteId := VStr "1" |}; configFile := None |}.

(** Candidates for [addSite]. *)
Definition siteB : gmap string value :=
  list_to_map [ ("name", VStr "B"); ("url", VStr "https://b.test");
                ("consumerKey", VStr "ck_1"); ("consumerSecret", VStr "cs_1") ].

Definition siteB_with_id_1 : gmap string value :=
  list_to_map [ ("id", VStr "1"); ("name", VStr "B"); ("url", VStr "https://b.test") ].

Definition siteB_url_slash : gmap string value :=
  list_to_map [ ("name", VStr "B"); ("url", VStr "https://a.test/") ].

Definition siteB_url_upper : gmap string value :=
  list_to_map [ ("name", VStr "B"); ("url", VStr "https://A.test") ].

(** Argument bags. *)
Definition first_page : gmap string value :=
  list_to_map [ ("per_page", VNum 10); ("page", VNum 1) ].

Definition of_site_1 : gmap string value := {[ "site_id" := VStr "1" ]}.

Definition with_id_1 : gmap string value := {[ "id" := VStr "1" ]}.

(** An outside world in which every request fails. *)
Definition offline : WordPress.Env :=
  {| WordPress.uuidv4 := "2";
     WordPress.now := fun n => "2024-01-02T00:00:0" +:+ pretty n +:+ ".000Z";
     WordPress.users_me := fun _ _ _ => Throw (Error "fetch failed");
     WordPress.request := fun _ _ _ _ _ => Throw (Error "fetch failed");
     WordPress.wooCommerceApi_post := fun _ _ => Throw (Error "fetch failed");
     WordPress.key_order := fun fields => (map_to_list fields).*1 |}.

Definition no_schema : string → value := fun _ => VObj ∅.

(** The client the factory builds for the sample site. *)
Definition clientA : WordPress.WordPressClient :=
  {| WordPress.url := "https://a.test";
     WordPress.username := VStr "admin";
     WordPress.applicationPassword := VStr "secret" |}.

End Sample.

(** ** Further vocabulary *)

(** Two records that may be stored side by side: their names are not the
    same and their urls differ even without the trailing slash. *)
Definition distinct_sites (a b : gmap string value) : Prop :=
  strict_eq (prop a "name") (prop b "name") = false
  ∧ ∀ u v, prop a "url" = VStr u → prop b "url" = VStr v →
           strip_trailing_slash u ≠ strip_trailing_slash v.

(** The invariant of the stored sites: urls are strings, and no two records
    share a name or a normalized url. *)
Definition consistent (l : list (gmap string value)) : Prop :=
  string_urls l ∧ ForallOrdPairs distinct_sites l.

(** A computation that leaves the store as it found it. *)
Definition read_only {A} (m : M SiteStorage.t A) : Prop :=
  ∀ st, (m st).2 = st.

(** The tools that write to the site registry. *)
Definition writing_tools : list string :=
  [ "add_site"; "update_site"; "remove_site"; "select_site" ].

(** The descriptors the tool modules hand to [registerToolDefinitions], in
    registration order. *)
Definition advertised (schema : string → value) : list Descriptor :=
  (SiteTools.tools schema ++ PostTools.tools schema ++ PageTools.tools schema ++
   WooProductTools.tools schema ++ WooOrderTools.tools schema)%list.

(** A call-tool request as the transport delivers it to a module-level
    handler. *)
Definition request_for (name : string) (args : gmap string value)
  (next : option (M SiteStorage.t Envelope)) : Request.t :=
  {| Request.params := {| Request.name := name; Request.arguments := args |};
     Request.next := next |}.

(** The module-level call-tool handlers, each with the tools it owns. *)
Definition module_handlers (schema : string → value)
  : list (list Descriptor * (Request.t → WordPress.Env → M SiteStorage.t Envelope)) :=
  [ (PostTools.tools schema, PostTools.callTool schema);
    (WooProductTools.tools schema, WooProductTools.callTool schema);
    (WooOrderTools.tools schema, WooOrderTools.callTool schema) ].

(** The characters of a string. *)
Fixpoint chars (s : string) : list ascii :=
  match s with
  | EmptyString => []
  | String c rest => c :: chars rest
  end.

(** ** More sample inputs *)

Module More.

(** A patch that renames the sample site. *)
Definition rename_to_C : gmap string value := {[ "name" := VStr "C" ]}.

(** A patch that sets the url to null. *)
Definition null_url : gmap string value := {[ "url" := VNull ]}.

(** A patch for the sample site, as the update_site tool receives it. *)
Definition rename_unchecked : gmap string value :=
  list_to_map [ ("id", VStr "1"); ("name", VStr "C"); ("validate", VBool false);
                ("includeCredentials", VBool true) ].

(** A candidate with credentials. *)
Definition siteC : gmap string value :=
  list_to_map [ ("name", VStr "C"); ("url", VStr "https://c.test");
                ("username", VStr "admin"); ("applicationPassword", VStr "secret") ].

(** A candidate whose name is an object with an own [toString] property
    that is not a function. *)
Definition unnamed : gmap string value :=
  list_to_map [ ("name", VObj {[ "toString" := VNum 1 ]});
                ("url", VStr "https://c.test") ].


(** Arguments of a product or order tool whose [id] cannot be printed. *)
Definition odd_id : gmap string value := {[ "id" := VObj {[ "toString" := VNum 1 ]} ]}.

Definition post1 : value :=
  VObj (list_to_map
          [ ("id", VNum 7); ("title", VObj {[ "rendered" := VStr "Hello" ]});
            ("excerpt", VObj {[ "rendered" := VStr "First post" ]});
            ("status", VStr "publish") ]).

(** An outside world in which every request is answered with one post. *)
Definition online : WordPress.Env :=
  {| WordPress.uuidv4 := "2";
     WordPress.now := fun n => "2024-01-02T00:00:0" +:+ pretty n +:+ ".000Z";
     WordPress.users_me := fun _ _ _ => Return (VObj ∅);
     WordPress.request := fun _ _ _ _ _ => Return (VArr [post1]);
     WordPress.wooCommerceApi_post := fun _ _ => Return (VObj ∅);
     WordPress.key_order := fun fields => (map_to_list fields).*1 |}.

End More.

(** * Properties *)

(** ** Strings *)

Lemma append_assoc (a b c : string) : (a +:+ b) +:+ c = a +:+ (b +:+ c).
Proof.
  induction a as [|ch a IH]; [done|].
  change (String ch ((a +:+ b) +:+ c) = String ch (a +:+ (b +:+ c))).
  by rewrite IH.
Qed.

Lemma append_empty_r (a : string) : a +:+ "" = a.
Proof.
  induction a as [|ch a IH]; [done|].
  change (String ch (a +:+ "") = String ch a). by rewrite IH.
Qed.

Lemma contains_suffix (a needle : string) : contains needle (a +:+ needle).
Proof. exists a, "". by rewrite append_empty_r. Qed.

Lemma contains_append_l (a hay needle : string) :
  contains needle hay → contains needle (a +:+ hay).
Proof.
  intros (x & y & ->). exists (a +:+ x), y. by rewrite append_assoc.
Qed.

Lemma strip_trailing_slash_snoc (u : string) : strip_trailing_slash (u +:+ "/") = u.
Proof.
  induction u as [|c u IH]; [done|].
  change (strip_trailing_slash (String c (u +:+ "/")) = String c u).
  destruct u as [|c' u]; [done|].
  change (String c (strip_trailing_slash (String c' u +:+ "/")) = String c (String c' u)).
  by rewrite IH.
Qed.

(** ** Site storage *)

Section Storage.

Lemma find_is_Some {A} (f : A → bool) (l : list A) (x : A) :
  x ∈ l → f x = true → is_Some (List.find f l).
Proof.
  intros Hin Hf. destruct (List.find f l) eqn:E; [eauto|].
  apply list_elem_of_In in Hin.
  rewrite (find_none _ _ E _ Hin) in Hf. discriminate.
Qed.

Lemma find_app_None {A} (f : A → bool) (l : list A) (x : A) :
  List.find f l = None → f x = true → List.find f (l ++ [x])%list = Some x.
Proof.
  induction l as [|y l IH]; simpl; intros Hn Hx.
  - by rewrite Hx.
  - destruct (f y); [done | by apply IH].
Qed.

Lemma findIndex_app_None {A} (f : A → bool) (l : list A) (x : A) :
  List.find f l = None → f x = true → findIndex f (l ++ [x])%list = Some (length l).
Proof.
  induction l as [|y l IH]; simpl; intros Hn Hx.
  - by rewrite Hx.
  - destruct (f y); [done|]. by rewrite IH.
Qed.

Lemma findIndex_None {A} (f : A → bool) (l : list A) :
  findIndex f l = None ↔ List.find f l = None.
Proof.
  induction l as [|y l IH]; simpl; [done|].
  destruct (f y); [done|].
  destruct (findIndex f l); simpl; split; intros H; try done.
  - by apply IH in H.
  - by apply IH.
Qed.

Lemma findIndex_Some {A} (f : A → bool) (l : list A) (i : nat) :
  findIndex f l = Some i → ∃ x, l !! i = Some x ∧ List.find f l = Some x ∧ f x = true.
Proof.
  revert i. induction l as [|y l IH]; simpl; intros i; [done|].
  destruct (f y) eqn:E.
  - intros [= <-]. eauto.
  - destruct (findIndex f l) as [j|]; simpl; [|done].
    intros [= <-]. destruct (IH j eq_refl) as (x & ? & ? & ?). eauto.
Qed.

Lemma delete_app_length {A} (l : list A) (x : A) :
  delete (length l) (l ++ [x])%list = l.
Proof. induction l as [|y l IH]; simpl; [done | by rewrite IH]. Qed.

(** On records whose urls are strings, the search of [getSiteByUrl] is an
    ordinary [find]. *)
Lemma getSiteByUrl_strings (u : string) (c : Config) :
  string_urls (sites c) →
  getSiteByUrl (VStr u) c
  = Return (List.find (url_matches (strip_trailing_slash u)) (sites c)).
Proof.
  unfold getSiteByUrl. simpl. generalize (strip_trailing_slash u) as n. intros n.
  induction (sites c) as [|s l IH]; intros Hwf; [done|].
  inversion Hwf as [|? ? [x Hx] Hl]; subst. simpl.
  unfold url_matches at 1. rewrite Hx. simpl.
  destruct (bool_decide (strip_trailing_slash x = n)); [done | by apply IH].
Qed.

End Storage.

Lemma strict_eq_printable (a b : value) :
  strict_eq a b = true → printable a = true ∧ printable b = true.
Proof. destruct a as [| |[]| | | |], b as [| |[]| | | |]; done. Qed.

Lemma printable_to_string (v : value) :
  printable v = true → ∃ s, to_string v = Return s.
Proof. unfold printable. destruct (to_string v); [eauto | done]. Qed.

Lemma log_printable (S : Type) (vs : list value) (st : S) :
  forallb printable vs = true → log vs st = (Return tt, st).
Proof.
  intros H. unfold log.
  assert (∃ l, interpolate vs = Return l) as [l ->]; [|done].
  induction vs as [|v vs IH]; [by eexists|].
  cbn [forallb] in H. apply andb_true_iff in H as [Hv Hvs].
  apply printable_to_string in Hv as [s Hs]. destruct (IH Hvs) as [l Hl].
  cbn [interpolate]. rewrite Hs, Hl. by eexists.
Qed.

Lemma log_state (S : Type) (vs : list value) (st : S) : (log vs st).2 = st.
Proof. unfold log. by destruct (interpolate vs). Qed.

Lemma log_returns (S : Type) (vs : list value) (st st' : S) (a : unit) :
  log vs st = (Return a, st') → st' = st.
Proof. unfold log. destruct (interpolate vs); [by intros [= _ <-] | discriminate]. Qed.

Lemma log_cases (S : Type) (vs : list value) (st : S) :
  log vs st = (Return tt, st) ∨ ∃ e, log vs st = (Throw e, st).
Proof. unfold log. destruct (interpolate vs); [by left | right; by eexists]. Qed.

Lemma prop_newSite_of (uuid createdAt updatedAt : string) (site : gmap string value) :
  let r := newSite_of uuid createdAt updatedAt site in
  prop r "id" = or_else (prop site "id") (VStr uuid)
  ∧ prop r "name" = prop site "name"
  ∧ prop r "url" = prop site "url".
Proof. repeat split. Qed.

Lemma addSite_cases (uuid createdAt updatedAt : string) (site : gmap string value)
  (st : SiteStorage.t) :
  truthy (prop site "name") = true →
  truthy (prop site "url") = true →
  addSite uuid createdAt updatedAt site st =
    if bool_decide (is_Some (getSiteByName (prop site "name") (config st))) then
      match to_string (prop site "name") with
      | Return name =>
          (Throw (Error ("[SiteStorage] A site with the name " +:+ dq +:+
                         name +:+ dq +:+ " already exists")), st)
      | Throw e => (Throw e, st)
      end
    else
      match getSiteByUrl (prop site "url") (config st) with
      | Throw e => (Throw e, st)
      | Return byUrl =>
          if bool_decide (is_Some byUrl) then
            match to_string (prop site "url") with
            | Return url =>
                (Throw (Error ("[SiteStorage] A site with the URL " +:+ dq +:+
                               url +:+ dq +:+ " already exists")), st)
            | Throw e => (Throw e, st)
            end
          else
            match log [prop site "name"; or_else (prop site "id") (VStr uuid)]
                    (pushed (newSite_of uuid createdAt updatedAt site) st) with
            | (Return _, st') => (Return (newSite_of uuid createdAt updatedAt site), st')
            | (Throw e, st') => (Throw e, st')
            end
      end.
Proof.
  intros Hn Hu. unfold addSite. rewrite Hn, Hu. simpl.
  unfold bind, gets, throw, lift. simpl.
  destruct (bool_decide (is_Some (getSiteByName _ _))).
  { by destruct (to_string (prop site "name")). }
  destruct (getSiteByUrl _ _) as [byUrl|e]; [|done].
  destruct (bool_decide (is_Some byUrl)).
  { by destruct (to_string (prop site "url")). }
  unfold modify, saveConfig, ret. cbn.
  fold (newSite_of uuid createdAt updatedAt site).
  destruct (prop_newSite_of uuid createdAt updatedAt site) as (-> & -> & _).
  done.
Qed.

(** A site with the required fields that conflicts with no stored record is
    stored and returned, when its name and its id can be written to the
    log. *)
Lemma addSite_accepts (uuid createdAt updatedAt : string) (site : gmap string value)
  (st : SiteStorage.t) :
  truthy (prop site "name") = true →
  truthy (prop site "url") = true →
  getSiteByName (prop site "name") (config st) = None →
  getSiteByUrl (prop site "url") (config st) = Return None →
  printable (prop site "name") = true →
  printable (or_else (prop site "id") (VStr uuid)) = true →
  addSite uuid createdAt updatedAt site st
  = (Return (newSite_of uuid createdAt updatedAt site),
     pushed (newSite_of uuid createdAt updatedAt site) st).
Proof.
  intros Hn Hu HbyName HbyUrl Hpn Hpi. rewrite addSite_cases, HbyName, HbyUrl by done.
  rewrite !bool_decide_eq_false_2 by (intros [? ?]; done).
  rewrite log_printable; [done|]. cbn [forallb]. by rewrite Hpn, Hpi.
Qed.

(** C4 (amended): a candidate with a name and a url, whose name is that of a
    stored record or whose url equals a stored record's url once one trailing
    slash is removed from each, is refused by [addSite] with an error whose
    message contains "already exists", and the store is left as it was.  The
    urls are compared as they are written: letter case is not folded. *)
Theorem addSite_conflict (uuid createdAt updatedAt : string) (site : gmap string value)
  (st : SiteStorage.t) (existing : gmap string value) :
  existing ∈ sites (config st) →
  truthy (prop site "name") = true →
  truthy (prop site "url") = true →
  strict_eq (prop existing "name") (prop site "name") = true
  ∨ (string_urls (sites (config st))
     ∧ ∃ u u', prop site "url" = VStr u ∧ prop existing "url" = VStr u'
               ∧ strip_trailing_slash u' = strip_trailing_slash u) →
  ∃ msg, addSite uuid createdAt updatedAt site st = (Throw (Error msg), st)
         ∧ contains "already exists" msg.
Proof.
  intros Hin Hn Hu Hconf. rewrite addSite_cases by done.
  assert (Hmsg : ∀ a x, contains "already exists"
                          (a +:+ dq +:+ x +:+ dq +:+ " already exists")).
  { intros a x. do 3 apply contains_append_l.
    change (contains "already exists" (dq +:+ " " +:+ "already exists")).
    rewrite <- append_assoc. apply contains_suffix. }
  destruct (bool_decide (is_Some (getSiteByName _ _))) eqn:Ename.
  { apply bool_decide_eq_true in Ename as [found Hfound].
    apply find_some in Hfound as [_ Hfound].
    apply strict_eq_printable in Hfound as [_ Hp].
    apply printable_to_string in Hp as [name ->].
    eexists. split; [done | apply Hmsg]. }
  destruct Hconf as [Hname | (Hwf & u & u' & Hsu & Heu & Hstrip)].
  { apply bool_decide_eq_false in Ename. destruct Ename.
    by apply (find_is_Some _ _ existing). }
  rewrite Hsu, getSiteByUrl_strings by done.
  rewrite bool_decide_eq_true_2.
  { cbn [to_string]. eexists. split; [done | apply Hmsg]. }
  apply (find_is_Some _ _ existing); [done|].
  unfold url_matches. rewrite Heu. by apply bool_decide_eq_true.
Qed.

Lemma addSite_conflict_witness :
  ∃ msg, addSite "2" "t1" "t2" Sample.siteB_url_slash Sample.stA
         = (Throw (Error msg), Sample.stA)
         ∧ contains "already exists" msg.
Proof.
  apply (addSite_conflict "2" "t1" "t2" Sample.siteB_url_slash Sample.stA Sample.siteA).
  - left.
  - reflexivity.
  - reflexivity.
  - right. split.
    + apply Forall_cons. split; [|apply Forall_nil_2].
      exists "https://a.test". reflexivity.
    + exists "https://a.test/", "https://a.test". repeat split; reflexivity.
Defined.

(** C4 as stated, with letter case folded by the comparison, fails: a
    candidate whose url differs from a stored one in letter case only is
    stored. *)
Lemma addSite_letter_case_counterexample :
  ¬ (∀ (uuid createdAt updatedAt : string) (site : gmap string value)
       (st : SiteStorage.t) (existing : gmap string value),
       existing ∈ sites (config st) →
       truthy (prop site "name") = true →
       truthy (prop site "url") = true →
       strict_eq (prop existing "name") (prop site "name") = true
       ∨ (string_urls (sites (config st))
          ∧ ∃ u u', prop site "url" = VStr u ∧ prop existing "url" = VStr u'
                    ∧ claimed_normalize u' = claimed_normalize u) →
       ∃ msg, addSite uuid createdAt updatedAt site st = (Throw (Error msg), st)
              ∧ contains "already exists" msg).
Proof.
  intros H.
  destruct (H "2" "t1" "t2" Sample.siteB_url_upper Sample.stA Sample.siteA)
    as (msg & Hadd & _).
  - left.
  - reflexivity.
  - reflexivity.
  - right. split.
    + apply Forall_cons. split; [|apply Forall_nil_2].
      exists "https://a.test". reflexivity.
    + exists "https://A.test", "https://a.test". repeat split; reflexivity.
  - rewrite addSite_accepts in Hadd by reflexivity. discriminate Hadd.
Qed.

(** What a successful [addSite] returns and leaves behind. *)
Lemma addSite_returns (uuid createdAt updatedAt : string)
  (site : gmap string value) (st st' : SiteStorage.t) (r : gmap string value) :
  addSite uuid createdAt updatedAt site st = (Return r, st') →
  r = newSite_of uuid createdAt updatedAt site ∧ st' = pushed r st.
Proof.
  intros Hadd.
  destruct (truthy (prop site "name")) eqn:Hn;
    [|unfold addSite in Hadd; rewrite Hn in Hadd; discriminate].
  destruct (truthy (prop site "url")) eqn:Hu;
    [|unfold addSite in Hadd; rewrite Hn, Hu in Hadd; discriminate].
  rewrite addSite_cases in Hadd by done.
  destruct (bool_decide _); [by destruct (to_string _)|].
  destruct (getSiteByUrl _ _) as [byUrl|]; [|discriminate].
  destruct (bool_decide _); [by destruct (to_string _)|].
  pose proof (log_state _ [prop site "name"; or_else (prop site "id") (VStr uuid)]
                (pushed (newSite_of uuid createdAt updatedAt site) st)) as Hlog.
  destruct (log _ _) as [[[]|e] st1]; [|discriminate].
  simpl in Hlog. subst st1. by injection Hadd as <- <-.
Qed.

(** What a successful [updateSite] returns and leaves behind. *)
Lemma updateSite_returns (now : string) (id : value) (updates r : gmap string value)
  (st st' : SiteStorage.t) :
  updateSite now id updates st = (Return r, st') →
  ∃ i current,
    sites (config st) !! i = Some current
    ∧ List.find (fun site => strict_eq (prop site "id") id) (sites (config st))
      = Some current
    ∧ r = <["updatedAt" := VStr now]> (updates ∪ current)
    ∧ st' = {| config := {| sites := <[i := r]> (sites (config st));
                            activeSiteId := activeSiteId (config st) |};
               configFile := Some {| sites := <[i := r]> (sites (config st));
                                     activeSiteId := activeSiteId (config st) |} |}.
Proof.
  unfold updateSite, bind, gets, lift.
  destruct (findIndex _ _) as [i|] eqn:Ei; [|by destruct (to_string id)].
  apply findIndex_Some in Ei as (x & Hx & Hfind & _).
  rewrite Hx. cbn [default].
  destruct (_ && _ && _); [by destruct (to_string _)|].
  set (byUrl := if _ && _ then _ else _).
  destruct (byUrl st) as [[o|e] st1] eqn:Eb; [|discriminate].
  assert (st1 = st) as ->.
  { unfold byUrl in Eb. destruct (_ && _); [|by injection Eb]. by injection Eb. }
  destruct (bool_decide (is_Some o)); [by destruct (to_string _)|].
  unfold modify, saveConfig, ret, set_sites. cbn.
  match goal with
  | |- context [log ?vs ?s] =>
      pose proof (log_state _ vs s) as Hlog; destruct (log vs s) as [[[]|e] st2]
  end; [|discriminate].
  cbn in Hlog. subst st2. intros [= <- <-]. by exists i, x.
Qed.

(** What [removeSite] returning true has done. *)
Lemma removeSite_true (id : value) (st st' : SiteStorage.t) :
  removeSite id st = (Return true, st') →
  ∃ i r, sites (config st) !! i = Some r
         ∧ List.find (fun site => strict_eq (prop site "id") id) (sites (config st)) = Some r
         ∧ strict_eq (prop r "id") id = true
         ∧ st' = {| config := {| sites := delete i (sites (config st));
                                 activeSiteId := activeSiteId (config st) |};
                    configFile := Some {| sites := delete i (sites (config st));
                                          activeSiteId := activeSiteId (config st) |} |}.
Proof.
  unfold removeSite, bind, gets.
  destruct (findIndex _ _) as [i|] eqn:Ei; [|discriminate].
  apply findIndex_Some in Ei as (r & Hr & Hfind & Hid).
  unfold modify, saveConfig, ret. cbn.
  match goal with
  | |- context [log ?vs ?s] =>
      pose proof (log_state _ vs s) as Hlog; destruct (log vs s) as [[[]|e] st2]
  end; [|discriminate].
  cbn in Hlog. subst st2. intros [= <-]. by exists i, r.
Qed.

(** What a successful [setActiveSite] returns and leaves behind. *)
Lemma setActiveSite_returns (id : value) (st st' : SiteStorage.t)
  (site : gmap string value) :
  setActiveSite id st = (Return site, st') →
  getSiteById id (config st) = Some site
  ∧ st' = {| config := {| sites := sites (config st); activeSiteId := id |};
             configFile := Some {| sites := sites (config st); activeSiteId := id |} |}.
Proof.
  unfold setActiveSite, bind, gets, lift.
  destruct (getSiteById id (config st)) as [found|] eqn:E; [|by destruct (to_string id)].
  unfold modify, saveConfig, ret. cbn.
  match goal with
  | |- context [log ?vs ?s] =>
      pose proof (log_state _ vs s) as Hlog; destruct (log vs s) as [[[]|e] st2]
  end; [|discriminate].
  cbn in Hlog. subst st2. by intros [= <- <-].
Qed.

Lemma dom_newSite_of (uuid createdAt updatedAt : string) (site : gmap string value) :
  dom (newSite_of uuid createdAt updatedAt site)
  = {[ "id"; "name"; "url"; "username"; "applicationPassword"; "createdAt"; "updatedAt" ]}.
Proof. unfold newSite_of. rewrite !dom_insert_L, dom_empty_L. set_solver. Qed.

(** C10: the record [addSite] returns is the one it appends to the stored
    sites and writes to the file; its properties are exactly [id], [name],
    [url], [username], [applicationPassword], [createdAt] and [updatedAt], so
    whatever else the input carried ([consumerKey], [consumerSecret], ...) is
    not in it. *)
Theorem addSite_record_fields (uuid createdAt updatedAt : string)
  (site : gmap string value) (st st' : SiteStorage.t) (r : gmap string value) :
  addSite uuid createdAt updatedAt site st = (Return r, st') →
  dom r = {[ "id"; "name"; "url"; "username"; "applicationPassword";
             "createdAt"; "updatedAt" ]}
  ∧ (∀ k, k ∉ [ "id"; "name"; "url"; "username"; "applicationPassword";
                "createdAt"; "updatedAt" ] → r !! k = None)
  ∧ r !! "consumerKey" = None ∧ r !! "consumerSecret" = None
  ∧ sites (config st') = (sites (config st) ++ [r])%list
  ∧ configFile st' = Some (config st').
Proof.
  intros Hadd. apply addSite_returns in Hadd as [-> ->].
  split; [apply dom_newSite_of|]. split.
  { intros k Hk. apply not_elem_of_dom. rewrite dom_newSite_of.
    rewrite !elem_of_cons, elem_of_nil in Hk.
    rewrite !elem_of_union, !elem_of_singleton. tauto. }
  repeat split; reflexivity.
Qed.

Lemma addSite_record_fields_witness :
  dom (newSite_of "2" "t1" "t2" Sample.siteB)
  = {[ "id"; "name"; "url"; "username"; "applicationPassword"; "createdAt"; "updatedAt" ]}
  ∧ newSite_of "2" "t1" "t2" Sample.siteB !! "consumerKey" = None.
Proof.
  pose proof (addSite_record_fields "2" "t1" "t2" Sample.siteB Sample.stA
                (pushed (newSite_of "2" "t1" "t2" Sample.siteB) Sample.stA)
                (newSite_of "2" "t1" "t2" Sample.siteB)) as H.
  assert (Hadd : addSite "2" "t1" "t2" Sample.siteB Sample.stA
                 = (Return (newSite_of "2" "t1" "t2" Sample.siteB),
                    pushed (newSite_of "2" "t1" "t2" Sample.siteB) Sample.stA))
    by (apply addSite_accepts; reflexivity).
  specialize (H Hadd).
  split; [exact (proj1 H) | exact (proj1 (proj2 (proj2 H)))].
Defined.

(** C6 (amended): for a site whose name and url are non-empty strings that
    conflict with no stored record, and whose id (the one supplied, or else
    the generated one) is the id of no stored record, [addSite] returns a
    record that [getSiteById] of its id, [getSiteByName] of its name and
    [getSiteByUrl] of its url all give back; and once [removeSite] of that id
    has returned true, [getSiteById] gives null. *)
Theorem addSite_then_lookup (uuid createdAt updatedAt : string)
  (site : gmap string value) (st : SiteStorage.t) (n u i : string) :
  prop site "name" = VStr n → n ≠ "" →
  prop site "url" = VStr u → u ≠ "" →
  or_else (prop site "id") (VStr uuid) = VStr i →
  string_urls (sites (config st)) →
  getSiteByName (VStr n) (config st) = None →
  getSiteByUrl (VStr u) (config st) = Return None →
  getSiteById (VStr i) (config st) = None →
  ∃ r st1,
    addSite uuid createdAt updatedAt site st = (Return r, st1)
    ∧ getSiteById (prop r "id") (config st1) = Some r
    ∧ getSiteByName (prop r "name") (config st1) = Some r
    ∧ getSiteByUrl (prop r "url") (config st1) = Return (Some r)
    ∧ ∃ st2, removeSite (prop r "id") st1 = (Return true, st2)
             ∧ getSiteById (prop r "id") (config st2) = None.
Proof.
  intros Hn Hne Hu Hue Hi Hwf HbyName HbyUrl HbyId.
  exists (newSite_of uuid createdAt updatedAt site),
         (pushed (newSite_of uuid createdAt updatedAt site) st).
  destruct (prop_newSite_of uuid createdAt updatedAt site) as (Hrid & Hrn & Hru).
  set (r := newSite_of uuid createdAt updatedAt site) in *.
  rewrite Hrid, Hrn, Hru, Hi, Hn, Hu.
  split.
  { apply addSite_accepts.
    - rewrite Hn. simpl. by rewrite bool_decide_eq_false_2.
    - rewrite Hu. simpl. by rewrite bool_decide_eq_false_2.
    - by rewrite Hn.
    - by rewrite Hu.
    - by rewrite Hn.
    - by rewrite Hi. }
  split.
  { unfold getSiteById in *. simpl. apply find_app_None; [done|].
    rewrite Hrid, Hi. simpl. by apply bool_decide_eq_true. }
  split.
  { unfold getSiteByName in *. simpl. apply find_app_None; [done|].
    rewrite Hrn, Hn. simpl. by apply bool_decide_eq_true. }
  split.
  { rewrite getSiteByUrl_strings in HbyUrl by done. injection HbyUrl as HbyUrl.
    rewrite getSiteByUrl_strings.
    - simpl. f_equal. apply find_app_None; [done|].
      unfold url_matches. rewrite Hru, Hu. by apply bool_decide_eq_true.
    - simpl. apply Forall_app. split; [done|].
      repeat constructor. exists u. by rewrite Hru. }
  eexists. split.
  - unfold removeSite, bind, gets, modify, saveConfig, ret. simpl.
    rewrite findIndex_app_None;
      [|exact HbyId|rewrite Hrid, Hi; simpl; by apply bool_decide_eq_true].
    change (sites (config (pushed r st))) with (sites (config st) ++ [r])%list.
    rewrite lookup_app_r, Nat.sub_diag by done.
    change (prop (default ∅ ([r] !! 0%nat)) "name") with (prop r "name").
    rewrite Hrn, Hn, log_printable by done. reflexivity.
  - unfold getSiteById. simpl. rewrite delete_app_length. exact HbyId.
Qed.

Lemma addSite_then_lookup_witness :
  ∃ r st1,
    addSite "2" "t1" "t2" Sample.siteB Sample.stA = (Return r, st1)
    ∧ getSiteById (prop r "id") (config st1) = Some r
    ∧ getSiteByName (prop r "name") (config st1) = Some r
    ∧ getSiteByUrl (prop r "url") (config st1) = Return (Some r)
    ∧ ∃ st2, removeSite (prop r "id") st1 = (Return true, st2)
             ∧ getSiteById (prop r "id") (config st2) = None.
Proof.
  apply (addSite_then_lookup "2" "t1" "t2" Sample.siteB Sample.stA
           "B" "https://b.test" "2").
  - reflexivity.
  - discriminate.
  - reflexivity.
  - discriminate.
  - reflexivity.
  - apply Forall_cons. split; [|apply Forall_nil_2].
    exists "https://a.test". reflexivity.
  - reflexivity.
  - reflexivity.
  - reflexivity.
Defined.

(** C6 as stated, without the condition on the id, fails: a site added under
    the id of a stored record is not the one [getSiteById] finds. *)
Lemma addSite_reused_id_counterexample :
  ¬ (∀ (uuid createdAt updatedAt : string) (site : gmap string value)
       (st : SiteStorage.t) (n u : string),
       prop site "name" = VStr n → n ≠ "" →
       prop site "url" = VStr u → u ≠ "" →
       string_urls (sites (config st)) →
       getSiteByName (VStr n) (config st) = None →
       getSiteByUrl (VStr u) (config st) = Return None →
       ∃ r st1,
         addSite uuid createdAt updatedAt site st = (Return r, st1)
         ∧ getSiteById (prop r "id") (config st1) = Some r
         ∧ getSiteByName (prop r "name") (config st1) = Some r
         ∧ getSiteByUrl (prop r "url") (config st1) = Return (Some r)
         ∧ ∃ st2, removeSite (prop r "id") st1 = (Return true, st2)
                  ∧ getSiteById (prop r "id") (config st2) = None).
Proof.
  intros H.
  destruct (H "2" "t1" "t2" Sample.siteB_with_id_1 Sample.stA "B" "https://b.test")
    as (r & st1 & Hadd & Hid & _).
  - reflexivity.
  - discriminate.
  - reflexivity.
  - discriminate.
  - apply Forall_cons. split; [|apply Forall_nil_2].
    exists "https://a.test". reflexivity.
  - reflexivity.
  - reflexivity.
  - rewrite addSite_accepts in Hadd by reflexivity. injection Hadd as <- <-.
    assert (Hfound : getSiteById (VStr "1")
                       (config (pushed (newSite_of "2" "t1" "t2" Sample.siteB_with_id_1)
                                  Sample.stA))
                     = Some Sample.siteA) by reflexivity.
    pose proof (eq_trans (eq_sym Hfound) Hid) as Heq.
    apply (f_equal (fun o => o ≫= (.!! "name"))) in Heq.
    vm_compute in Heq. discriminate Heq.
Qed.

(** C5: [updateSite] does not keep its url check to the other records.  A
    patch that writes the record's own url with a trailing slash is looked
    up among all records, finds the record itself, and is refused as a
    duplicate. *)
Theorem updateSite_own_url_trailing_slash :
  updateSite "t3" (VStr "1") {[ "url" := VStr "https://a.test/" ]} Sample.stA
  = (Throw (Error ("[SiteStorage] A site with the URL " +:+ dq +:+ "https://a.test/" +:+
                   dq +:+ " already exists")), Sample.stA)
  ∧ getSiteByUrl (VStr "https://a.test/") (config Sample.stA) = Return (Some Sample.siteA)
  ∧ getSiteById (VStr "1") (config Sample.stA) = Some Sample.siteA.
Proof. repeat split. Qed.


(** ** The handler table of the server *)

Section HandlerTable.

Lemma toolHandlers_registerToolDefinitions (defs : list Descriptor) (s : Server.t) :
  Server.toolHandlers (Server.registerToolDefinitions defs s) = Server.toolHandlers s.
Proof.
  unfold Server.registerToolDefinitions. revert s.
  induction defs as [|d defs IH]; intros s; simpl; [done | by rewrite IH].
Qed.

Lemma toolDefinitions_registerToolDefinitions (defs : list Descriptor) (s : Server.t) :
  Server.toolDefinitions (Server.registerToolDefinitions defs s)
  = (Server.toolDefinitions s ++ defs)%list.
Proof.
  unfold Server.registerToolDefinitions. revert s.
  induction defs as [|d defs IH]; intros s; simpl.
  - by rewrite app_nil_r.
  - rewrite IH. simpl. by rewrite <- app_assoc.
Qed.

Lemma toolHandlers_registerToolHandlers (bodies : list (string * Body)) (s : Server.t) :
  Server.toolHandlers (Server.registerToolHandlers bodies s)
  = insert_all bodies (Server.toolHandlers s).
Proof.
  unfold Server.registerToolHandlers, insert_all. revert s.
  induction bodies as [|b bodies IH]; intros s; simpl; [done | by rewrite IH].
Qed.

Lemma bodies_names : Server.bodies.*1 = tool_names.
Proof. reflexivity. Qed.

Lemma bodies_NoDup : NoDup Server.bodies.*1.
Proof.
  rewrite bodies_names. unfold tool_names.
  apply (bool_decide_unpack (NoDup _)). vm_compute. exact I.
Qed.

Lemma toolHandlers_setCallToolHandler (h : Server.CallToolHandler) (s : Server.t) :
  Server.toolHandlers (Server.setCallToolHandler h s) = Server.toolHandlers s.
Proof. reflexivity. Qed.

Lemma toolHandlers_registerSiteTools (schema : string → value) (s : Server.t) :
  Server.toolHandlers (Server.registerSiteTools schema s)
  = insert_all SiteTools.bodies (Server.toolHandlers s).
Proof.
  unfold Server.registerSiteTools.
  by rewrite toolHandlers_registerToolHandlers, toolHandlers_registerToolDefinitions.
Qed.

Lemma toolHandlers_registerPostTools (schema : string → value) (s : Server.t) :
  Server.toolHandlers (Server.registerPostTools schema s)
  = insert_all PostTools.bodies (Server.toolHandlers s).
Proof.
  unfold Server.registerPostTools.
  by rewrite toolHandlers_registerToolHandlers, toolHandlers_setCallToolHandler,
    toolHandlers_registerToolDefinitions.
Qed.

Lemma toolHandlers_registerPageTools (schema : string → value) (s : Server.t) :
  Server.toolHandlers (Server.registerPageTools schema s)
  = insert_all PageTools.bodies (Server.toolHandlers s).
Proof.
  unfold Server.registerPageTools.
  by rewrite toolHandlers_registerToolHandlers, toolHandlers_registerToolDefinitions.
Qed.

Lemma toolHandlers_registerWooProductTools (schema : string → value) (s : Server.t) :
  Server.toolHandlers (Server.registerWooProductTools schema s)
  = insert_all WooProductTools.bodies (Server.toolHandlers s).
Proof.
  unfold Server.registerWooProductTools.
  by rewrite toolHandlers_registerToolHandlers, toolHandlers_setCallToolHandler,
    toolHandlers_registerToolDefinitions.
Qed.

Lemma toolHandlers_registerWooOrderTools (schema : string → value) (s : Server.t) :
  Server.toolHandlers (Server.registerWooOrderTools schema s)
  = insert_all WooOrderTools.bodies (Server.toolHandlers s).
Proof.
  unfold Server.registerWooOrderTools.
  by rewrite toolHandlers_registerToolHandlers, toolHandlers_setCallToolHandler,
    toolHandlers_registerToolDefinitions.
Qed.

Lemma insert_all_app (a b : list (string * Body)) (m : gmap string Handler) :
  insert_all (a ++ b) m = insert_all b (insert_all a m).
Proof. apply fold_left_app. Qed.

Lemma toolHandlers_registerTools (schema : string → value) (s : Server.t) :
  Server.toolHandlers (Server.registerTools schema s)
  = insert_all Server.bodies (Server.toolHandlers s).
Proof.
  unfold Server.registerTools, Server.bodies.
  rewrite toolHandlers_registerWooOrderTools, toolHandlers_registerWooProductTools,
    toolHandlers_registerPageTools, toolHandlers_registerPostTools,
    toolHandlers_registerSiteTools.
  by rewrite !insert_all_app.
Qed.

Lemma toolHandlers_registerCentralizedToolHandlers (s : Server.t) :
  Server.toolHandlers (Server.registerCentralizedToolHandlers s) = Server.toolHandlers s.
Proof. reflexivity. Qed.

Lemma callToolHandler_registerCentralizedToolHandlers (s : Server.t) :
  Server.callToolHandler (Server.registerCentralizedToolHandlers s)
  = Some Server.centralizedCallTool.
Proof. reflexivity. Qed.

Lemma toolHandlers_init (schema : string → value) :
  Server.toolHandlers (Server.init schema) = insert_all Server.bodies ∅.
Proof.
  unfold Server.init.
  by rewrite toolHandlers_registerCentralizedToolHandlers, toolHandlers_registerTools.
Qed.

Lemma insert_all_notin (bodies : list (string * Body)) (m : gmap string Handler)
  (k : string) :
  k ∉ bodies.*1 → insert_all bodies m !! k = m !! k.
Proof.
  revert m. induction bodies as [|[n b] bodies IH]; intros m Hk; [done|].
  rewrite fmap_cons, not_elem_of_cons in Hk. destruct Hk as [Hne Hk].
  change (insert_all bodies (<[n := Server.handler_of b]> m) !! k = m !! k).
  rewrite IH by done. by rewrite lookup_insert_ne.
Qed.

Lemma insert_all_in (bodies : list (string * Body)) (m : gmap string Handler)
  (k : string) (b : Body) :
  NoDup bodies.*1 → (k, b) ∈ bodies →
  insert_all bodies m !! k = Some (Server.handler_of b).
Proof.
  revert m. induction bodies as [|[n b'] bodies IH]; intros m Hnd Hin.
  - by apply elem_of_nil in Hin.
  - rewrite fmap_cons in Hnd. apply NoDup_cons in Hnd as [Hn Hnd].
    change (insert_all bodies (<[n := Server.handler_of b']> m) !! k
            = Some (Server.handler_of b)).
    apply elem_of_cons in Hin as [Heq|Hin].
    + injection Heq as -> ->.
      rewrite insert_all_notin by done. apply lookup_insert_eq.
    + by apply IH.
Qed.

Lemma insert_all_Some (bodies : list (string * Body)) (k : string) (h : Handler) :
  NoDup bodies.*1 → insert_all bodies ∅ !! k = Some h →
  ∃ b, (k, b) ∈ bodies ∧ h = Server.handler_of b.
Proof.
  intros Hnd Hk.
  destruct (decide (k ∈ bodies.*1)) as [Hin|Hin].
  - apply list_elem_of_fmap in Hin as ([n b] & -> & Hin).
    rewrite (insert_all_in _ _ _ b) in Hk by done. injection Hk as <-. eauto.
  - rewrite insert_all_notin in Hk by done. by rewrite lookup_empty in Hk.
Qed.

(** The handlers the initialised server holds are the guarded blocks of
    the tool modules, each in its [try]/[catch] frame. *)
Lemma init_handler (schema : string → value) (name : string) (body : Body) :
  (name, body) ∈ Server.bodies →
  Server.toolHandlers (Server.init schema) !! name = Some (Server.handler_of body).
Proof.
  intros Hin. rewrite toolHandlers_init. apply insert_all_in; [apply bodies_NoDup | done].
Qed.

Lemma init_handler_inv (schema : string → value) (name : string) (h : Handler) :
  Server.toolHandlers (Server.init schema) !! name = Some h →
  ∃ body, (name, body) ∈ Server.bodies ∧ h = Server.handler_of body.
Proof. rewrite toolHandlers_init. apply insert_all_Some, bodies_NoDup. Qed.

(** A call of a registered tool runs the module's guarded block in its
    frame. *)
Lemma callTool_registered (schema : string → value) (name : string) (body : Body)
  (args : gmap string value) (env : WordPress.Env) (st : SiteStorage.t) :
  (name, body) ∈ Server.bodies →
  Server.callTool (Server.init schema) name args env st = guarded (body args env) st.
Proof.
  intros Hin. unfold Server.callTool, Server.init.
  rewrite callToolHandler_registerCentralizedToolHandlers.
  unfold Server.centralizedCallTool.
  change (Request.name (Request.params (Request.mkRequest (Request.mkParams name args) None)))
    with name.
  change (Request.arguments (Request.params (Request.mkRequest (Request.mkParams name args) None)))
    with args.
  fold (Server.init schema). by rewrite (init_handler _ _ body).
Qed.
End HandlerTable.


Lemma callTool_centralized (s : Server.t) (name : string) (args : gmap string value)
  (env : WordPress.Env) (st : SiteStorage.t) :
  Server.callTool (Server.registerCentralizedToolHandlers s) name args env st
  = match Server.toolHandlers s !! name with
    | Some handler => handler args env st
    | None => (Throw (Error ("Unknown tool: " +:+ name)), st)
    end.
Proof.
  unfold Server.callTool, Server.registerCentralizedToolHandlers,
    Server.setListToolsHandler, Server.setCallToolHandler, Server.centralizedCallTool.
  cbn [Server.callToolHandler Server.toolHandlers Request.name Request.arguments
       Request.params].
  by destruct (Server.toolHandlers s !! name).
Qed.

Lemma callTool_centralized_None (s : Server.t) (name : string) (args : gmap string value)
  (env : WordPress.Env) (st : SiteStorage.t) :
  Server.toolHandlers s !! name = None →
  Server.callTool (Server.registerCentralizedToolHandlers s) name args env st
  = (Throw (Error ("Unknown tool: " +:+ name)), st).
Proof.
  intros Hnone. rewrite callTool_centralized.
  destruct (_ !! name) as [h|]; [discriminate Hnone | done].
Qed.

Lemma no_such_tool_unregistered (schema : string → value) :
  Server.toolHandlers (Server.registerTools schema Server.empty) !! "no_such_tool" = None.
Proof.
  rewrite toolHandlers_registerTools. apply insert_all_notin.
  rewrite bodies_names. apply (bool_decide_unpack (_ ∉ _)). vm_compute. exact I.
Qed.

Lemma no_such_tool_init (schema : string → value) :
  Server.toolHandlers (Server.init schema) !! "no_such_tool" = None.
Proof.
  unfold Server.init. rewrite toolHandlers_registerCentralizedToolHandlers.
  apply no_such_tool_unregistered.
Qed.

(** C1 (amended): for a tool name with no registered handler, the
    centralized call-tool handler raises an [Error] whose message is
    "Unknown tool: <name>" and returns no envelope; the call-tool handler of
    the product module, when it has no next handler to pass the request to,
    returns for a name outside its own tools the error envelope with that
    message. *)
Theorem unknown_tool (s : Server.t) (schema : string → value) (name : string)
  (args : gmap string value) (env : WordPress.Env) (st : SiteStorage.t) :
  Server.toolHandlers s !! name = None →
  name ∉ map Tool.name (WooProductTools.tools schema) →
  Server.callTool (Server.registerCentralizedToolHandlers s) name args env st
  = (Throw (Error ("Unknown tool: " +:+ name)), st)
  ∧ WooProductTools.callTool schema
      {| Request.params := {| Request.name := name; Request.arguments := args |};
         Request.next := None |} env st
    = (Return (failure ("Unknown tool: " +:+ name)), st).
Proof.
  intros Hnone Hlocal. split.
  - by apply callTool_centralized_None.
  - unfold WooProductTools.callTool.
    cbn [Request.name Request.arguments Request.params Request.next].
    destruct (List.find _ _) as [t|] eqn:E; [|done].
    apply find_some in E as [Hin Hname].
    apply bool_decide_eq_true in Hname. destruct Hlocal.
    rewrite <- Hname. apply list_elem_of_In. by apply in_map.
Qed.

Lemma unknown_tool_witness :
  Server.callTool (Server.init Sample.no_schema) "no_such_tool" ∅ Sample.offline Sample.st0
  = (Throw (Error "Unknown tool: no_such_tool"), Sample.st0)
  ∧ WooProductTools.callTool Sample.no_schema
      {| Request.params := {| Request.name := "no_such_tool"; Request.arguments := ∅ |};
         Request.next := None |} Sample.offline Sample.st0
    = (Return (failure "Unknown tool: no_such_tool"), Sample.st0).
Proof.
  apply (unknown_tool (Server.registerTools Sample.no_schema Server.empty)
           Sample.no_schema "no_such_tool" ∅ Sample.offline Sample.st0).
  - apply no_such_tool_unregistered.
  - apply (bool_decide_unpack (_ ∉ _)). vm_compute. exact I.
Defined.

(** C1 as stated fails: the initialised server answers a call of an
    unregistered name with no envelope at all. *)
Lemma unknown_tool_counterexample :
  ¬ (∀ (schema : string → value) (name : string) (args : gmap string value)
       (env : WordPress.Env) (st : SiteStorage.t),
       Server.toolHandlers (Server.init schema) !! name = None →
       ∃ st', Server.callTool (Server.init schema) name args env st
              = (Return (failure ("Unknown tool: " +:+ name)), st')).
Proof.
  intros H.
  destruct (H Sample.no_schema "no_such_tool" ∅ Sample.offline Sample.st0) as [st' Hc].
  - apply no_such_tool_init.
  - unfold Server.init in Hc.
    rewrite callTool_centralized_None in Hc by apply no_such_tool_unregistered.
    discriminate Hc.
Qed.


Lemma listTools_registerToolDefinition (d : Descriptor) (s : Server.t) :
  Server.listTools (Server.registerToolDefinition d s)
  = match Server.listToolsHandler s with
    | Some h => Some (h (Server.toolDefinitions s ++ [d])%list)
    | None => None
    end.
Proof. reflexivity. Qed.

(** C7: registering two descriptors under one name leaves both in the
    list-tools response, in registration order; binding two handlers under
    one name leaves one entry in the table, whose handler is the second. *)
Theorem duplicate_registration (s : Server.t) (n : string)
  (description1 description2 : string) (schema1 schema2 : value) (h1 h2 : Handler) :
  let d1 := {| name := n; description := description1; inputSchema := schema1 |} in
  let d2 := {| name := n; description := description2; inputSchema := schema2 |} in
  let defs := Server.registerToolDefinition d2
                (Server.registerToolDefinition d1
                   (Server.registerCentralizedToolHandlers s)) in
  let handlers := Server.registerToolHandler n h2 (Server.registerToolHandler n h1 s) in
  Server.listTools defs = Some (Server.toolDefinitions s ++ [d1; d2])%list
  ∧ filter (fun d => name d = n) (Server.toolDefinitions defs)
    = (filter (fun d => name d = n) (Server.toolDefinitions s) ++ [d1; d2])%list
  ∧ Server.toolHandlers handlers !! n = Some h2
  ∧ Server.toolHandlers handlers = <[n := h2]> (Server.toolHandlers s)
  ∧ size (Server.toolHandlers handlers)
    = size (Server.toolHandlers (Server.registerToolHandler n h1 s)).
Proof.
  intros d1 d2 defs handlers.
  assert (Hdefs : Server.toolDefinitions defs = (Server.toolDefinitions s ++ [d1; d2])%list).
  { unfold defs. cbn [Server.toolDefinitions Server.registerToolDefinition
                      Server.registerCentralizedToolHandlers Server.setListToolsHandler
                      Server.setCallToolHandler].
    by rewrite <- app_assoc. }
  assert (Hh : Server.toolHandlers handlers = <[n := h2]> (Server.toolHandlers s)).
  { unfold handlers. cbn [Server.toolHandlers Server.registerToolHandler].
    apply insert_insert_eq. }
  split.
  { unfold defs. rewrite listTools_registerToolDefinition.
    cbn [Server.listToolsHandler Server.toolDefinitions Server.registerToolDefinition
         Server.registerCentralizedToolHandlers Server.setListToolsHandler
         Server.setCallToolHandler].
    by rewrite <- app_assoc. }
  split.
  { rewrite Hdefs, filter_app. f_equal.
    rewrite filter_cons_True by done. by rewrite filter_cons_True by done. }
  split; [by rewrite Hh, lookup_insert_eq|].
  split; [done|].
  rewrite Hh. cbn [Server.toolHandlers Server.registerToolHandler].
  rewrite <- (insert_insert_eq (Server.toolHandlers s) n h2 h1).
  apply map_size_insert_Some. rewrite lookup_insert_eq. eauto.
Qed.

(** C3: the registered [list_products] handler, given no [site_id], never
    asks the factory for the active site: it takes [false] for its client and
    fails on [client.get], whatever the store holds. *)
Theorem list_products_without_site_id (schema : string → value)
  (args : gmap string value) (env : WordPress.Env) (st : SiteStorage.t) :
  truthy (prop args "site_id") = false →
  Server.callTool (Server.init schema) "list_products" args env st
  = (Return (failure "client.get is not a function"), st).
Proof.
  intros Hsite.
  rewrite (callTool_registered schema _ (WooProductTools.list_products "client"));
    [|unfold Server.bodies; rewrite !elem_of_app; do 3 right; left; apply list_elem_of_here].
  unfold guarded, try_catch, WooProductTools.list_products, wooClient, bind.
  rewrite Hsite. reflexivity.
Qed.

Lemma list_products_without_site_id_witness :
  Server.callTool (Server.init Sample.no_schema) "list_products" Sample.first_page
    Sample.offline Sample.st0
  = (Return (failure "client.get is not a function"), Sample.st0)
  ∧ Server.callTool (Server.init Sample.no_schema) "list_products" Sample.first_page
      Sample.offline Sample.stA
    = (Return (failure "client.get is not a function"), Sample.stA).
Proof.
  split.
  - apply (list_products_without_site_id Sample.no_schema Sample.first_page
             Sample.offline Sample.st0).
    reflexivity.
  - apply (list_products_without_site_id Sample.no_schema Sample.first_page
             Sample.offline Sample.stA).
    reflexivity.
Defined.


(** ** The shape of tool results *)

Section Shape.

Lemma success_shaped (fields : list (string * value)) : well_shaped (success fields).
Proof.
  eexists. split; [reflexivity|]. left. split; [|done].
  by rewrite list_to_map_cons, lookup_insert_eq.
Qed.

Lemma failure_shaped (msg : string) : well_shaped (failure msg).
Proof.
  eexists. split; [reflexivity|]. right. repeat split; eauto.
Qed.

Lemma shaped_ret_success (fields : list (string * value)) :
  returns_shaped (ret (success fields)).
Proof. intros st. apply success_shaped. Qed.

Lemma shaped_ret_failure (msg : string) : returns_shaped (ret (failure msg)).
Proof. intros st. apply failure_shaped. Qed.

Lemma shaped_throw (e : error) : returns_shaped (throw e).
Proof. by intros st. Qed.

Lemma shaped_bind {A} (m : M SiteStorage.t A) (k : A → M SiteStorage.t Envelope) :
  (∀ a, returns_shaped (k a)) → returns_shaped (bind m k).
Proof.
  intros Hk st. unfold bind. destruct (m st) as [[a|e] st']; [apply Hk | done].
Qed.

Lemma shaped_guarded (m : M SiteStorage.t Envelope) :
  returns_shaped m → returns_shaped (guarded m).
Proof.
  intros Hm st. unfold guarded, try_catch. specialize (Hm st).
  destruct (m st) as [[e|err] st']; [done | apply failure_shaped].
Qed.

(** The frame never lets an exception through. *)
Lemma guarded_returns (m : M SiteStorage.t Envelope) (st : SiteStorage.t) :
  ∃ e st', guarded m st = (Return e, st').
Proof.
  unfold guarded, try_catch. destruct (m st) as [[e|err] st']; eauto.
Qed.

Lemma guarded_throw (m : M SiteStorage.t Envelope) (st st' : SiteStorage.t) (err : error) :
  m st = (Throw err, st') → guarded m st = (Return (failure (message err)), st').
Proof. intros H. unfold guarded, try_catch. by rewrite H. Qed.


End Shape.

Ltac shaped :=
  repeat match goal with
         | |- returns_shaped (bind _ _) => apply shaped_bind; intros
         | |- returns_shaped (ret (success _)) => apply shaped_ret_success
         | |- returns_shaped (ret (failure _)) => apply shaped_ret_failure
         | |- returns_shaped (throw _) => apply shaped_throw
         | |- returns_shaped (if ?b then _ else _) => destruct b
         | |- returns_shaped (match ?x with _ => _ end) => destruct x
         end.

Section BodiesShaped.
Context (args : gmap string value) (env : WordPress.Env).

Lemma site_bodies_shaped :
  Forall (fun nb : string * Body => returns_shaped (nb.2 args env)) SiteTools.bodies.
Proof.
  unfold SiteTools.bodies.
  apply Forall_cons; split; [solve [cbn [snd]; unfold SiteTools.add_site; shaped]|].
  apply Forall_cons; split; [solve [cbn [snd]; unfold SiteTools.list_sites; shaped]|].
  apply Forall_cons; split; [solve [cbn [snd]; unfold SiteTools.get_site; shaped]|].
  apply Forall_cons; split; [solve [cbn [snd]; unfold SiteTools.update_site; shaped]|].
  apply Forall_cons; split; [solve [cbn [snd]; unfold SiteTools.remove_site; shaped]|].
  apply Forall_cons; split; [solve [cbn [snd]; unfold SiteTools.select_site; shaped]|].
  apply Forall_cons; split; [solve [cbn [snd]; unfold SiteTools.get_active_site; shaped]|].
  apply Forall_cons; split; [solve [cbn [snd]; unfold SiteTools.test_site_connectivity; shaped]|].
  apply Forall_cons; split; [solve [cbn [snd]; unfold SiteTools.get_site_info; shaped]|].
  apply Forall_nil_2.
Qed.

Lemma post_bodies_shaped :
  Forall (fun nb : string * Body => returns_shaped (nb.2 args env)) PostTools.bodies.
Proof.
  unfold PostTools.bodies.
  apply Forall_cons; split; [solve [cbn [snd]; unfold PostTools.with_client, PostTools.listPosts; shaped]|].
  apply Forall_cons; split; [solve [cbn [snd]; unfold PostTools.with_client, PostTools.getPost; shaped]|].
  apply Forall_cons; split; [solve [cbn [snd]; unfold PostTools.with_client, PostTools.createPost; shaped]|].
  apply Forall_cons; split; [solve [cbn [snd]; unfold PostTools.with_client, PostTools.updatePost; shaped]|].
  apply Forall_cons; split; [solve [cbn [snd]; unfold PostTools.with_client, PostTools.deletePost; shaped]|].
  apply Forall_nil_2.
Qed.

Lemma page_bodies_shaped :
  Forall (fun nb : string * Body => returns_shaped (nb.2 args env)) PageTools.bodies.
Proof.
  unfold PageTools.bodies.
  apply Forall_cons; split; [solve [cbn [snd]; unfold PageTools.list_pages; shaped]|].
  apply Forall_cons; split; [solve [cbn [snd]; unfold PageTools.get_page; shaped]|].
  apply Forall_cons; split; [solve [cbn [snd]; unfold PageTools.create_page; shaped]|].
  apply Forall_cons; split; [solve [cbn [snd]; unfold PageTools.update_page; shaped]|].
  apply Forall_cons; split; [solve [cbn [snd]; unfold PageTools.delete_page; shaped]|].
  apply Forall_nil_2.
Qed.

Lemma product_bodies_shaped :
  Forall (fun nb : string * Body => returns_shaped (nb.2 args env)) WooProductTools.bodies.
Proof.
  unfold WooProductTools.bodies.
  apply Forall_cons; split; [solve [cbn [snd]; unfold WooProductTools.list_products; shaped]|].
  apply Forall_cons; split; [solve [cbn [snd]; unfold WooProductTools.create_product; shaped]|].
  apply Forall_cons; split; [solve [cbn [snd]; unfold WooProductTools.update_product; shaped]|].
  apply Forall_cons; split; [solve [cbn [snd]; unfold WooProductTools.delete_product; shaped]|].
  apply Forall_nil_2.
Qed.

Lemma order_bodies_shaped :
  Forall (fun nb : string * Body => returns_shaped (nb.2 args env)) WooOrderTools.bodies.
Proof.
  unfold WooOrderTools.bodies.
  apply Forall_cons; split; [solve [cbn [snd]; unfold WooOrderTools.list_orders; shaped]|].
  apply Forall_cons; split; [solve [cbn [snd]; unfold WooOrderTools.create_order; shaped]|].
  apply Forall_cons; split; [solve [cbn [snd]; unfold WooOrderTools.update_order; shaped]|].
  apply Forall_cons; split; [solve [cbn [snd]; unfold WooOrderTools.delete_order; shaped]|].
  apply Forall_nil_2.
Qed.

Lemma bodies_shaped (name : string) (body : Body) :
  (name, body) ∈ Server.bodies → returns_shaped (body args env).
Proof.
  intros Hin.
  assert (H : Forall (fun nb : string * Body => returns_shaped (nb.2 args env))
                Server.bodies).
  { unfold Server.bodies. repeat (apply Forall_app; split).
    - apply site_bodies_shaped.
    - apply post_bodies_shaped.
    - apply page_bodies_shaped.
    - apply product_bodies_shaped.
    - apply order_bodies_shaped. }
  rewrite Forall_forall in H. exact (H _ Hin).
Qed.

End BodiesShaped.

(** C8: a call of a registered tool returns an envelope whose content is one
    text item encoding an object; the object's [status] is "success", and
    then the envelope has no [isError], or it is "error", and then the
    object has a string [message] and the envelope has [isError: true]. *)
Theorem tool_result_shape (schema : string → value) (name : string)
  (args : gmap string value) (env : WordPress.Env) (st : SiteStorage.t) :
  is_Some (Server.toolHandlers (Server.init schema) !! name) →
  ∃ e st' payload,
    Server.callTool (Server.init schema) name args env st = (Return e, st')
    ∧ content e = [ {| type := "text"; text := VObj payload |} ]
    ∧ ((payload !! "status" = Some (VStr "success") ∧ isError e = None)
       ∨ (payload !! "status" = Some (VStr "error") ∧ isError e = Some true
          ∧ ∃ msg, payload !! "message" = Some (VStr msg))).
Proof.
  intros [h Hh]. apply init_handler_inv in Hh as (body & Hin & ->).
  rewrite (callTool_registered schema name body) by done.
  destruct (guarded_returns (body args env) st) as (e & st' & Hg).
  pose proof (shaped_guarded _ (bodies_shaped args env name body Hin) st) as Hs.
  rewrite Hg in Hs. destruct Hs as (payload & Hc & Hp).
  exists e, st', payload. done.
Qed.


Section BackendFailure.
Context (args : gmap string value) (env : WordPress.Env) (st st1 : SiteStorage.t)
  (client : WordPress.WordPressClient).
Hypothesis Hclient : siteClient args st = (Return client, st1).

(** In the post and page tools the request is sent once the client is
    there and the endpoint is built: what building the endpoint throws, and
    what the request throws, is what the guarded block throws. *)
Lemma post_page_request_fails (name : string) (body : Body) :
  (name, body) ∈ (PostTools.bodies ++ PageTools.bodies)%list →
  (∀ e, tool_request name args = Throw e → body args env st = (Throw e, st1))
  ∧ (∀ method endpoint params data err,
       tool_request name args = Return (method, endpoint, params, data) →
       WordPress.request env client method endpoint params data = Throw err →
       body args env st = (Throw err, st1)).
Proof.
  unfold PostTools.bodies, PageTools.bodies.
  rewrite elem_of_app, !elem_of_cons, !elem_of_nil.
  intros [H|H];
    repeat match type of H with
           | _ ∨ _ => destruct H as [H|H]
           | False => destruct H
           end;
    injection H as -> ->;
    (split; [intros e Hreq | intros method endpoint params data err Hreq Hfail]);
    unfold tool_request, at_endpoint, post_data, page_data in Hreq;
    repeat match type of Hreq with
           | context [bool_decide (?a = ?b)] =>
               let v := eval vm_compute in (bool_decide (a = b)) in
               change (bool_decide (a = b)) with v in Hreq
           end;
    cbv iota in Hreq;
    unfold PostTools.with_client, PostTools.listPosts, PostTools.getPost,
      PostTools.createPost, PostTools.updatePost, PostTools.deletePost,
      PageTools.list_pages, PageTools.get_page, PageTools.create_page,
      PageTools.update_page, PageTools.delete_page,
      bind, lift, WordPress.get, WordPress.post, WordPress.put, WordPress.delete;
    rewrite Hclient; cbv zeta;
    revert Hreq; try (destruct (to_string _) as [shown|e']); cbn [and_then];
    intros Hreq;
    first [ discriminate Hreq
          | injection Hreq as <-; reflexivity
          | injection Hreq as <- <- <- <-; by rewrite Hfail ].
Qed.

End BackendFailure.

(** C2 (amended): a call of a registered tool always returns an envelope;
    when an error reaches the handler's [catch] (thrown by the site manager,
    the client factory, the evaluation of the handler's own expressions or
    a request the called method does not catch itself) the envelope is the
    error envelope of that error's message; in the post and page tools,
    once the client is there, what building the endpoint throws and what
    the request the tool sends throws are such errors, unchanged. *)
Theorem thrown_errors_become_envelopes (schema : string → value) (name : string)
  (body : Body) (args : gmap string value) (env : WordPress.Env) (st : SiteStorage.t) :
  (name, body) ∈ Server.bodies →
  (∃ e st', Server.callTool (Server.init schema) name args env st = (Return e, st'))
  ∧ (∀ err st', body args env st = (Throw err, st') →
       Server.callTool (Server.init schema) name args env st
       = (Return (failure (message err)), st'))
  ∧ ((name, body) ∈ (PostTools.bodies ++ PageTools.bodies)%list →
     ∀ client st1,
       siteClient args st = (Return client, st1) →
       (∀ err, tool_request name args = Throw err →
          Server.callTool (Server.init schema) name args env st
          = (Return (failure (message err)), st1))
       ∧ (∀ method endpoint params data err,
            tool_request name args = Return (method, endpoint, params, data) →
            WordPress.request env client method endpoint params data = Throw err →
            Server.callTool (Server.init schema) name args env st
            = (Return (failure (message err)), st1))).
Proof.
  intros Hin. rewrite (callTool_registered schema name body) by done.
  split; [apply guarded_returns|]. split.
  - intros err st'. apply guarded_throw.
  - intros Hpp client st1 Hc.
    destruct (post_page_request_fails args env st st1 client Hc name body Hpp)
      as [Hbuild Hsend].
    split.
    + intros err Hreq. apply guarded_throw. by apply Hbuild.
    + intros method endpoint params data err Hreq Hfail. apply guarded_throw.
      by apply (Hsend method endpoint params data).
Qed.

Lemma list_posts_registered :
  ("list_posts", PostTools.with_client PostTools.listPosts) ∈ Server.bodies.
Proof.
  unfold Server.bodies. rewrite !elem_of_app. right. left. apply list_elem_of_here.
Qed.

Lemma thrown_errors_become_envelopes_witness :
  Server.callTool (Server.init Sample.no_schema) "list_posts" Sample.of_site_1
    Sample.offline Sample.stA
  = (Return (failure "fetch failed"), Sample.stA).
Proof.
  refine (proj2 (proj2 (proj2 (thrown_errors_become_envelopes Sample.no_schema
                                 "list_posts"
                                 (PostTools.with_client PostTools.listPosts)
                                 Sample.of_site_1 Sample.offline Sample.stA
                                 list_posts_registered))
                   _ Sample.clientA Sample.stA _)
            "GET" "/wp/v2/posts" (VObj ∅) VUndefined (Error "fetch failed") _ _).
  - rewrite elem_of_app. left. apply list_elem_of_here.
  - reflexivity.
  - reflexivity.
  - reflexivity.
Defined.

Lemma test_site_connectivity_registered :
  ("test_site_connectivity", SiteTools.test_site_connectivity) ∈ Server.bodies.
Proof.
  unfold Server.bodies. rewrite !elem_of_app. left. unfold SiteTools.bodies.
  do 7 apply list_elem_of_further. apply list_elem_of_here.
Qed.

(** C2 as stated fails: the request [ping] makes for [test_site_connectivity]
    throws, and the tool answers with a success envelope. *)
Lemma test_site_connectivity_counterexample :
  SiteManager.createClientForSite (VStr "1") Sample.stA = (Return Sample.clientA, Sample.stA)
  ∧ WordPress.get Sample.offline Sample.clientA "/" (VObj ∅) = Throw (Error "fetch failed")
  ∧ Server.callTool (Server.init Sample.no_schema) "test_site_connectivity"
      Sample.with_id_1 Sample.offline Sample.stA
    = (Return (success [ ("reachable", VBool false);
                         ("message", VStr "Site is not reachable") ]), Sample.stA)
  ∧ ¬ (∃ msg st',
         Server.callTool (Server.init Sample.no_schema) "test_site_connectivity"
           Sample.with_id_1 Sample.offline Sample.stA
         = (Return (failure msg), st')).
Proof.
  assert (Ha : Server.callTool (Server.init Sample.no_schema) "test_site_connectivity"
                 Sample.with_id_1 Sample.offline Sample.stA
               = (Return (success [ ("reachable", VBool false);
                                    ("message", VStr "Site is not reachable") ]),
                  Sample.stA)).
  { rewrite (callTool_registered _ _ _ _ _ _ test_site_connectivity_registered).
    reflexivity. }
  split; [reflexivity|]. split; [reflexivity|]. split; [exact Ha|].
  intros (msg & st' & Hf). rewrite Ha in Hf. discriminate Hf.
Qed.

Lemma list_sites_registered : ("list_sites", SiteTools.list_sites) ∈ Server.bodies.
Proof.
  unfold Server.bodies. rewrite !elem_of_app. left. unfold SiteTools.bodies.
  apply list_elem_of_further, list_elem_of_here.
Qed.

Lemma tool_result_shape_witness :
  ∃ e st' payload,
    Server.callTool (Server.init Sample.no_schema) "list_sites" ∅ Sample.offline Sample.stA
    = (Return e, st')
    ∧ content e = [ {| type := "text"; text := VObj payload |} ]
    ∧ ((payload !! "status" = Some (VStr "success") ∧ isError e = None)
       ∨ (payload !! "status" = Some (VStr "error") ∧ isError e = Some true
          ∧ ∃ msg, payload !! "message" = Some (VStr msg))).
Proof.
  apply (tool_result_shape Sample.no_schema "list_sites" ∅ Sample.offline Sample.stA).
  rewrite (init_handler _ _ _ list_sites_registered). eauto.
Defined.


(** ** Credentials in the responses of the site tools *)

Section Credentials.

Lemma filterCredentials_shown (args r : gmap string value) :
  shown_as args r (SiteTools.filterCredentials (Some r) (prop args "includeCredentials")).
Proof.
  unfold shown_as, SiteTools.filterCredentials, prop. split.
  - intros [-> | ->]; simpl; eexists; (split; [reflexivity|]); split.
    + apply lookup_delete_eq.
    + intros k Hk. by apply lookup_delete_ne.
    + apply lookup_delete_eq.
    + intros k Hk. by apply lookup_delete_ne.
  - by intros ->.
Qed.

Lemma validate_state (env : WordPress.Env) (u n p : value) (st : SiteStorage.t) :
  (SiteManager.validate env u n p st).2 = st.
Proof.
  unfold SiteManager.validate. by destruct (WordPress.validateCredentials _ _ _ _).
Qed.

Lemma storage_addSite_in (uuid c u : string) (site r : gmap string value)
  (st st' : SiteStorage.t) :
  addSite uuid c u site st = (Return r, st') → r ∈ sites (config st').
Proof.
  intros H. apply addSite_returns in H as [_ ->].
  apply elem_of_app. right. apply list_elem_of_here.
Qed.

Lemma manager_addSite_in (env : WordPress.Env) (site r : gmap string value)
  (st st' : SiteStorage.t) :
  SiteManager.addSite env site st = (Return r, st') → r ∈ sites (config st').
Proof.
  unfold SiteManager.addSite, bind.
  destruct (_ && _ && _).
  - pose proof (validate_state env (prop site "url") (prop site "username")
                  (prop site "applicationPassword") st) as Hv.
    destruct (SiteManager.validate _ _ _ _ st) as [[[]|e] st1]; simpl in Hv; subst st1;
      [apply storage_addSite_in | discriminate].
  - apply storage_addSite_in.
Qed.

Lemma storage_updateSite_in (now : string) (id : value) (updates r : gmap string value)
  (st st' : SiteStorage.t) :
  updateSite now id updates st = (Return r, st') → r ∈ sites (config st').
Proof.
  intros H. apply updateSite_returns in H as (i & x & Hx & _ & _ & ->). cbn.
  apply list_elem_of_lookup. exists i.
  apply list_lookup_insert_eq. by apply lookup_lt_Some in Hx.
Qed.

Lemma manager_updateSite_in (env : WordPress.Env) (id : value)
  (updates r : gmap string value) (st st' : SiteStorage.t) :
  SiteManager.updateSite env id updates st = (Return r, st') → r ∈ sites (config st').
Proof.
  unfold SiteManager.updateSite, SiteManager.getSiteById, bind, gets, lift.
  destruct (getSiteById id (config st)) as [current|]; [|by destruct (to_string id)].
  set (v := if negb _ then _ else _).
  assert (Hv : (v st).2 = st).
  { unfold v. destruct (negb _); [|done]. destruct (_ && _); [|done].
    apply validate_state. }
  destruct (v st) as [[[]|e] st1]; simpl in Hv; subst st1; [|discriminate].
  apply storage_updateSite_in.
Qed.

Lemma getSiteById_in (id : value) (c : Config) (r : gmap string value) :
  getSiteById id c = Some r → r ∈ sites c.
Proof. intros H. apply find_some in H as [H _]. by apply list_elem_of_In. Qed.

Lemma getSiteByName_in (n : value) (c : Config) (r : gmap string value) :
  getSiteByName n c = Some r → r ∈ sites c.
Proof. intros H. apply find_some in H as [H _]. by apply list_elem_of_In. Qed.

Lemma getActiveSite_in (c : Config) (r : gmap string value) :
  getActiveSite c = Some r → r ∈ sites c.
Proof.
  unfold getActiveSite. destruct (negb _); [discriminate | apply getSiteById_in].
Qed.

Lemma setActiveSite_in (id : value) (r : gmap string value) (st st' : SiteStorage.t) :
  setActiveSite id st = (Return r, st') → r ∈ sites (config st').
Proof.
  intros H. apply setActiveSite_returns in H as [E ->]. cbn.
  by apply getSiteById_in in E.
Qed.

End Credentials.

Section SiteResponses.
Context (args : gmap string value) (env : WordPress.Env).

Lemma one_site (r : gmap string value) (st' : SiteStorage.t)
  (fields : list (string * value)) (s : value) :
  r ∈ sites (config st') →
(list_to_map (("status", VStr "success") :: fields) : gmap string value) !! "site"
  = Some (SiteTools.filterCredentials (Some r) (prop args "includeCredentials")) →
  s ∈ returned_sites (success fields) →
  ∃ r, r ∈ sites (config st') ∧ shown_as args r s.
Proof.
  intros Hr Hsite. unfold returned_sites, success. cbn [content text].
  rewrite Hsite. intros ->%list_elem_of_singleton.
  exists r. split; [done | apply filterCredentials_shown].
Qed.

Lemma add_site_shows : shows_stored args env SiteTools.add_site.
Proof.
  intros st e st'. unfold SiteTools.add_site, bind, lift.
  destruct (SiteManager.addSite env args st) as [[site|err] st1] eqn:E; [|discriminate].
  destruct (to_string _) as [name|err]; [|discriminate].
  intros [= <- <-] s. apply (one_site site); [by apply manager_addSite_in in E | reflexivity].
Qed.

Lemma update_site_shows : shows_stored args env SiteTools.update_site.
Proof.
  intros st e st'. unfold SiteTools.update_site, bind, lift.
  destruct (SiteManager.updateSite env _ _ st) as [[site|err] st1] eqn:E; [|discriminate].
  destruct (to_string _) as [name|err]; [|discriminate].
  intros [= <- <-] s. apply (one_site site); [by apply manager_updateSite_in in E | reflexivity].
Qed.

Lemma select_site_shows : shows_stored args env SiteTools.select_site.
Proof.
  intros st e st'. unfold SiteTools.select_site, SiteManager.setActiveSite, bind, lift.
  destruct (setActiveSite _ st) as [[site|err] st1] eqn:E; [|discriminate].
  destruct (to_string _) as [name|err]; [|discriminate].
  intros [= <- <-] s. apply (one_site site); [by apply setActiveSite_in in E | reflexivity].
Qed.

Lemma get_site_shows : shows_stored args env SiteTools.get_site.
Proof.
  intros st e st'.
  unfold SiteTools.get_site, SiteManager.getSiteById, SiteManager.getSiteByName, bind, gets,
    lift.
  destruct (truthy (prop args "id")).
  - destruct (getSiteById _ _) as [site|] eqn:E.
    + intros [= <- <-] s. apply (one_site site); [by apply getSiteById_in in E | reflexivity].
    + destruct (to_string _) as [shown|err]; [|discriminate].
      intros [= <- <-] s Hs. by apply elem_of_nil in Hs.
  - destruct (truthy (prop args "name")).
    + destruct (getSiteByName _ _) as [site|] eqn:E.
      * intros [= <- <-] s. apply (one_site site); [by apply getSiteByName_in in E | reflexivity].
      * destruct (to_string _) as [shown|err]; [|discriminate].
        intros [= <- <-] s Hs. by apply elem_of_nil in Hs.
    + destruct (to_string _) as [shown|err]; [|discriminate].
      intros [= <- <-] s Hs. by apply elem_of_nil in Hs.
Qed.

Lemma get_active_site_shows : shows_stored args env SiteTools.get_active_site.
Proof.
  intros st e st'. unfold SiteTools.get_active_site, SiteManager.getActiveSite, bind, gets.
  destruct (getActiveSite _) as [site|] eqn:E.
  - intros [= <- <-] s. apply (one_site site); [by apply getActiveSite_in in E | reflexivity].
  - intros [= <- <-] s Hs. by apply elem_of_nil in Hs.
Qed.

Lemma list_sites_shows : shows_stored args env SiteTools.list_sites.
Proof.
  intros st e st'. unfold SiteTools.list_sites, SiteManager.getAllSites, bind, gets, ret.
  intros [= <- <-] s. unfold returned_sites, success. cbn [content text].
  change (list_to_map _ !! "site") with (@None value).
  match goal with
  | |- context [list_to_map ?l !! "sites"] =>
      change (list_to_map l !! "sites")
        with (Some (VArr (map (fun site => SiteTools.filterCredentials (Some site)
                                             (prop args "includeCredentials"))
                              (getAllSites (config st)))))
  end.
  cbn beta iota. intros Hs. apply list_elem_of_In, in_map_iff in Hs as (r & <- & Hr).
  exists r. split; [by apply list_elem_of_In | apply filterCredentials_shown].
Qed.

End SiteResponses.

(** The frame adds no site object of its own. *)
Lemma guarded_shows (args : gmap string value) (env : WordPress.Env) (body : Body)
  (st st' : SiteStorage.t) (e : Envelope) :
  shows_stored args env body →
  guarded (body args env) st = (Return e, st') →
  ∀ s, s ∈ returned_sites e → ∃ r, r ∈ sites (config st') ∧ shown_as args r s.
Proof.
  intros Hb. unfold guarded, try_catch.
  destruct (body args env st) as [[e1|err] st1] eqn:E.
  - intros [= <- <-]. by apply (Hb st).
  - unfold ret. intros [= <- <-] s Hs. by apply elem_of_nil in Hs.
Qed.

(** C9: every site object in a response of [add_site], [list_sites],
    [get_site], [update_site], [select_site] or [get_active_site] shows a
    record of the store the call leaves behind: without its
    [applicationPassword] and with every other property as stored when
    [includeCredentials] is absent or false, and as stored when it is
    true. *)
Theorem site_responses_filter_credentials (schema : string → value) (name : string)
  (args : gmap string value) (env : WordPress.Env) (st st' : SiteStorage.t)
  (e : Envelope) (s : value) :
  name ∈ [ "add_site"; "list_sites"; "get_site"; "update_site"; "select_site";
           "get_active_site" ] →
  Server.callTool (Server.init schema) name args env st = (Return e, st') →
  s ∈ returned_sites e →
  ∃ r, r ∈ sites (config st')
       ∧ (args !! "includeCredentials" = None
          ∨ args !! "includeCredentials" = Some (VBool false) →
          ∃ m, s = VObj m
               ∧ m !! "applicationPassword" = None
               ∧ ∀ k, k ≠ "applicationPassword" → m !! k = r !! k)
       ∧ (args !! "includeCredentials" = Some (VBool true) → s = VObj r).
Proof.
  intros Hname Hcall Hs.
  assert (Hbody : ∃ body, (name, body) ∈ SiteTools.bodies ∧ shows_stored args env body).
  { rewrite !elem_of_cons, elem_of_nil in Hname.
    destruct Hname as [->|[->|[->|[->|[->|[->|[]]]]]]].
    - exists SiteTools.add_site. split; [|apply add_site_shows].
      unfold SiteTools.bodies. rewrite !elem_of_cons. tauto.
    - exists SiteTools.list_sites. split; [|apply list_sites_shows].
      unfold SiteTools.bodies. rewrite !elem_of_cons. tauto.
    - exists SiteTools.get_site. split; [|apply get_site_shows].
      unfold SiteTools.bodies. rewrite !elem_of_cons. tauto.
    - exists SiteTools.update_site. split; [|apply update_site_shows].
      unfold SiteTools.bodies. rewrite !elem_of_cons. tauto.
    - exists SiteTools.select_site. split; [|apply select_site_shows].
      unfold SiteTools.bodies. rewrite !elem_of_cons. tauto.
    - exists SiteTools.get_active_site. split; [|apply get_active_site_shows].
      unfold SiteTools.bodies. rewrite !elem_of_cons. tauto. }
  destruct Hbody as (body & Hin & Hshows).
  rewrite (callTool_registered schema name body) in Hcall
    by (unfold Server.bodies; rewrite !elem_of_app; by left).
  exact (guarded_shows args env body st st' e Hshows Hcall s Hs).
Qed.

Lemma site_responses_filter_credentials_witness :
  ∃ r, r ∈ sites (config Sample.stA)
       ∧ (Sample.with_id_1 !! "includeCredentials" = None
          ∨ Sample.with_id_1 !! "includeCredentials" = Some (VBool false) →
          ∃ m, VObj (delete "applicationPassword" Sample.siteA) = VObj m
               ∧ m !! "applicationPassword" = None
               ∧ ∀ k, k ≠ "applicationPassword" → m !! k = r !! k)
       ∧ (Sample.with_id_1 !! "includeCredentials" = Some (VBool true) →
          VObj (delete "applicationPassword" Sample.siteA) = VObj r).
Proof.
  apply (site_responses_filter_credentials Sample.no_schema "get_site" Sample.with_id_1
           Sample.offline Sample.stA Sample.stA
           (success [("site", VObj (delete "applicationPassword" Sample.siteA))])
           (VObj (delete "applicationPassword" Sample.siteA))).
  - do 2 apply list_elem_of_further. apply list_elem_of_here.
  - rewrite (callTool_registered _ _ SiteTools.get_site).
    + reflexivity.
    + unfold Server.bodies. rewrite !elem_of_app. left. unfold SiteTools.bodies.
      do 2 apply list_elem_of_further. apply list_elem_of_here.
  - apply list_elem_of_here.
Defined.

(** * Further properties *)

(** ** More on the site storage *)

Section StorageMore.

Lemma strict_eq_sym (a b : value) : strict_eq a b = strict_eq b a.
Proof.
  destruct a, b; simpl; try done; apply bool_decide_ext; split; congruence.
Qed.

Lemma strict_eq_trans (a b c : value) :
  strict_eq a b = true → strict_eq a c = true → strict_eq b c = true.
Proof.
  destruct a, b; simpl; try discriminate; destruct c; simpl; try discriminate; try done;
    rewrite !bool_decide_eq_true; congruence.
Qed.

Lemma find_delete_other {A} (f : A → bool) (l : list A) (i : nat) (x : A) :
  l !! i = Some x → f x = false → List.find f (delete i l) = List.find f l.
Proof.
  revert i. induction l as [|y l IH]; intros i Hi Hx; [done|].
  destruct i as [|i]; simpl in *.
  - injection Hi as ->. by rewrite Hx.
  - destruct (f y); [done | by apply IH].
Qed.

Lemma find_insert_other {A} (f : A → bool) (l : list A) (i : nat) (x y : A) :
  l !! i = Some x → f x = false → f y = false →
  List.find f (<[i := y]> l) = List.find f l.
Proof.
  revert i. induction l as [|z l IH]; intros i Hi Hx Hy; [done|].
  destruct i as [|i]; simpl in *.
  - injection Hi as ->. by rewrite Hx, Hy.
  - destruct (f z); [done | by apply IH].
Qed.

(** X1: after [setActiveSite(id)] has returned a record, [getActiveSite()]
    returns that record when [id] is truthy, and null when it is not (the
    pointer is tested for truthiness before it is looked up); the sites are
    untouched and the document is written. *)
Theorem setActiveSite_then_getActiveSite (id : value) (st st' : SiteStorage.t)
  (site : gmap string value) :
  setActiveSite id st = (Return site, st') →
  getActiveSite (config st') = (if truthy id then Some site else None)
  ∧ getSiteById id (config st) = Some site
  ∧ activeSiteId (config st') = id
  ∧ sites (config st') = sites (config st)
  ∧ configFile st' = Some (config st').
Proof.
  intros H. apply setActiveSite_returns in H as [E ->]. cbn.
  split; [|done].
  unfold getActiveSite. cbn. destruct (truthy id); [|done]. exact E.
Qed.

Lemma setActiveSite_then_getActiveSite_witness :
  getActiveSite (config (setActiveSite (VStr "1") Sample.stA).2) = Some Sample.siteA.
Proof.
  exact (proj1 (setActiveSite_then_getActiveSite (VStr "1") Sample.stA
                  (setActiveSite (VStr "1") Sample.stA).2 Sample.siteA eq_refl)).
Defined.

(** The conversion to a string throws nothing but the engine's
    [TypeError]. *)
Lemma join_throws (print : value → outcome string) (l : list value) (e : error) :
  Forall (fun x => ∀ e', print x = Throw e' → e' = cannot_convert) l →
  join print l = Throw e → e = cannot_convert.
Proof.
  induction 1 as [|x l Hx Hl IH]; [discriminate|]. cbn [join].
  destruct (print x) as [first|e'] eqn:Ex; cbn [and_then].
  - destruct l as [|y l]; [discriminate|].
    destruct (join print (y :: l)) as [others|e']; cbn [and_then]; [discriminate|].
    intros [= <-]. by apply IH.
  - intros [= <-]. by apply Hx.
Qed.

Lemma to_string_throws (v : value) (e : error) :
  to_string v = Throw e → e = cannot_convert.
Proof.
  revert v e. fix IH 1. intros [| |[]|n|s|items|fields] e; cbn [to_string];
    try discriminate.
  - apply join_throws. induction items as [|x items IHitems]; constructor; [|done].
    intros e'. pose proof (IH x e') as IHx. destruct x; try discriminate; exact IHx.
  - case_bool_decide; [by intros [= <-] | discriminate].
Qed.

Lemma interpolate_throws (vs : list value) (e : error) :
  interpolate vs = Throw e → e = cannot_convert.
Proof.
  induction vs as [|v vs IH]; [discriminate|]. cbn [interpolate].
  destruct (to_string v) as [s|e'] eqn:Ev; cbn [and_then].
  - destruct (interpolate vs) as [ss|e']; cbn [and_then]; [discriminate|].
    intros [= <-]. by apply IH.
  - intros [= <-]. by apply to_string_throws in Ev.
Qed.

Lemma log_throws (S : Type) (vs : list value) (st st' : S) (e : error) :
  log vs st = (Throw e, st') → e = cannot_convert ∧ st' = st.
Proof.
  unfold log. destruct (interpolate vs) as [ss|e'] eqn:E; [discriminate|].
  intros [= <- <-]. split; [|done]. by apply interpolate_throws in E.
Qed.

Lemma cannot_convert_no_refusal : ¬ refusal cannot_convert.
Proof. intros []. Qed.

(** What [addSite] leaves behind, whatever it returns or throws: the store
    as it was, or the store with the new record, which it has then accepted. *)
Lemma addSite_state (uuid c u : string) (site : gmap string value)
  (st st' : SiteStorage.t) (o : outcome (gmap string value)) :
  addSite uuid c u site st = (o, st') →
  (st' = st ∧ ∀ r, o ≠ Return r)
  ∨ (st' = pushed (newSite_of uuid c u site) st
     ∧ truthy (prop site "name") = true
     ∧ truthy (prop site "url") = true
     ∧ getSiteByName (prop site "name") (config st) = None
     ∧ getSiteByUrl (prop site "url") (config st) = Return None
     ∧ (o = Return (newSite_of uuid c u site) ∨ o = Throw cannot_convert)).
Proof.
  intros H.
  destruct (truthy (prop site "name")) eqn:Hn;
    [|unfold addSite in H; rewrite Hn in H; injection H as <- <-; by left].
  destruct (truthy (prop site "url")) eqn:Hu;
    [|unfold addSite in H; rewrite Hn, Hu in H; injection H as <- <-; by left].
  rewrite addSite_cases in H by done.
  destruct (bool_decide (is_Some (getSiteByName _ _))) eqn:En.
  { left. destruct (to_string _); by injection H as <- <-. }
  destruct (getSiteByUrl _ _) as [byUrl|e'] eqn:Eu; [|injection H as <- <-; by left].
  destruct (bool_decide (is_Some byUrl)) eqn:Eb.
  { left. destruct (to_string _); by injection H as <- <-. }
  right.
  apply bool_decide_eq_false in En. apply bool_decide_eq_false in Eb.
  assert (getSiteByName (prop site "name") (config st) = None) as HbyName
    by (destruct (getSiteByName _ _); [destruct En; by eexists | done]).
  assert (byUrl = None) as -> by (destruct byUrl; [destruct Eb; by eexists | done]).
  destruct (log _ _) as [[[]|e'] st1] eqn:El.
  - apply log_returns in El as ->. injection H as <- <-. repeat split; auto.
  - apply log_throws in El as [-> ->]. injection H as <- <-. repeat split; auto.
Qed.

(** What [updateSite] leaves behind when it throws one of its refusals. *)
Lemma updateSite_refusal (now : string) (id : value) (updates : gmap string value)
  (st st' : SiteStorage.t) (e : error) :
  updateSite now id updates st = (Throw e, st') → refusal e → st' = st.
Proof.
  unfold updateSite, bind, gets, lift, throw.
  destruct (findIndex _ _) as [i|].
  2:{ destruct (to_string id); by intros [= _ <-]. }
  destruct (_ && _ && _).
  { destruct (to_string _); by intros [= _ <-]. }
  set (byUrl := if _ && _ then _ else _).
  destruct (byUrl st) as [[o|e'] st1] eqn:Eb.
  2:{ unfold byUrl in Eb. destruct (_ && _); [|discriminate Eb].
      injection Eb as _ <-. by intros [= _ <-]. }
  assert (st1 = st) as ->.
  { unfold byUrl in Eb. destruct (_ && _); [|by injection Eb]. by injection Eb. }
  destruct (bool_decide (is_Some o)).
  { destruct (to_string _); by intros [= _ <-]. }
  unfold modify, saveConfig, ret, set_sites. cbn.
  match goal with
  | |- context [log ?vs ?s] => destruct (log vs s) as [[[]|e'] st2] eqn:El
  end; [discriminate|].
  apply log_throws in El as [-> ->]. intros [= <- _] Hr.
  by apply cannot_convert_no_refusal in Hr.
Qed.

Lemma setActiveSite_state (id : value) (st st' : SiteStorage.t)
  (o : outcome (gmap string value)) :
  setActiveSite id st = (o, st') →
  sites (config st') = sites (config st)
  ∧ ((∃ e, o = Throw e ∧ refusal e) → st' = st).
Proof.
  unfold setActiveSite, bind, gets, lift, throw.
  destruct (getSiteById id (config st)) as [site|].
  2:{ destruct (to_string id); by intros [= _ <-]. }
  unfold modify, saveConfig, ret. cbn.
  match goal with
  | |- context [log ?vs ?s] => destruct (log vs s) as [[[]|e'] st2] eqn:El
  end.
  - apply log_returns in El as ->. intros [= <- <-]. split; [done|].
    by intros (e & [=] & _).
  - apply log_throws in El as [-> ->]. intros [= <- <-]. split; [done|].
    intros (e & [= <-] & Hr). by apply cannot_convert_no_refusal in Hr.
Qed.

Lemma removeSite_false_unchanged (id : value) (st st' : SiteStorage.t) :
  removeSite id st = (Return false, st') → st' = st.
Proof.
  unfold removeSite, bind, gets.
  destruct (findIndex _ _); [|by intros [= <-]].
  unfold modify, saveConfig, ret. cbn.
  match goal with
  | |- context [log ?vs ?s] => by destruct (log vs s) as [[[]|e'] st2]
  end.
Qed.

(** X2: an operation the storage refuses changes nothing.  When [addSite],
    [updateSite] or [setActiveSite] throws one of the storage's refusals (a
    missing required field, a name or url that is taken, an id that is not
    there), and when [removeSite] returns false, the sites, the active-site
    pointer and the written document are what they were: every such check
    precedes the first change. *)
Theorem refused_operation_changes_nothing (st st' : SiteStorage.t) :
  (∃ uuid c u site e, addSite uuid c u site st = (Throw e, st') ∧ refusal e)
  ∨ (∃ now id updates e, updateSite now id updates st = (Throw e, st') ∧ refusal e)
  ∨ (∃ id e, setActiveSite id st = (Throw e, st') ∧ refusal e)
  ∨ (∃ id, removeSite id st = (Return false, st')) →
  st' = st.
Proof.
  intros [(uuid & c & u & site & e & H & Hr) | [(now & id & updates & e & H & Hr)
         | [(id & e & H & Hr) | (id & H)]]].
  - apply addSite_state in H as [[-> _]|(_ & _ & _ & _ & _ & [[=]|[= ->]])]; [done|].
    by apply cannot_convert_no_refusal in Hr.
  - by apply (updateSite_refusal _ _ _ _ _ _ H).
  - apply setActiveSite_state in H as [_ H]. apply H. eauto.
  - by apply removeSite_false_unchanged in H.
Qed.

Lemma refused_operation_changes_nothing_witness :
  (setActiveSite (VStr "no-such-id") Sample.stA).2 = Sample.stA.
Proof.
  apply (refused_operation_changes_nothing Sample.stA).
  right. right. left.
  exists (VStr "no-such-id"), (Error "[SiteStorage] Site not found: no-such-id").
  split; [reflexivity|]. right. right. by exists "no-such-id".
Defined.

(** X3: [removeSite(id)] returning true has removed the first record whose
    id is [id] and nothing else: the other records keep their order, a
    lookup by any other id gives what it gave, the active-site pointer is
    not touched, and the document is written. *)
Theorem removeSite_removes_one (id : value) (st st' : SiteStorage.t) :
  removeSite id st = (Return true, st') →
  ∃ i r,
    sites (config st) !! i = Some r
    ∧ getSiteById id (config st) = Some r
    ∧ sites (config st') = delete i (sites (config st))
    ∧ length (sites (config st')) + 1 = length (sites (config st))
    ∧ (∀ other, strict_eq id other = false →
         getSiteById other (config st') = getSiteById other (config st))
    ∧ activeSiteId (config st') = activeSiteId (config st)
    ∧ configFile st' = Some (config st').
Proof.
  intros H. apply removeSite_true in H as (i & r & Hr & Hfind & Hid & ->). cbn.
  exists i, r. repeat split; try done.
  - rewrite length_delete by eauto. apply lookup_lt_Some in Hr. lia.
  - intros other Hother. unfold getSiteById. cbn.
    apply (find_delete_other _ _ _ r Hr).
    destruct (strict_eq (prop r "id") other) eqn:E; [|done].
    by rewrite (strict_eq_trans _ _ _ Hid E) in Hother.
Qed.

Lemma removeSite_removes_one_witness :
  ∃ i r,
    sites (config Sample.stA) !! i = Some r
    ∧ getSiteById (VStr "1") (config Sample.stA) = Some r
    ∧ sites (config (removeSite (VStr "1") Sample.stA).2)
      = delete i (sites (config Sample.stA))
    ∧ length (sites (config (removeSite (VStr "1") Sample.stA).2)) + 1
      = length (sites (config Sample.stA))
    ∧ (∀ other, strict_eq (VStr "1") other = false →
         getSiteById other (config (removeSite (VStr "1") Sample.stA).2)
         = getSiteById other (config Sample.stA))
    ∧ activeSiteId (config (removeSite (VStr "1") Sample.stA).2)
      = activeSiteId (config Sample.stA)
    ∧ configFile (removeSite (VStr "1") Sample.stA).2
      = Some (config (removeSite (VStr "1") Sample.stA).2).
Proof.
  apply (removeSite_removes_one (VStr "1") Sample.stA). reflexivity.
Defined.

(** X4: [removeSite] does not reset the active-site pointer.  Once the
    active site has been removed (no other record carrying its id),
    [getActiveSite()] returns null while [activeSiteId] still names the
    removed record, and [createClientForActiveSite()] throws "No active site
    set". *)
Theorem removeSite_leaves_stale_pointer (st st' : SiteStorage.t) (i : nat)
  (r : gmap string value) :
  sites (config st) !! i = Some r →
  getActiveSite (config st) = Some r →
  (∀ j r', sites (config st) !! j = Some r' →
           strict_eq (prop r' "id") (activeSiteId (config st)) = true → j = i) →
  removeSite (activeSiteId (config st)) st = (Return true, st') →
  activeSiteId (config st') = activeSiteId (config st)
  ∧ getActiveSite (config st') = None
  ∧ SiteManager.createClientForActiveSite st'
    = (Throw (Error "[SiteManager] No active site set"), st').
Proof.
  intros Hr Hactive Honly Hrem.
  apply removeSite_true in Hrem as (k & x & Hx & _ & Hid & ->).
  assert (k = i) as -> by (by apply (Honly k x)).
  assert (Hnone : getActiveSite
                    {| sites := delete i (sites (config st));
                       activeSiteId := activeSiteId (config st) |} = None).
  { unfold getActiveSite. cbn. destruct (negb _); [done|].
    unfold getSiteById. cbn.
    destruct (List.find _ (delete i _)) as [y|] eqn:Ey; [|done].
    apply find_some in Ey as [Hin Hy].
    apply list_elem_of_In, list_elem_of_lookup in Hin as [j Hj].
    destruct (decide (j < i)) as [Hlt|Hge].
    - rewrite list_lookup_delete_lt in Hj by done. specialize (Honly j y Hj Hy). lia.
    - rewrite list_lookup_delete_ge in Hj by lia. specialize (Honly (S j) y Hj Hy). lia. }
  cbn. split; [done|]. split; [exact Hnone|].
  unfold SiteManager.createClientForActiveSite, SiteManager.getActiveSite, bind, gets.
  cbn. by rewrite Hnone.
Qed.

Lemma removeSite_leaves_stale_pointer_witness :
  activeSiteId (config (removeSite (VStr "1") Sample.stA).2) = VStr "1"
  ∧ getActiveSite (config (removeSite (VStr "1") Sample.stA).2) = None
  ∧ SiteManager.createClientForActiveSite (removeSite (VStr "1") Sample.stA).2
    = (Throw (Error "[SiteManager] No active site set"),
       (removeSite (VStr "1") Sample.stA).2).
Proof.
  apply (removeSite_leaves_stale_pointer Sample.stA _ 0 Sample.siteA).
  - reflexivity.
  - reflexivity.
  - intros [|j] r' Hj _; [done|]. destruct j; discriminate Hj.
  - reflexivity.
Defined.

End StorageMore.

Section UpdateSite.

(** X5: a successful [updateSite(id, updates)] replaces, in place, the first
    record whose id is [id] by the merge of the patch over it: a property
    the patch has takes the patch's value, a property it lacks keeps the
    record's, [updatedAt] is the time of the call; the other records, their
    order and the active-site pointer are untouched and the document is
    written. *)
Theorem updateSite_merges (now : string) (id : value) (updates r : gmap string value)
  (st st' : SiteStorage.t) :
  updateSite now id updates st = (Return r, st') →
  ∃ i current,
    sites (config st) !! i = Some current
    ∧ getSiteById id (config st) = Some current
    ∧ sites (config st') = <[i := r]> (sites (config st))
    ∧ sites (config st') !! i = Some r
    ∧ (∀ j, j ≠ i → sites (config st') !! j = sites (config st) !! j)
    ∧ r !! "updatedAt" = Some (VStr now)
    ∧ (∀ k v, k ≠ "updatedAt" → updates !! k = Some v → r !! k = Some v)
    ∧ (∀ k, k ≠ "updatedAt" → updates !! k = None → r !! k = current !! k)
    ∧ activeSiteId (config st') = activeSiteId (config st)
    ∧ configFile st' = Some (config st').
Proof.
  intros H. apply updateSite_returns in H as (i & current & Hi & Hfind & -> & ->). cbn.
  exists i, current. repeat split; try done.
  - apply list_lookup_insert_eq. by apply lookup_lt_Some in Hi.
  - intros j Hj. by apply list_lookup_insert_ne.
  - apply lookup_insert_eq.
  - intros k v Hk Hv. rewrite lookup_insert_ne by done. by apply lookup_union_Some_l.
  - intros k Hk Hv. rewrite lookup_insert_ne by done. by apply lookup_union_r.
Qed.

End UpdateSite.


Lemma updateSite_merges_witness :
  ∃ i current,
    sites (config Sample.stA) !! i = Some current
    ∧ sites (config (updateSite "t3" (VStr "1") More.rename_to_C Sample.stA).2) !! i
      = Some (<["updatedAt" := VStr "t3"]> (More.rename_to_C ∪ Sample.siteA))
    ∧ <["updatedAt" := VStr "t3"]> (More.rename_to_C ∪ Sample.siteA) !! "url"
      = current !! "url".
Proof.
  destruct (updateSite_merges "t3" (VStr "1") More.rename_to_C
              (<["updatedAt" := VStr "t3"]> (More.rename_to_C ∪ Sample.siteA))
              Sample.stA (updateSite "t3" (VStr "1") More.rename_to_C Sample.stA).2
              eq_refl)
    as (i & current & Hi & _ & _ & Hr & _ & _ & _ & Hkeep & _).
  exists i, current. split; [exact Hi|]. split; [exact Hr|].
  apply Hkeep; [discriminate | reflexivity].
Defined.

Section Invariant.

Lemma ForallOrdPairs_snoc {A} (R : A → A → Prop) (l : list A) (x : A) :
  ForallOrdPairs R l → Forall (fun a => R a x) l → ForallOrdPairs R (l ++ [x])%list.
Proof.
  induction 1 as [|a l Ha Hl IH]; intros Hx; simpl.
  - constructor; constructor.
  - apply Forall_cons in Hx as [Hax Hx].
    constructor; [|by apply IH].
    apply List.Forall_app. split; [done | repeat constructor; done].
Qed.

Lemma elem_of_delete {A} (l : list A) (i : nat) (x : A) : x ∈ delete i l → x ∈ l.
Proof.
  revert i. induction l as [|y l IH]; intros i; [by destruct i|].
  destruct i as [|i]; simpl.
  - apply list_elem_of_further.
  - rewrite !elem_of_cons. intros [->|H]; [by left | right; by apply (IH i)].
Qed.

Lemma ForallOrdPairs_delete {A} (R : A → A → Prop) (l : list A) (i : nat) :
  ForallOrdPairs R l → ForallOrdPairs R (delete i l).
Proof.
  intros H. revert i. induction H as [|a l Ha Hl IH]; intros i; [destruct i; constructor|].
  destruct i as [|i]; simpl; [done|].
  constructor; [|apply IH].
  apply Forall_forall. intros x Hx. rewrite List.Forall_forall in Ha. apply Ha.
  apply list_elem_of_In. by apply (elem_of_delete l i).
Qed.

Lemma string_urls_delete (l : list (gmap string value)) (i : nat) :
  string_urls l → string_urls (delete i l).
Proof.
  unfold string_urls. rewrite !Forall_forall. intros H x Hx. apply H.
  by apply (elem_of_delete l i).
Qed.

(** The record [addSite] stores is distinct from every record it was
    checked against. *)
Lemma accepted_is_distinct (uuid c u : string) (site : gmap string value) (cfg : Config) :
  string_urls (sites cfg) →
  getSiteByName (prop site "name") cfg = None →
  getSiteByUrl (prop site "url") cfg = Return None →
  (∃ v, prop site "url" = VStr v)
  ∧ Forall (fun a => distinct_sites a (newSite_of uuid c u site)) (sites cfg).
Proof.
  intros Hwf Hname Hurl.
  assert (Hv : ∃ v, prop site "url" = VStr v).
  { unfold getSiteByUrl in Hurl. destruct (prop site "url"); try discriminate. eauto. }
  split; [done|]. destruct Hv as [v Hv].
  rewrite Hv, getSiteByUrl_strings in Hurl by done. injection Hurl as Hurl.
  apply Forall_forall. intros a Ha. apply list_elem_of_In in Ha. split.
  - exact (find_none _ _ Hname a Ha).
  - intros x y Hx Hy.
    change (prop (newSite_of uuid c u site) "url") with (prop site "url") in Hy.
    rewrite Hv in Hy. injection Hy as <-.
    pose proof (find_none _ _ Hurl a Ha) as Hm. unfold url_matches in Hm.
    rewrite Hx in Hm. by apply bool_decide_eq_false in Hm.
Qed.

(** X6: the stored sites stay consistent (urls are strings, no two records
    share a name or a url up to one trailing slash) under [addSite],
    [removeSite] and [setActiveSite], whatever these return. *)
Theorem consistent_preserved (st st' : SiteStorage.t) :
  consistent (sites (config st)) →
  (∃ uuid c u site o, addSite uuid c u site st = (o, st'))
  ∨ (∃ id o, removeSite id st = (o, st'))
  ∨ (∃ id o, setActiveSite id st = (o, st')) →
  consistent (sites (config st')).
Proof.
  intros [Hwf Hpairs] [(uuid & c & u & site & o & H) | [(id & o & H) | (id & o & H)]].
  - apply addSite_state in H as [[-> _]|(-> & Hn & Hu & Hname & Eu & _)]; [done|].
    destruct (accepted_is_distinct uuid c u site (config st) Hwf Hname Eu)
      as [[v Hv] Hd].
    cbn. split.
    + apply Forall_app. split; [done|].
      apply Forall_cons. split; [|apply Forall_nil_2]. by exists v.
    + by apply ForallOrdPairs_snoc.
  - unfold removeSite, bind, gets in H.
    destruct (findIndex _ _) as [i|]; [|by injection H as <- <-].
    unfold modify, saveConfig, ret in H. cbn in H.
    match type of H with
    | context [log ?vs ?s] =>
        pose proof (log_state _ vs s) as Hlog; destruct (log vs s) as [[[]|e] st2]
    end; cbn in Hlog; subst st2; injection H as <- <-; cbn;
      (split; [by apply string_urls_delete | by apply ForallOrdPairs_delete]).
  - apply setActiveSite_state in H as [-> _]. by split.
Qed.

End Invariant.

Lemma sample_consistent : consistent (sites (config Sample.stA)).
Proof.
  split.
  - apply Forall_cons. split; [|apply Forall_nil_2]. by exists "https://a.test".
  - repeat constructor.
Qed.

Lemma consistent_preserved_witness :
  consistent (sites (config (addSite "2" "t1" "t2" Sample.siteB Sample.stA).2)).
Proof.
  apply (consistent_preserved Sample.stA); [exact sample_consistent|].
  left. exists "2", "t1", "t2", Sample.siteB,
    (addSite "2" "t1" "t2" Sample.siteB Sample.stA).1.
  apply surjective_pairing.
Defined.

Section UrlLookup.

(** X7: on stored records whose urls are strings, [getSiteByUrl(url)] for a
    string [url] never throws; what it returns is a stored record whose url
    equals [url] once one trailing slash is removed from each, and it
    returns null only when no stored record has such a url.  A [url] that
    has no trailing slash is found with or without one added. *)
Theorem getSiteByUrl_up_to_slash (u : string) (c : Config) :
  string_urls (sites c) →
  (∃ found, getSiteByUrl (VStr u) c = Return found
     ∧ match found with
       | Some r => r ∈ sites c
                   ∧ ∃ v, prop r "url" = VStr v
                          ∧ strip_trailing_slash v = strip_trailing_slash u
       | None => ∀ r v, r ∈ sites c → prop r "url" = VStr v →
                        strip_trailing_slash v ≠ strip_trailing_slash u
       end)
  ∧ (strip_trailing_slash u = u →
     getSiteByUrl (VStr (u +:+ "/")) c = getSiteByUrl (VStr u) c).
Proof.
  intros Hwf. split.
  - rewrite getSiteByUrl_strings by done. eexists. split; [reflexivity|].
    destruct (List.find _ _) as [r|] eqn:E.
    + apply find_some in E as [Hin Hm]. split; [by apply list_elem_of_In|].
      unfold url_matches in Hm. destruct (prop r "url"); try discriminate.
      apply bool_decide_eq_true in Hm. eauto.
    + intros r v Hin Hv. apply list_elem_of_In in Hin.
      pose proof (find_none _ _ E r Hin) as Hm. unfold url_matches in Hm.
      rewrite Hv in Hm. by apply bool_decide_eq_false in Hm.
  - intros Hu. rewrite !getSiteByUrl_strings by done.
    by rewrite strip_trailing_slash_snoc, Hu.
Qed.

Lemma getSiteByUrl_up_to_slash_witness :
  getSiteByUrl (VStr ("https://a.test" +:+ "/")) (config Sample.stA)
  = getSiteByUrl (VStr "https://a.test") (config Sample.stA).
Proof.
  apply (getSiteByUrl_up_to_slash "https://a.test" (config Sample.stA)).
  - apply Forall_cons. split; [|apply Forall_nil_2]. by exists "https://a.test".
  - reflexivity.
Defined.

(** X8: [updateSite] does not check a falsy url.  A patch whose url is null
    (and which carries neither a name nor an id) is merged into a record
    whose name can be written to the log, and from then on [getSiteByUrl]
    throws the engine's TypeError for every url it is asked about once its
    search reaches that record, here the first one: no site can be added
    any more. *)
Theorem null_url_breaks_lookups (now : string) (id : value)
  (updates first : gmap string value) (rest : list (gmap string value))
  (st : SiteStorage.t) :
  sites (config st) = first :: rest →
  strict_eq (prop first "id") id = true →
  printable (prop first "name") = true →
  updates !! "url" = Some VNull →
  updates !! "name" = None →
  updates !! "id" = None →
  ∃ r st',
    updateSite now id updates st = (Return r, st')
    ∧ prop r "url" = VNull
    ∧ (∀ u, getSiteByUrl (VStr u) (config st')
            = Throw (TypeError "Cannot read properties of null (reading 'replace')"))
    ∧ (∀ uuid c d site u,
         truthy (prop site "name") = true → prop site "url" = VStr u → u ≠ "" →
         getSiteByName (prop site "name") (config st') = None →
         addSite uuid c d site st'
         = (Throw (TypeError "Cannot read properties of null (reading 'replace')"), st')).
Proof.
  intros Hsites Hid Hprint Hurl Hname Hnoid.
  set (r := <["updatedAt" := VStr now]> (updates ∪ first)).
  assert (Hr : prop r "url" = VNull).
  { unfold prop, r. rewrite lookup_insert_ne by done.
    by rewrite (lookup_union_Some_l _ _ _ _ Hurl). }
  assert (Hrn : prop r "name" = prop first "name").
  { unfold prop, r. rewrite lookup_insert_ne by done. by rewrite lookup_union_r. }
  assert (Hri : prop r "id" = prop first "id").
  { unfold prop, r. rewrite lookup_insert_ne by done. by rewrite lookup_union_r. }
  set (c' := {| sites := r :: rest; activeSiteId := activeSiteId (config st) |}).
  assert (Hupd : updateSite now id updates st
                 = (Return r, {| config := c'; configFile := Some c' |})).
  { assert (Hn : prop updates "name" = VUndefined) by (unfold prop; by rewrite Hname).
    assert (Hu : prop updates "url" = VNull) by (unfold prop; by rewrite Hurl).
    unfold updateSite, bind, gets. rewrite Hsites. cbn [findIndex]. rewrite Hid.
    rewrite Hn, Hu. cbn.
    unfold modify, saveConfig, ret, set_sites. cbn. rewrite Hsites. cbn.
    fold r. rewrite log_printable; [done|].
    cbn [forallb]. rewrite Hrn, Hri, Hprint.
    by destruct (strict_eq_printable _ _ Hid) as [-> _]. }
  assert (Hget : ∀ u, getSiteByUrl (VStr u) c'
                      = Throw (TypeError "Cannot read properties of null (reading 'replace')")).
  { intros u. unfold getSiteByUrl. cbn. by rewrite Hr. }
  exists r, {| config := c'; configFile := Some c' |}.
  split; [exact Hupd|]. split; [exact Hr|]. split; [exact Hget|].
  intros uuid c d site u Hn Hu Hne HbyName.
  rewrite addSite_cases; [|done|].
  - cbn [config] in *. rewrite HbyName, Hu, Hget.
    by rewrite bool_decide_eq_false_2 by (intros [? ?]; done).
  - rewrite Hu. cbn. by rewrite bool_decide_eq_false_2.
Qed.

End UrlLookup.


Lemma null_url_breaks_lookups_witness :
  ∃ r st',
    updateSite "t3" (VStr "1") More.null_url Sample.stA = (Return r, st')
    ∧ prop r "url" = VNull
    ∧ (∀ u, getSiteByUrl (VStr u) (config st')
            = Throw (TypeError "Cannot read properties of null (reading 'replace')"))
    ∧ (∀ uuid c d site u,
         truthy (prop site "name") = true → prop site "url" = VStr u → u ≠ "" →
         getSiteByName (prop site "name") (config st') = None →
         addSite uuid c d site st'
         = (Throw (TypeError "Cannot read properties of null (reading 'replace')"), st')).
Proof.
  apply (null_url_breaks_lookups "t3" (VStr "1") More.null_url Sample.siteA []
           Sample.stA); reflexivity.
Defined.

Section Manager.

Lemma strict_eq_eq (a b : value) : strict_eq a b = true → a = b.
Proof.
  destruct a, b; try discriminate; try done;
    cbn; intros H; apply bool_decide_eq_true in H; by subst.
Qed.

Lemma createClientForSite_found (id : value) (site : gmap string value) (u : string)
  (st : SiteStorage.t) :
  getSiteById id (config st) = Some site →
  prop site "url" = VStr u → u ≠ "" →
  credentials_print site = true →
  SiteManager.createClientForSite id st
  = (Return {| WordPress.url := strip_trailing_slash u;
               WordPress.username := prop site "username";
               WordPress.applicationPassword := prop site "applicationPassword" |}, st).
Proof.
  intros Hfound Hu Hne Hcred.
  unfold SiteManager.createClientForSite, SiteManager.getSiteById, bind, gets.
  rewrite Hfound. unfold lift, WordPress.new_WordPress.
  assert (Hp : ∀ k, prop (<["url":=prop site "url"]> (<["username":=prop site "username"]>
                 (<["applicationPassword":=prop site "applicationPassword"]> ∅))) k
               = if bool_decide (k = "url") then prop site "url"
                 else if bool_decide (k = "username") then prop site "username"
                 else if bool_decide (k = "applicationPassword")
                      then prop site "applicationPassword" else VUndefined).
  { intros k. unfold prop at 1.
    repeat (case_bool_decide;
            [subst k; by rewrite ?lookup_insert_eq, ?lookup_insert_ne by done
            | rewrite lookup_insert_ne by done]).
    by rewrite lookup_empty. }
  pose proof (Hp "url") as Hp1. pose proof (Hp "username") as Hp2.
  pose proof (Hp "applicationPassword") as Hp3.
  change (bool_decide ("url" = "url")) with true in Hp1.
  change (bool_decide ("username" = "url")) with false in Hp2.
  change (bool_decide ("username" = "username")) with true in Hp2.
  change (bool_decide ("applicationPassword" = "url")) with false in Hp3.
  change (bool_decide ("applicationPassword" = "username")) with false in Hp3.
  change (bool_decide ("applicationPassword" = "applicationPassword")) with true in Hp3.
  cbv beta iota in Hp1, Hp2, Hp3.
  rewrite Hp1, Hp2, Hp3, Hu. clear Hp Hp1 Hp2 Hp3.
  destruct u as [|c u]; [done|].
  change (truthy (VStr (String c u))) with true. cbn [negb].
  change (replace_trailing_slash "this.url" (VStr (String c u)))
    with (Return (A:=string) (strip_trailing_slash (String c u))).
  cbn beta iota.
  unfold credentials_print in Hcred. unfold WordPress.createAuthHeaders.
  destruct (truthy (prop site "username") && truthy (prop site "applicationPassword"))
    eqn:Et; [|done].
  cbn in Hcred. apply andb_true_iff in Hcred as [Hpu Hpp].
  apply andb_true_iff in Et as [-> ->]. cbn.
  apply printable_to_string in Hpu as [su ->].
  by apply printable_to_string in Hpp as [sp ->].
Qed.

(** X9: once [setActiveSite(id)] has returned a record with a non-empty
    string url whose credentials, if it has both, can be printed into the
    authentication header, the client factories agree:
    [createClientForActiveSite()], [createClientForSite(id)] and the choice
    the tools make for arguments without [site_id] all build the client of
    that record, whose url is the record's with one trailing slash removed;
    none of them changes the store.  With a falsy [id] the selection
    succeeds all the same, but [createClientForActiveSite()] then reports
    that no active site is set. *)
Theorem client_of_selected_site (id : value) (site : gmap string value) (u : string)
  (st st' : SiteStorage.t) :
  setActiveSite id st = (Return site, st') →
  prop site "url" = VStr u → u ≠ "" →
  credentials_print site = true →
  let client := {| WordPress.url := strip_trailing_slash u;
                   WordPress.username := prop site "username";
                   WordPress.applicationPassword := prop site "applicationPassword" |} in
  SiteManager.createClientForSite id st' = (Return client, st')
  ∧ SiteManager.createClientForActiveSite st'
    = (if truthy id then (Return client, st')
       else (Throw (Error "[SiteManager] No active site set"), st'))
  ∧ (truthy id = true → ∀ args, truthy (prop args "site_id") = false →
       siteClient args st' = (Return client, st')).
Proof.
  intros Hset Hu Hne Hcred client.
  apply setActiveSite_returns in Hset as (Hfound & ->).
  assert (Hfound' : getSiteById id
                      {| sites := sites (config st); activeSiteId := id |} = Some site)
    by exact Hfound.
  set (st' := {| config := {| sites := sites (config st); activeSiteId := id |};
                 configFile := Some {| sites := sites (config st);
                                       activeSiteId := id |} |}).
  assert (Hid : prop site "id" = id).
  { unfold getSiteById in Hfound. apply find_some in Hfound as [_ H].
    by apply strict_eq_eq. }
  assert (Hc : SiteManager.createClientForSite id st' = (Return client, st'))
    by (by apply createClientForSite_found).
  assert (Ha : SiteManager.createClientForActiveSite st'
               = (if truthy id then (Return client, st')
                  else (Throw (Error "[SiteManager] No active site set"), st'))).
  { unfold SiteManager.createClientForActiveSite, SiteManager.getActiveSite, bind, gets.
    unfold getActiveSite. cbn [st' config activeSiteId].
    destruct (truthy id); cbn [negb]; [|done].
    rewrite Hfound'. by rewrite Hid. }
  split; [exact Hc|]. split; [exact Ha|].
  intros Ht args Hargs. unfold siteClient. rewrite Hargs, Ha. by rewrite Ht.
Qed.

(** X10: when the credentials check fails, nothing is stored and the
    message names both layers.  For a candidate with truthy url, username
    and application password whose [validate] is not [false], if the
    request to the site fails with [err], [SiteManager.addSite] throws
    "[SiteManager] Failed to validate site credentials: [Auth] Failed to
    validate credentials: <message of err>", the store is unchanged, and the
    add_site tool answers with the error envelope of that message.  With a
    falsy url the message is the credential check's "Missing required
    credentials", not the storage's "Missing required field: url". *)
Theorem failed_validation_stores_nothing (schema : string → value) (env : WordPress.Env)
  (site : gmap string value) (st : SiteStorage.t) (err : error) :
  strict_eq (prop site "validate") (VBool false) = false →
  truthy (prop site "username") = true →
  truthy (prop site "applicationPassword") = true →
  WordPress.users_me env (prop site "url") (prop site "username")
    (prop site "applicationPassword") = Throw err →
  let msg := "[SiteManager] Failed to validate site credentials: " +:+
             (if truthy (prop site "url")
              then "[Auth] Failed to validate credentials: " +:+ message err
              else "[Auth] Missing required credentials") in
  SiteManager.addSite env site st = (Throw (Error msg), st)
  ∧ Server.callTool (Server.init schema) "add_site" site env st
    = (Return (failure msg), st).
Proof.
  intros Hv Hu Hp Hme msg.
  assert (Hadd : SiteManager.addSite env site st = (Throw (Error msg), st)).
  { unfold SiteManager.addSite, bind. rewrite Hv, Hu, Hp. cbn [negb andb].
    unfold SiteManager.validate, WordPress.validateCredentials.
    rewrite Hu, Hp, Hme. unfold msg.
    destruct (truthy (prop site "url")); reflexivity. }
  split; [exact Hadd|].
  rewrite (callTool_registered schema "add_site" SiteTools.add_site)
    by (apply list_elem_of_In; cbn; tauto).
  apply (guarded_throw _ st st (Error msg)).
  unfold SiteTools.add_site, bind. by rewrite Hadd.
Qed.

End Manager.

Lemma client_of_selected_site_witness :
  SiteManager.createClientForActiveSite (setActiveSite (VStr "1") Sample.stA).2
  = (Return Sample.clientA, (setActiveSite (VStr "1") Sample.stA).2).
Proof.
  exact (proj1 (proj2 (client_of_selected_site (VStr "1") Sample.siteA "https://a.test"
                         Sample.stA (setActiveSite (VStr "1") Sample.stA).2
                         eq_refl eq_refl ltac:(discriminate) eq_refl))).
Defined.

Lemma failed_validation_stores_nothing_witness :
  SiteManager.addSite Sample.offline More.siteC Sample.stA
  = (Throw (Error ("[SiteManager] Failed to validate site credentials: " +:+
                   "[Auth] Failed to validate credentials: " +:+ "fetch failed")),
     Sample.stA).
Proof.
  exact (proj1 (failed_validation_stores_nothing Sample.no_schema Sample.offline
                  More.siteC Sample.stA (Error "fetch failed")
                  eq_refl eq_refl eq_refl eq_refl)).
Defined.

Section ReadOnly.

Lemma read_only_ret {A} (a : A) : read_only (ret a).
Proof. by intros st. Qed.

Lemma read_only_throw {A} (e : error) : read_only (@throw SiteStorage.t A e).
Proof. by intros st. Qed.

Lemma read_only_lift {A} (o : outcome A) : read_only (lift o).
Proof. by intros st. Qed.

Lemma read_only_gets {A} (f : SiteStorage.t → A) : read_only (gets f).
Proof. by intros st. Qed.

Lemma read_only_bind {A B} (m : M SiteStorage.t A) (k : A → M SiteStorage.t B) :
  read_only m → (∀ a, read_only (k a)) → read_only (bind m k).
Proof.
  intros Hm Hk st. unfold bind. specialize (Hm st).
  destruct (m st) as [[a|e] st1]; cbn in Hm; subst st1; [apply Hk | done].
Qed.

Lemma read_only_guarded (m : M SiteStorage.t Envelope) : read_only m → read_only (guarded m).
Proof.
  intros Hm st. unfold guarded, try_catch. specialize (Hm st).
  by destruct (m st) as [[a|e] st1].
Qed.

End ReadOnly.

Ltac read_only :=
  repeat (cbv zeta;
          match goal with
          | |- read_only (bind _ _) => apply read_only_bind; [|intros]
          | |- read_only (ret _) => apply read_only_ret
          | |- read_only (throw _) => apply read_only_throw
          | |- read_only (lift _) => apply read_only_lift
          | |- read_only (gets _) => apply read_only_gets
          | |- read_only (guarded _) => apply read_only_guarded
          | |- read_only (if ?b then _ else _) => destruct b
          | |- read_only (match ?x with _ => _ end) => destruct x
          end).

Ltac unfold_factories :=
  unfold siteClient, wooClient, wooCall, SiteManager.createClientForWoocommerce,
    SiteManager.createClientForActiveSite, SiteManager.getSiteInfo,
    SiteManager.testSiteConnectivity, SiteManager.createClientForSite,
    SiteManager.getAllSites, SiteManager.getSiteById, SiteManager.getSiteByName,
    SiteManager.getActiveSite.

Section ToolsAndStore.
Context (args : gmap string value) (env : WordPress.Env).

Lemma site_bodies_read_only :
  Forall (fun nb : string * Body => nb.1 ∉ writing_tools → read_only (nb.2 args env))
    SiteTools.bodies.
Proof.
  unfold SiteTools.bodies.
  apply Forall_cons; split;
    [intros H; exfalso; apply H; unfold writing_tools; cbn [fst];
     rewrite !elem_of_cons; tauto|].
  apply Forall_cons; split;
    [intros _; solve [cbn [snd]; unfold SiteTools.list_sites; unfold_factories; read_only]|].
  apply Forall_cons; split;
    [intros _; solve [cbn [snd]; unfold SiteTools.get_site; unfold_factories; read_only]|].
  apply Forall_cons; split;
    [intros H; exfalso; apply H; unfold writing_tools; cbn [fst];
     rewrite !elem_of_cons; tauto|].
  apply Forall_cons; split;
    [intros H; exfalso; apply H; unfold writing_tools; cbn [fst];
     rewrite !elem_of_cons; tauto|].
  apply Forall_cons; split;
    [intros H; exfalso; apply H; unfold writing_tools; cbn [fst];
     rewrite !elem_of_cons; tauto|].
  apply Forall_cons; split;
    [intros _; solve [cbn [snd]; unfold SiteTools.get_active_site; unfold_factories;
                      read_only]|].
  apply Forall_cons; split;
    [intros _; solve [cbn [snd]; unfold SiteTools.test_site_connectivity;
                      unfold_factories; read_only]|].
  apply Forall_cons; split;
    [intros _; solve [cbn [snd]; unfold SiteTools.get_site_info; unfold_factories;
                      read_only]|].
  apply Forall_nil_2.
Qed.

Lemma post_bodies_read_only :
  Forall (fun nb : string * Body => read_only (nb.2 args env)) PostTools.bodies.
Proof.
  unfold PostTools.bodies.
  apply Forall_cons; split; [solve [cbn [snd]; unfold PostTools.with_client, PostTools.listPosts; unfold_factories; read_only]|].
  apply Forall_cons; split; [solve [cbn [snd]; unfold PostTools.with_client, PostTools.getPost; unfold_factories; read_only]|].
  apply Forall_cons; split; [solve [cbn [snd]; unfold PostTools.with_client, PostTools.createPost; unfold_factories; read_only]|].
  apply Forall_cons; split; [solve [cbn [snd]; unfold PostTools.with_client, PostTools.updatePost; unfold_factories; read_only]|].
  apply Forall_cons; split; [solve [cbn [snd]; unfold PostTools.with_client, PostTools.deletePost; unfold_factories; read_only]|].
  apply Forall_nil_2.
Qed.

Lemma page_bodies_read_only :
  Forall (fun nb : string * Body => read_only (nb.2 args env)) PageTools.bodies.
Proof.
  unfold PageTools.bodies.
  apply Forall_cons; split; [solve [cbn [snd]; unfold PageTools.list_pages; unfold_factories; read_only]|].
  apply Forall_cons; split; [solve [cbn [snd]; unfold PageTools.get_page; unfold_factories; read_only]|].
  apply Forall_cons; split; [solve [cbn [snd]; unfold PageTools.create_page; unfold_factories; read_only]|].
  apply Forall_cons; split; [solve [cbn [snd]; unfold PageTools.update_page; unfold_factories; read_only]|].
  apply Forall_cons; split; [solve [cbn [snd]; unfold PageTools.delete_page; unfold_factories; read_only]|].
  apply Forall_nil_2.
Qed.

Lemma product_bodies_read_only :
  Forall (fun nb : string * Body => read_only (nb.2 args env)) WooProductTools.bodies.
Proof.
  unfold WooProductTools.bodies.
  apply Forall_cons; split; [solve [cbn [snd]; unfold WooProductTools.list_products; unfold_factories; read_only]|].
  apply Forall_cons; split; [solve [cbn [snd]; unfold WooProductTools.create_product; unfold_factories; read_only]|].
  apply Forall_cons; split; [solve [cbn [snd]; unfold WooProductTools.update_product; unfold_factories; read_only]|].
  apply Forall_cons; split; [solve [cbn [snd]; unfold WooProductTools.delete_product; unfold_factories; read_only]|].
  apply Forall_nil_2.
Qed.

Lemma order_bodies_read_only :
  Forall (fun nb : string * Body => read_only (nb.2 args env)) WooOrderTools.bodies.
Proof.
  unfold WooOrderTools.bodies.
  apply Forall_cons; split; [solve [cbn [snd]; unfold WooOrderTools.list_orders; unfold_factories; read_only]|].
  apply Forall_cons; split; [solve [cbn [snd]; unfold WooOrderTools.create_order; unfold_factories; read_only]|].
  apply Forall_cons; split; [solve [cbn [snd]; unfold WooOrderTools.update_order; unfold_factories; read_only]|].
  apply Forall_cons; split; [solve [cbn [snd]; unfold WooOrderTools.delete_order; unfold_factories; read_only]|].
  apply Forall_nil_2.
Qed.

Lemma bodies_read_only (name : string) (body : Body) :
  (name, body) ∈ Server.bodies → name ∉ writing_tools → read_only (body args env).
Proof.
  intros Hin.
  assert (H : Forall (fun nb : string * Body =>
                        nb.1 ∉ writing_tools → read_only (nb.2 args env)) Server.bodies).
  { unfold Server.bodies. repeat (apply Forall_app; split).
    - apply site_bodies_read_only.
    - eapply Forall_impl; [apply post_bodies_read_only | by intros].
    - eapply Forall_impl; [apply page_bodies_read_only | by intros].
    - eapply Forall_impl; [apply product_bodies_read_only | by intros].
    - eapply Forall_impl; [apply order_bodies_read_only | by intros]. }
  rewrite Forall_forall in H. exact (H _ Hin).
Qed.

End ToolsAndStore.

(** X11: of the registered tools only add_site, update_site, remove_site
    and select_site can change the site registry: a call of any other
    registered tool leaves the sites, the active-site pointer and the
    written document as they were, whatever the arguments and whatever the
    backend answers. *)
Theorem only_site_tools_write (schema : string → value) (name : string)
  (args : gmap string value) (env : WordPress.Env) (st : SiteStorage.t) :
  is_Some (Server.toolHandlers (Server.init schema) !! name) →
  name ∉ writing_tools →
  (Server.callTool (Server.init schema) name args env st).2 = st.
Proof.
  intros [h Hh] Hw.
  apply init_handler_inv in Hh as (body & Hin & _).
  rewrite (callTool_registered schema name body) by done.
  apply read_only_guarded. by apply (bodies_read_only args env name).
Qed.

Lemma only_site_tools_write_witness :
  (Server.callTool (Server.init Sample.no_schema) "list_posts" Sample.of_site_1
     Sample.offline Sample.stA).2 = Sample.stA.
Proof.
  apply (only_site_tools_write Sample.no_schema "list_posts" Sample.of_site_1
           Sample.offline Sample.stA).
  - rewrite (init_handler Sample.no_schema "list_posts" _ list_posts_registered).
    by eexists.
  - unfold writing_tools. rewrite !elem_of_cons, elem_of_nil.
    intros Hw; repeat (destruct Hw as [Hw|Hw]; [discriminate Hw|]); destruct Hw.
Defined.

Lemma add_site_registered : ("add_site", SiteTools.add_site) ∈ Server.bodies.
Proof.
  unfold Server.bodies. rewrite !elem_of_app. left.
  unfold SiteTools.bodies. rewrite !elem_of_cons. tauto.
Qed.

Lemma unprintable_never_equal (a v : value) : printable v = false → strict_eq a v = false.
Proof.
  intros Hv. destruct (strict_eq a v) eqn:E; [|done].
  apply strict_eq_printable in E as [_ E]. congruence.
Qed.

Lemma find_none {A} (f : A → bool) (l : list A) :
  (∀ x, f x = false) → List.find f l = None.
Proof. intros Hf. induction l as [|x l IH]; [done|]. cbn. by rewrite Hf. Qed.

Lemma log_unprintable (S : Type) (v : value) (rest : list value) (st : S) :
  printable v = false → log (v :: rest) st = (Throw cannot_convert, st).
Proof.
  unfold printable, log. cbn [interpolate].
  destruct (to_string v) as [s|e] eqn:E; [done|intros _].
  apply to_string_throws in E as ->. reflexivity.
Qed.

(** X12: an error envelope does not mean that nothing was stored.  When
    add_site is called with a name that is truthy but cannot be printed (an
    object that has a [toString] property of its own), with a url that no
    stored site has, and with validation switched off or without a full
    pair of credentials, the record is appended to the registry first; the
    log line that names the new site then throws, and the tool answers with
    an error envelope although the registry now holds the record. *)
Theorem add_site_error_after_store (schema : string → value) (args : gmap string value)
  (env : WordPress.Env) (st : SiteStorage.t) :
  truthy (prop args "name") = true →
  printable (prop args "name") = false →
  truthy (prop args "url") = true →
  getSiteByUrl (prop args "url") (config st) = Return None →
  negb (strict_eq (prop args "validate") (VBool false))
    && truthy (prop args "username") && truthy (prop args "applicationPassword") = false →
  ∃ msg st',
    Server.callTool (Server.init schema) "add_site" args env st
    = (Return (failure msg), st')
    ∧ sites (config st')
      = (sites (config st)
         ++ [newSite_of (WordPress.uuidv4 env) (WordPress.now env 0) (WordPress.now env 1)
               args])%list.
Proof.
  intros Hn Hp Hu Hurl Hval.
  rewrite (callTool_registered schema "add_site" _ args env st add_site_registered).
  exists (message cannot_convert),
         (pushed (newSite_of (WordPress.uuidv4 env) (WordPress.now env 0)
                    (WordPress.now env 1) args) st).
  split; [|reflexivity].
  unfold guarded, try_catch, SiteTools.add_site, SiteManager.addSite, bind.
  rewrite Hval. unfold ret at 1.
  rewrite addSite_cases by done.
  assert (getSiteByName (prop args "name") (config st) = None) as ->.
  { unfold getSiteByName. apply find_none. intros x. by apply unprintable_never_equal. }
  rewrite Hurl.
  rewrite !bool_decide_eq_false_2 by (intros [? [=]]).
  by rewrite log_unprintable.
Qed.

Lemma add_site_error_after_store_witness :
  ∃ msg st',
    Server.callTool (Server.init Sample.no_schema) "add_site" More.unnamed
      Sample.offline Sample.stA = (Return (failure msg), st')
    ∧ sites (config st')
      = (sites (config Sample.stA)
         ++ [newSite_of (WordPress.uuidv4 Sample.offline) (WordPress.now Sample.offline 0)
               (WordPress.now Sample.offline 1) More.unnamed])%list.
Proof.
  apply (add_site_error_after_store Sample.no_schema More.unnamed Sample.offline
           Sample.stA); reflexivity.
Defined.

(** X13: the registered WooCommerce tools cannot succeed.  Each of the
    eight product and order tools answers every call with an error
    envelope and leaves the store alone.  With a [site_id] the message is
    that [siteManager.createClientForWoocommerce] is not a function (the
    site manager has no such method).  Without one the client is [false]:
    the update and delete tools first build the request path from
    [args.id], and when that cannot be printed the message is the
    conversion error; in every other case the message is that
    [client.get], [.post], [.put] or [.delete] is not a function. *)
Theorem woo_tools_always_fail (schema : string → value) (name : string)
  (args : gmap string value) (env : WordPress.Env) (st : SiteStorage.t) :
  name ∈ ((WooProductTools.bodies ++ WooOrderTools.bodies)%list).*1 →
  ∃ msg,
    Server.callTool (Server.init schema) name args env st = (Return (failure msg), st)
    ∧ (truthy (prop args "site_id") = true →
       msg = "siteManager.createClientForWoocommerce is not a function")
    ∧ (truthy (prop args "site_id") = false →
       if bool_decide (name ∈ woo_tools_by_id) && negb (printable (prop args "id"))
       then msg = "Cannot convert object to primitive value"
       else ∃ method, method ∈ ["get"; "post"; "put"; "delete"]
                      ∧ msg = "client." +:+ method +:+ " is not a function").
Proof.
  intros Hname. apply list_elem_of_fmap in Hname as ([n body] & -> & Hin). cbn [fst].
  assert (Hreg : (n, body) ∈ Server.bodies).
  { unfold Server.bodies. rewrite !elem_of_app. apply elem_of_app in Hin. tauto. }
  rewrite (callTool_registered schema n body) by exact Hreg.
  assert (Hid : ∀ e, to_string (prop args "id") = Throw e →
                     message e = "Cannot convert object to primitive value").
  { intros e He. by apply to_string_throws in He as ->. }
  apply elem_of_app in Hin as [Hin|Hin];
    [unfold WooProductTools.bodies in Hin | unfold WooOrderTools.bodies in Hin];
    rewrite !elem_of_cons, elem_of_nil in Hin;
    repeat (destruct Hin as [Hin|Hin];
            [injection Hin as -> ->;
             match goal with
             | |- context [bool_decide (?x ∈ ?l)] =>
                 let b := eval vm_compute in (bool_decide (x ∈ l)) in
                 change (bool_decide (x ∈ l)) with b
             end;
             unfold guarded, try_catch, WooProductTools.list_products,
               WooProductTools.create_product, WooProductTools.update_product,
               WooProductTools.delete_product, WooOrderTools.list_orders,
               WooOrderTools.create_order, WooOrderTools.update_order,
               WooOrderTools.delete_order, wooClient, bind, printable;
             destruct (truthy (prop args "site_id"));
             [cbn; eexists; split; [reflexivity|]; split; done|];
             destruct (to_string (prop args "id")) as [shown|e] eqn:E; cbn;
             (eexists; split; [reflexivity|]; split; [done|]); intros _;
             first [ by apply Hid
                   | by exists "get"; split; [rewrite !elem_of_cons; tauto|]
                   | by exists "post"; split; [rewrite !elem_of_cons; tauto|]
                   | by exists "put"; split; [rewrite !elem_of_cons; tauto|]
                   | by exists "delete"; split; [rewrite !elem_of_cons; tauto|] ]
            |]);
    destruct Hin.
Qed.

Lemma woo_tools_always_fail_witness :
  Server.callTool (Server.init Sample.no_schema) "update_order" More.odd_id
    Sample.offline Sample.stA
  = (Return (failure "Cannot convert object to primitive value"), Sample.stA).
Proof.
  destruct (woo_tools_always_fail Sample.no_schema "update_order" More.odd_id
              Sample.offline Sample.stA) as (msg & Hcall & _ & Hmsg).
  - cbn. rewrite !elem_of_cons. tauto.
  - specialize (Hmsg eq_refl).
    change (msg = "Cannot convert object to primitive value") in Hmsg.
    by rewrite Hcall, Hmsg.
Defined.

Section Advertised.
Context (schema : string → value).

Lemma toolDefinitions_registerToolHandlers (bodies : list (string * Body)) (s : Server.t) :
  Server.toolDefinitions (Server.registerToolHandlers bodies s) = Server.toolDefinitions s.
Proof.
  unfold Server.registerToolHandlers. revert s.
  induction bodies as [|nb bodies IH]; intros s; [done|]. cbn [fold_left]. by rewrite IH.
Qed.

Lemma toolDefinitions_setCallToolHandler (h : Server.CallToolHandler) (s : Server.t) :
  Server.toolDefinitions (Server.setCallToolHandler h s) = Server.toolDefinitions s.
Proof. reflexivity. Qed.

Lemma listTools_setListToolsHandler (h : list Descriptor → list Descriptor) (s : Server.t) :
  Server.listTools (Server.setListToolsHandler h s) = Some (h (Server.toolDefinitions s)).
Proof. reflexivity. Qed.

Lemma toolDefinitions_registerTools (s : Server.t) :
  Server.toolDefinitions (Server.registerTools schema s)
  = (Server.toolDefinitions s ++ advertised schema)%list.
Proof.
  unfold Server.registerTools, Server.registerWooOrderTools, Server.registerWooProductTools,
    Server.registerPageTools, Server.registerPostTools, Server.registerSiteTools.
  repeat first [ rewrite toolDefinitions_registerToolHandlers
               | rewrite toolDefinitions_setCallToolHandler
               | rewrite toolDefinitions_registerToolDefinitions ].
  unfold advertised. by rewrite <- !app_assoc.
Qed.

Lemma listTools_init : Server.listTools (Server.init schema) = Some (advertised schema).
Proof.
  unfold Server.init, Server.registerCentralizedToolHandlers.
  rewrite listTools_setListToolsHandler, toolDefinitions_setCallToolHandler.
  by rewrite toolDefinitions_registerTools.
Qed.

Lemma advertised_names :
  map Tool.name (advertised schema)
  = [ "add_site"; "list_sites"; "get_site"; "update_site"; "remove_site"; "select_site";
      "get_active_site"; "get_site_info";
      "list_posts"; "get_post"; "create_post"; "update_post"; "delete_post";
      "list_pages"; "get_page"; "create_page"; "update_page"; "delete_page";
      "list_products"; "create_product"; "update_product"; "delete_product";
      "list_orders"; "create_order"; "update_order"; "delete_order" ].
Proof. reflexivity. Qed.

Lemma handler_registered (n : string) :
  is_Some (Server.toolHandlers (Server.init schema) !! n) ↔ n ∈ tool_names.
Proof.
  rewrite toolHandlers_init. rewrite <- bodies_names. split.
  - intros [h Hh]. apply insert_all_Some in Hh as (b & Hb & _); [|apply bodies_NoDup].
    apply list_elem_of_fmap. by exists (n, b).
  - intros Hn. apply list_elem_of_fmap in Hn as ([n' b] & -> & Hb).
    rewrite (insert_all_in Server.bodies ∅ n' b bodies_NoDup Hb). by eexists.
Qed.

(** X14: what the server lists and what it can run.  A list-tools request
    is answered with the descriptors of the five tool modules in
    registration order; their names are pairwise different; every listed
    tool has a handler; the one handler whose tool is not listed is
    test_site_connectivity; and each descriptor carries the schema written
    for its own name. *)
Theorem listed_tools_and_handlers :
  Server.listTools (Server.init schema) = Some (advertised schema)
  ∧ NoDup (map Tool.name (advertised schema))
  ∧ (∀ n, is_Some (Server.toolHandlers (Server.init schema) !! n)
          ↔ (n ∈ map Tool.name (advertised schema) ∨ n = "test_site_connectivity"))
  ∧ ("test_site_connectivity" ∉ map Tool.name (advertised schema))
  ∧ ∀ d, d ∈ advertised schema → inputSchema d = schema (Tool.name d).
Proof.
  split; [apply listTools_init|].
  split; [rewrite advertised_names; apply (bool_decide_unpack (NoDup _)); by vm_compute|].
  split.
  { intros n. rewrite handler_registered, advertised_names. unfold tool_names.
    rewrite !elem_of_cons, !elem_of_nil. tauto. }
  split.
  { rewrite advertised_names. apply (bool_decide_unpack (_ ∉ _)). by vm_compute. }
  intros d Hd. unfold advertised in Hd. rewrite !elem_of_app in Hd.
  unfold SiteTools.tools, PostTools.tools, PageTools.tools, WooProductTools.tools,
    WooOrderTools.tools in Hd.
  rewrite !list_elem_of_fmap in Hd.
  by destruct Hd as [(? & -> & _)|[(? & -> & _)|[(? & -> & _)|[(? & -> & _)|(? & -> & _)]]]].
Qed.

End Advertised.

Section UpdateSiteTool.

Lemma manager_updateSite_storage (env : WordPress.Env) (id : value)
  (updates r : gmap string value) (st st' : SiteStorage.t) :
  SiteManager.updateSite env id updates st = (Return r, st') →
  updateSite (WordPress.now env 0) id (delete "validate" updates) st = (Return r, st').
Proof.
  unfold SiteManager.updateSite, SiteManager.getSiteById, bind, gets.
  destruct (getSiteById id (config st)) as [current|];
    [|unfold lift, throw; by destruct (to_string id)].
  set (v := if negb _ then _ else _).
  assert (Hv : (v st).2 = st).
  { unfold v. destruct (negb _); [|done]. destruct (_ && _); [|done].
    apply validate_state. }
  by destruct (v st) as [[[]|e] st1]; simpl in Hv; subst st1.
Qed.

(** X15: what the update_site tool stores.  When it answers with success,
    the record whose id is [args.id] has been replaced in place by a record
    with the same id and the same [validate] property as before (the tool
    strips [id] from the patch, the site manager strips [validate]); every
    other argument is written into the record as it came, the
    presentation flag [includeCredentials] included, and the response
    carries the printed name of the new record in its message and shows the
    record filtered by that flag. *)
Theorem update_site_stores_arguments (args : gmap string value) (env : WordPress.Env)
  (st st' : SiteStorage.t) (e : Envelope) :
  SiteTools.update_site args env st = (Return e, st') →
  ∃ i current r,
    sites (config st) !! i = Some current
    ∧ getSiteById (prop args "id") (config st) = Some current
    ∧ sites (config st') = <[i := r]> (sites (config st))
    ∧ r !! "id" = current !! "id"
    ∧ r !! "validate" = current !! "validate"
    ∧ (∀ k v, k ∉ ["id"; "validate"; "updatedAt"] → args !! k = Some v → r !! k = Some v)
    ∧ ∃ name,
        to_string (prop r "name") = Return name
        ∧ e = success
                [ ("message", VStr ("Site " +:+ dq +:+ name +:+ dq +:+
                                    " updated successfully"));
                  ("site", SiteTools.filterCredentials (Some r)
                             (prop args "includeCredentials")) ].
Proof.
  unfold SiteTools.update_site, bind. cbv zeta.
  destruct (SiteManager.updateSite env _ _ st) as [[r|err] st1] eqn:E; [|discriminate].
  unfold lift, ret.
  destruct (to_string (prop r "name")) as [name|err] eqn:En; [|discriminate].
  intros [= <- <-].
  apply manager_updateSite_storage, updateSite_returns in E
    as (i & current & Hi & Hfind & Hr & ->).
  exists i, current, r. cbn.
  split; [done|]. split; [done|]. split; [done|]. split; [|split; [|split; [|by eauto]]].
  - rewrite Hr, lookup_insert_ne by done.
    by rewrite lookup_union_r by (by rewrite lookup_delete_ne, lookup_delete_eq).
  - rewrite Hr, lookup_insert_ne by done.
    by rewrite lookup_union_r by apply lookup_delete_eq.
  - intros k v Hk Hv. rewrite !not_elem_of_cons in Hk. destruct Hk as (? & ? & ? & _).
    rewrite Hr, lookup_insert_ne by done. apply lookup_union_Some_l.
    by rewrite !lookup_delete_ne.
Qed.

End UpdateSiteTool.

Lemma update_site_stores_arguments_witness :
  ∃ i current r,
    sites (config Sample.stA) !! i = Some current
    ∧ r !! "id" = current !! "id"
    ∧ r !! "includeCredentials" = Some (VBool true)
    ∧ sites (config (SiteTools.update_site More.rename_unchecked Sample.offline
                       Sample.stA).2) = <[i := r]> (sites (config Sample.stA)).
Proof.
  destruct (update_site_stores_arguments More.rename_unchecked Sample.offline Sample.stA
              (SiteTools.update_site More.rename_unchecked Sample.offline Sample.stA).2
              (success
                 [ ("message", VStr ("Site " +:+ dq +:+ "C" +:+ dq +:+
                                     " updated successfully"));
                   ("site", VObj (<["updatedAt" := VStr "2024-01-02T00:00:00.000Z"]>
                                    (delete "validate" (delete "id" More.rename_unchecked)
                                     ∪ Sample.siteA))) ])
              eq_refl)
    as (i & current & r & Hi & _ & Hsites & Hid & _ & Hargs).
  exists i, current, r. split; [exact Hi|]. split; [exact Hid|]. split; [|exact Hsites].
  apply (proj1 Hargs); [|reflexivity].
  rewrite !not_elem_of_cons. repeat split; try discriminate. apply not_elem_of_nil.
Defined.

Section ModuleHandlers.
Context (schema : string → value).

Lemma find_name_None (n : string) (l : list Descriptor) :
  n ∉ map Tool.name l → List.find (fun t => bool_decide (Tool.name t = n)) l = None.
Proof.
  induction l as [|d l IH]; [done|]. cbn [map List.find].
  rewrite not_elem_of_cons. intros [Hd Hl].
  rewrite bool_decide_eq_false_2 by congruence. by apply IH.
Qed.

Lemma find_name_Some (n : string) (l : list Descriptor) :
  n ∈ map Tool.name l → is_Some (List.find (fun t => bool_decide (Tool.name t = n)) l).
Proof.
  induction l as [|d l IH]; [by rewrite elem_of_nil|]. cbn [map List.find].
  rewrite elem_of_cons. intros Hn. case_bool_decide; [by eexists|].
  apply IH. destruct Hn; [congruence | done].
Qed.

Lemma no_active_site (args : gmap string value) (st : SiteStorage.t) :
  truthy (prop args "site_id") = false →
  getActiveSite (config st) = None →
  siteClient args st = (Throw (Error "[SiteManager] No active site set"), st).
Proof.
  intros Hsite Hactive. unfold siteClient. rewrite Hsite.
  unfold SiteManager.createClientForActiveSite, SiteManager.getActiveSite, bind, gets.
  by rewrite Hactive.
Qed.

(** X16: the call-tool handlers the post, product and order modules
    install themselves.  For a name that is not one of its own tools such a
    handler hands the request to [request.next] when there is one and
    otherwise answers with the error envelope "Unknown tool: <name>".  For
    one of its own tools it first resolves the site: without [site_id] and
    without an active site the answer is the error envelope
    "[SiteManager] No active site set", whichever tool was asked for.  In
    neither case is the store changed. *)
Theorem module_handlers_delegate
  (tools : list Descriptor)
  (handler : Request.t → WordPress.Env → M SiteStorage.t Envelope)
  (name : string) (args : gmap string value) (env : WordPress.Env)
  (st : SiteStorage.t) :
  (tools, handler) ∈ module_handlers schema →
  (name ∉ map Tool.name tools →
     (∀ next, handler (request_for name args (Some next)) env st = next st)
     ∧ handler (request_for name args None) env st
       = (Return (failure ("Unknown tool: " +:+ name)), st))
  ∧ (name ∈ map Tool.name tools →
     truthy (prop args "site_id") = false →
     getActiveSite (config st) = None →
     ∀ next, handler (request_for name args next) env st
             = (Return (failure "[SiteManager] No active site set"), st)).
Proof.
  unfold module_handlers. rewrite !elem_of_cons, elem_of_nil.
  intros [[= -> ->]|[[= -> ->]|[[= -> ->]|[]]]].
  - split.
    + intros Hn. apply find_name_None in Hn.
      unfold PostTools.callTool, request_for. cbn [Request.name Request.params Request.next].
      by rewrite Hn.
    + intros Hn Hsite Hactive next. apply find_name_Some in Hn as [d Hd].
      unfold PostTools.callTool, request_for.
      cbn [Request.name Request.params Request.next Request.arguments].
      rewrite Hd. apply (guarded_throw _ st st (Error "[SiteManager] No active site set")).
      unfold bind. by rewrite no_active_site.
  - split.
    + intros Hn. apply find_name_None in Hn.
      unfold WooProductTools.callTool, request_for.
      cbn [Request.name Request.params Request.next].
      by rewrite Hn.
    + intros Hn Hsite Hactive next. apply find_name_Some in Hn as [d Hd].
      unfold WooProductTools.callTool, request_for.
      cbn [Request.name Request.params Request.next Request.arguments].
      rewrite Hd. apply (guarded_throw _ st st (Error "[SiteManager] No active site set")).
      unfold bind. by rewrite no_active_site.
  - split.
    + intros Hn. apply find_name_None in Hn.
      unfold WooOrderTools.callTool, request_for.
      cbn [Request.name Request.params Request.next].
      by rewrite Hn.
    + intros Hn Hsite Hactive next. apply find_name_Some in Hn as [d Hd].
      unfold WooOrderTools.callTool, request_for.
      cbn [Request.name Request.params Request.next Request.arguments].
      rewrite Hd. apply (guarded_throw _ st st (Error "[SiteManager] No active site set")).
      unfold bind. by rewrite no_active_site.
Qed.

End ModuleHandlers.

Lemma module_handlers_delegate_witness :
  PostTools.callTool Sample.no_schema (request_for "list_posts" Sample.first_page None)
    Sample.offline Sample.st0
  = (Return (failure "[SiteManager] No active site set"), Sample.st0).
Proof.
  apply (module_handlers_delegate Sample.no_schema (PostTools.tools Sample.no_schema)
           (PostTools.callTool Sample.no_schema) "list_posts" Sample.first_page
           Sample.offline Sample.st0).
  - unfold module_handlers. apply list_elem_of_here.
  - cbn. rewrite !elem_of_cons. tauto.
  - reflexivity.
  - reflexivity.
Defined.

Section ListPostsArguments.



End ListPostsArguments.


Section Literals.

Lemma mapM_length {A B} (f : A → outcome B) (l : list A) (ys : list B) :
  Json.mapM f l = Return ys → Forall2 (fun x y => f x = Return y) l ys.
Proof.
  revert ys. induction l as [|x l IH]; intros ys; cbn [Json.mapM].
  - intros [= <-]. constructor.
  - destruct (f x) as [y|e] eqn:E; [|discriminate].
    destruct (Json.mapM f l) as [ys'|e]; [|discriminate].
    intros [= <-]. constructor; [done | by apply IH].
Qed.

Lemma literal_fields_keys (fields : list (string * outcome value))
  (kvs : list (string * value)) :
  Json.literal_fields fields = Return kvs → kvs.*1 = fields.*1.
Proof.
  revert kvs. induction fields as [|[k o] fields IH]; intros kvs; cbn [Json.literal_fields].
  - by intros [= <-].
  - destruct o as [v|e]; [|discriminate]. cbn [and_then].
    destruct (Json.literal_fields fields) as [vs|e]; [|discriminate]. cbn [and_then].
    intros [= <-]. cbn. by rewrite (IH vs).
Qed.

Lemma literal_keys (fields : list (string * outcome value)) (v : value) :
  Json.literal fields = Return v →
  ∃ m : gmap string value, v = VObj m ∧ dom m = list_to_set (C := gset string) fields.*1.
Proof.
  unfold Json.literal.
  destruct (Json.literal_fields fields) as [kvs|e] eqn:E; [|discriminate].
  cbn [and_then]. intros [= <-]. eexists. split; [done|].
  by rewrite dom_list_to_map_L, (literal_fields_keys _ _ E).
Qed.

Lemma literal_fields_lookup (fields : list (string * outcome value))
  (kvs : list (string * value)) (k : string) (o : outcome value) :
  NoDup fields.*1 → Json.literal_fields fields = Return kvs → (k, o) ∈ fields →
  o = Return (prop (list_to_map kvs) k).
Proof.
  revert kvs. induction fields as [|[k0 o0] fields IH]; intros kvs Hnd;
    cbn [Json.literal_fields].
  - intros _ Hin. by apply elem_of_nil in Hin.
  - destruct o0 as [v0|e]; [|discriminate]. cbn [and_then].
    destruct (Json.literal_fields fields) as [vs|e] eqn:E; [|discriminate]. cbn [and_then].
    intros [= <-] Hin. cbn [list_to_map foldr curry fst snd].
    apply NoDup_cons in Hnd as [Hk0 Hnd]. cbn [fmap list_fmap fst] in Hk0.
    apply elem_of_cons in Hin as [[= -> ->]|Hin].
    + unfold prop. by rewrite lookup_insert_eq.
    + assert (k ≠ k0).
      { intros ->. apply Hk0. apply list_elem_of_fmap. by exists (k0, o). }
      unfold prop. rewrite lookup_insert_ne by done. by apply (IH vs).
Qed.

Lemma literal_lookup (fields : list (string * outcome value)) (m : gmap string value)
  (k : string) (o : outcome value) :
  NoDup fields.*1 → Json.literal fields = Return (VObj m) → (k, o) ∈ fields →
  o = Return (prop m k).
Proof.
  intros Hnd. unfold Json.literal.
  destruct (Json.literal_fields fields) as [kvs|e] eqn:E; [|discriminate].
  cbn [and_then]. intros [= <-]. by apply literal_fields_lookup.
Qed.

(** What is left of an object in the encoded text. *)
Lemma decoded_object (m : gmap string value) :
  ∃ shown : gmap string value,
    Json.decoded (VObj m) = VObj shown
    ∧ ∀ k, is_Some (shown !! k) ↔ (is_Some (m !! k) ∧ prop m k ≠ VUndefined).
Proof.
  exists (omap (fun x => match x with
                         | VUndefined => None
                         | _ => Some (Json.decoded x)
                         end) m).
  split; [reflexivity|]. intros k. rewrite lookup_omap. unfold prop.
  destruct (m !! k) as [v|]; cbn.
  - destruct v; cbn;
      (split;
       [ intros H; first [ by destruct H as [? [=]] | split; [by eexists | discriminate] ]
       | intros [_ H]; first [ by destruct H | by eexists ] ]).
  - split; [intros [? [=]] | intros [[? [=]] _]].
Qed.

End Literals.

Section ListPosts.

(** X18: a successful list_posts.  When the guarded block of list_posts
    returns, the backend has answered the GET of [/wp/v2/posts] (with the
    listed query parameters the caller defined) with an array; the value
    the response encodes reports the length of that array as [count], the
    page asked for (1 if none), 0 for [total] and [total_pages], which the
    handler reads from a response object the client never records, and one
    summary per post in the same order.  Each summary holds the post's
    [title.rendered] and [excerpt.rendered] and nine properties copied
    under their own names; in the encoded text it has those of the eleven
    keys whose value is defined, and no other.  The store is not
    changed. *)
Theorem list_posts_reports_the_page (client : WordPress.WordPressClient)
  (args : gmap string value) (env : WordPress.Env) (st st' : SiteStorage.t)
  (e : Envelope) :
  PostTools.listPosts client args env st = (Return e, st') →
  ∃ posts items,
    WordPress.get env client "/wp/v2/posts"
      (VObj (Json.pick ["per_page"; "page"; "search"; "categories"; "tags"; "status";
                        "order"; "orderby"] args))
    = Return (VArr posts)
    ∧ length items = length posts
    ∧ Forall2 (fun post item => ∃ m shown : gmap string value,
                 item = VObj m
                 ∧ Json.path post ["title"; "rendered"] = Return (prop m "title")
                 ∧ Json.path post ["excerpt"; "rendered"] = Return (prop m "excerpt")
                 ∧ (∀ k, k ∈ copied_keys → Json.get post k = Return (prop m k))
                 ∧ Json.decoded item = VObj shown
                 ∧ ∀ k, is_Some (shown !! k)
                        ↔ (k ∈ summary_keys ∧ prop m k ≠ VUndefined))
        posts items
    ∧ st' = st
    ∧ e = success
            [ ("count", VNum (Z.of_nat (length posts))); ("total", VNum 0);
              ("total_pages", VNum 0);
              ("current_page", or_else (prop args "page") (VNum 1));
              ("posts", VArr items) ].
Proof.
  unfold PostTools.listPosts, bind, lift. cbv zeta.
  destruct (WordPress.get env client _ _) as [posts|err]; [|discriminate].
  destruct (Json.get posts "length") as [count|err] eqn:Ecount; [|discriminate].
  destruct posts as [| | | | |posts|]; try discriminate.
  unfold Json.array_map.
  destruct (Json.mapM _ posts) as [items|err] eqn:Eitems; [|discriminate].
  unfold ret. intros [= <- <-]. exists posts, items. split; [done|].
  apply mapM_length in Eitems.
  split; [symmetry; by eapply Forall2_length|].
  split.
  { clear Ecount. induction Eitems as [|x y l l' Hy _ IH]; constructor; [|exact IH].
    destruct (literal_keys _ _ Hy) as (m & -> & Hdom).
    destruct (decoded_object m) as (shown & Hshown & Hkeys).
    pose proof Hy as Hlook.
    match type of Hlook with
    | Json.literal ?fields = _ =>
        assert (Hnd : NoDup fields.*1) by (apply (bool_decide_unpack _); by vm_compute);
        clear Hlook;
        pose proof (fun k o => literal_lookup fields m k o Hnd Hy) as Hlook
    end.
    exists m, shown. split; [done|].
    split; [apply Hlook; rewrite !elem_of_cons; tauto|].
    split; [apply Hlook; rewrite !elem_of_cons; tauto|].
    split.
    { intros k Hk. unfold copied_keys in Hk. rewrite !elem_of_cons, elem_of_nil in Hk.
      apply Hlook. rewrite !elem_of_cons.
      repeat (destruct Hk as [->|Hk]; [tauto|]). destruct Hk. }
    split; [done|].
    intros k. rewrite Hkeys. rewrite <- elem_of_dom, Hdom, elem_of_list_to_set. done. }
  split; [done|].
  cbn in Ecount. by injection Ecount as <-.
Qed.

End ListPosts.

Lemma list_posts_reports_the_page_witness :
  ∃ posts items : list value,
    WordPress.get More.online Sample.clientA "/wp/v2/posts"
      (VObj (Json.pick ["per_page"; "page"; "search"; "categories"; "tags"; "status";
                        "order"; "orderby"] Sample.first_page))
    = Return (VArr posts)
    ∧ length items = length posts.
Proof.
  destruct (list_posts_reports_the_page Sample.clientA Sample.first_page More.online
              Sample.stA
              (PostTools.listPosts Sample.clientA Sample.first_page More.online
                 Sample.stA).2
              (success
                 [ ("count", VNum 1); ("total", VNum 0); ("total_pages", VNum 0);
                   ("current_page", VNum 1);
                   ("posts",
                    VArr [ VObj (list_to_map
                             [ ("id", VNum 7); ("title", VStr "Hello");
                               ("excerpt", VStr "First post");
                               ("status", VStr "publish"); ("date", VUndefined);
                               ("modified", VUndefined); ("link", VUndefined);
                               ("author", VUndefined); ("featured_media", VUndefined);
                               ("categories", VUndefined); ("tags", VUndefined) ]) ]) ])
              eq_refl)
    as (posts & items & Hget & Hlen & _).
  by exists posts, items.
Defined.

Section SiteInfo.



End SiteInfo.


Section SessionId.

Lemma before_prefix (sep : ascii) (s : string) :
  ∃ rest, s = Sse.before sep s +:+ rest
          ∧ (rest = "" ∨ ∃ rest', rest = String sep rest').
Proof.
  induction s as [|c s (rest & IH & Hrest)]; [exists ""; auto|].
  cbn [Sse.before]. case_bool_decide as Hc.
  - subst c. exists (String sep s). split; [done|]. right. by eexists.
  - exists rest. split; [|done].
    change (String c s = String c (Sse.before sep s +:+ rest)). by rewrite <- IH.
Qed.

Lemma before_chars (sep : ascii) (s : string) : sep ∉ chars (Sse.before sep s).
Proof.
  induction s as [|c s IH]; cbn [Sse.before]; [apply not_elem_of_nil|].
  case_bool_decide as Hc; [apply not_elem_of_nil|].
  cbn [chars]. rewrite not_elem_of_cons. split; [congruence | done].
Qed.

Lemma before_chars_other (sep c : ascii) (s : string) :
  c ∉ chars s → c ∉ chars (Sse.before sep s).
Proof.
  induction s as [|c' s IH]; cbn [Sse.before]; [done|].
  cbn [chars]. rewrite not_elem_of_cons. intros [Hc Hs].
  case_bool_decide; [apply not_elem_of_nil|].
  cbn [chars]. rewrite not_elem_of_cons. auto.
Qed.

Lemma before_absent (sep : ascii) (s : string) : sep ∉ chars s → Sse.before sep s = s.
Proof.
  induction s as [|c s IH]; [done|]. cbn [chars Sse.before].
  rewrite not_elem_of_cons. intros [Hc Hs].
  rewrite bool_decide_eq_false_2 by congruence. by rewrite IH.
Qed.

(** X20: the session id the message route looks up.  For a string
    [sessionId] query value the id is the longest prefix that contains
    neither [?] nor [&]: it is a prefix of the raw value, what follows it
    is empty or starts with one of the two characters, and it contains
    neither; a raw value without them is used as it is, and parsing a
    parsed id changes nothing.  A value that is not a string is passed
    through. *)
Theorem sessionId_is_longest_clean_prefix (raw : string) :
  ∃ id rest,
    Sse.sessionId (VStr raw) = VStr id
    ∧ raw = id +:+ rest
    ∧ (rest = "" ∨ ∃ c rest', rest = String c rest' ∧ (c = "?"%char ∨ c = "&"%char))
    ∧ ("?"%char ∉ chars id) ∧ ("&"%char ∉ chars id)
    ∧ Sse.sessionId (VStr id) = VStr id
    ∧ (("?"%char ∉ chars raw) → ("&"%char ∉ chars raw) → id = raw).
Proof.
  destruct (before_prefix "?" raw) as (r1 & H1 & Hr1).
  destruct (before_prefix "&" (Sse.before "?" raw)) as (r2 & H2 & Hr2).
  exists (Sse.before "&" (Sse.before "?" raw)), (r2 +:+ r1).
  assert (Hq : "?"%char ∉ chars (Sse.before "&" (Sse.before "?" raw)))
    by apply before_chars_other, before_chars.
  assert (Ha : "&"%char ∉ chars (Sse.before "&" (Sse.before "?" raw)))
    by apply before_chars.
  split; [done|]. split.
  { rewrite <- append_assoc, <- H2. exact H1. }
  split.
  { destruct Hr2 as [->|(r2' & ->)].
    - destruct Hr1 as [->|(r1' & ->)]; [by left|].
      right. exists "?"%char, r1'. auto.
    - right. exists "&"%char, (r2' +:+ r1). auto. }
  split; [exact Hq|]. split; [exact Ha|]. split.
  { cbn [Sse.sessionId]. by rewrite (before_absent "?"), (before_absent "&"). }
  intros Hq' Ha'. by rewrite (before_absent "?"), (before_absent "&").
Qed.

End SessionId.
